(** * searchnets: configuration classes and the training driver

    A shallow embedding of [searchnets/config/classes.py] and
    [searchnets/train.py].  Python values are a small tagged union, raising is
    a [result], and the driver's calls to its collaborators (numpy, torch,
    the dataset classes, the trainers) are recorded in an event log. *)

From Stdlib Require Import ZArith List String Bool Lia.
From Stdlib Require Import Floats.
Import ListNotations.

Set Warnings "-register-all,-inexact-float".

Local Open Scope string_scope.
Local Open Scope list_scope.
Local Open Scope Z_scope.

(** ** Python values *)

Inductive pyval : Type :=
| PyNone
| PyBool (b : bool)
| PyInt (z : Z)
| PyFloat (f : float)
| PyStr (s : string)
| PyList (l : list pyval).

Inductive pytype : Type := NoneType | bool_t | int_t | float_t | str_t | list_t.

(** [type(v)] *)
Definition py_type (v : pyval) : pytype :=
  match v with
  | PyNone => NoneType
  | PyBool _ => bool_t
  | PyInt _ => int_t
  | PyFloat _ => float_t
  | PyStr _ => str_t
  | PyList _ => list_t
  end.

Definition pytype_eqb (a b : pytype) : bool :=
  match a, b with
  | NoneType, NoneType | bool_t, bool_t | int_t, int_t
  | float_t, float_t | str_t, str_t | list_t, list_t => true
  | _, _ => false
  end.

(** [isinstance(v, t)]: [bool] is a subclass of [int]. *)
Definition isinstance (v : pyval) (t : pytype) : bool :=
  match py_type v, t with
  | bool_t, int_t => true
  | a, b => pytype_eqb a b
  end.

(** [v is None] *)
Definition is_None (v : pyval) : bool :=
  match v with PyNone => true | _ => false end.

(** Truth value of an object, as tested by [if], [and], [or]. *)
Definition py_truthy (v : pyval) : bool :=
  match v with
  | PyNone => false
  | PyBool b => b
  | PyInt z => negb (z =? 0)
  | PyFloat f => negb (PrimFloat.eqb f 0%float)
  | PyStr s => negb (String.eqb s "")
  | PyList l => match l with [] => false | _ => true end
  end.

(** [v == s] for a string literal [s]: only a [str] can be equal to it. *)
Definition py_eq_str (v : pyval) (s : string) : bool :=
  match v with PyStr t => String.eqb t s | _ => false end.

(** ** Exceptions *)

Inductive exn_class : Type :=
| TypeError | ValueError | OverflowError | UnboundLocalError | CollaboratorError.

(** An exception: its class and the text of its message (the values that
    the source interpolates into the message are left out). *)
Inductive exn : Type := Exn (cls : exn_class) (msg : string).

Definition exn_cls (e : exn) : exn_class := let '(Exn c _) := e in c.

Inductive result (A : Type) : Type :=
| Ok (a : A)
| Raise (e : exn).
Arguments Ok {A} a.
Arguments Raise {A} e.

Definition rbind {A B : Type} (m : result A) (k : A -> result B) : result B :=
  match m with
  | Ok a => k a
  | Raise e => Raise e
  end.

Declare Scope res_scope.
Delimit Scope res_scope with res.
Notation "x <- m ;; k" := (rbind m (fun x => k))
  (at level 61, m at next level, right associativity) : res_scope.
Notation "m ;; k" := (rbind m (fun _ => k))
  (at level 61, right associativity) : res_scope.

Definition raises {A : Type} (r : result A) : Prop := exists e, r = Raise e.

(** The classes the configuration layer reports a bad value with. *)
Definition is_validation_error (e : exn) : bool :=
  match exn_cls e with
  | TypeError | ValueError => true
  | _ => false
  end.

(** ** Numbers *)

(** Nearest double of an integer (round half to even). *)
Definition Z2float (z : Z) : float :=
  SF2Prim (binary_normalize prec emax z 0 false).
Arguments Z2float : simpl never.

Definition is_infinity (f : float) : bool :=
  (PrimFloat.eqb f infinity || PrimFloat.eqb f neg_infinity)%bool.

(** [float(z)] as done by mixed arithmetic: too large an int raises. *)
Definition float_of_int (z : Z) : result float :=
  let f := Z2float z in
  if is_infinity f then Raise (Exn OverflowError "int too large to convert to float")
  else Ok f.

(** The integer a [bool] or [int] stands for. *)
Definition as_int (v : pyval) : option Z :=
  match v with
  | PyBool b => Some (if b then 1 else 0)
  | PyInt z => Some z
  | _ => None
  end.

(** [a + b] *)
Definition py_add (a b : pyval) : result pyval :=
  let unsupported := Raise (Exn TypeError "unsupported operand type(s) for +") in
  match a, b with
  | PyFloat x, PyFloat y => Ok (PyFloat (PrimFloat.add x y))
  | PyFloat x, _ =>
      match as_int b with
      | Some z => (y <- float_of_int z ;; Ok (PyFloat (PrimFloat.add x y)))%res
      | None => unsupported
      end
  | _, PyFloat y =>
      match as_int a with
      | Some z => (x <- float_of_int z ;; Ok (PyFloat (PrimFloat.add x y)))%res
      | None => unsupported
      end
  | PyStr s, PyStr t => Ok (PyStr (String.append s t))
  | PyList l, PyList m => Ok (PyList (l ++ m))
  | _, _ =>
      match as_int a, as_int b with
      | Some x, Some y => Ok (PyInt (x + y))
      | _, _ => unsupported
      end
  end.

(** [v < k] for an integer literal [k] (a double is compared with the
    double of [k], which is exact for the literals of the source). *)
Definition py_lt_int (v : pyval) (k : Z) : result bool :=
  match v with
  | PyBool _ | PyInt _ =>
      match as_int v with
      | Some z => Ok (z <? k)
      | None => Ok false
      end
  | PyFloat f => Ok (PrimFloat.ltb f (Z2float k))
  | _ => Raise (Exn TypeError "'<' not supported between these instances")
  end.

(** [v > k] for an integer literal [k]. *)
Definition py_gt_int (v : pyval) (k : Z) : result bool :=
  match v with
  | PyBool _ | PyInt _ =>
      match as_int v with
      | Some z => Ok (k <? z)
      | None => Ok false
      end
  | PyFloat f => Ok (PrimFloat.ltb (Z2float k) f)
  | _ => Raise (Exn TypeError "'>' not supported between these instances")
  end.

(** [sum(l)]: the items are added from the left, starting from the int 0;
    doubles are added one by one with the rounding of [+] (CPython switched
    to a compensated sum of doubles in 3.12, after this code was written). *)
Fixpoint py_sum_from (acc : pyval) (l : list pyval) : result pyval :=
  match l with
  | [] => Ok acc
  | x :: l' => (acc' <- py_add acc x ;; py_sum_from acc' l')%res
  end.

Definition py_sum (l : list pyval) : result pyval := py_sum_from (PyInt 0) l.

Definition string_chars (s : string) : list pyval :=
  map (fun c => PyStr (String c EmptyString)) (list_ascii_of_string s).

(** The items a [for] loop visits. *)
Definition py_iter (v : pyval) : result (list pyval) :=
  match v with
  | PyList l => Ok l
  | PyStr s => Ok (string_chars s)
  | _ => Raise (Exn TypeError "object is not iterable")
  end.

(** [v in {s1, s2, ...}] for a set literal of strings: [v] is hashed first. *)
Definition py_in_strs (v : pyval) (set : list string) : result bool :=
  match v with
  | PyList _ => Raise (Exn TypeError "unhashable type: 'list'")
  | _ => Ok (existsb (py_eq_str v) set)
  end.

(** ** attrs validators

    A validator receives the attribute (here: its name) and the value, and
    either returns or raises. *)

Definition validator : Type := string -> pyval -> result unit.

(** [attr.validators.instance_of(ts)] *)
Definition instance_of (ts : list pytype) : validator :=
  fun name value =>
    if existsb (isinstance value) ts then Ok tt
    else Raise (Exn TypeError (String.append name " must be of the declared type")).

(** [attr.validators.optional(v)] *)
Definition optional (v : validator) : validator :=
  fun name value => if is_None value then Ok tt else v name value.

(** A list of validators (and a validator method added with
    [@field.validator]) runs in order; the first to raise wins. *)
Fixpoint and_ (vs : list validator) : validator :=
  fun name value =>
    match vs with
    | [] => Ok tt
    | v :: vs' => (v name value ;; and_ vs' name value)%res
    end.

Local Open Scope res_scope.

Fixpoint is_list_of_pos_int_items (name : string) (items : list pyval) : result unit :=
  match items with
  | [] => Ok tt
  | item :: rest =>
      if negb (pytype_eqb (py_type item) int_t) then
        Raise (Exn ValueError (String.append "all elements must be int in " name))
      else
        small <- py_lt_int item 1 ;;
        if (small : bool) then
          Raise (Exn ValueError (String.append "all elements must be positive integer in " name))
        else is_list_of_pos_int_items name rest
  end.

Definition is_list_of_pos_int : validator :=
  fun name value =>
    if negb (pytype_eqb (py_type value) list_t) then
      Raise (Exn ValueError (String.append name " must be a list"))
    else
      items <- py_iter value ;;
      is_list_of_pos_int_items name items.

Fixpoint is_list_of_str_items (name : string) (items : list pyval) : result unit :=
  match items with
  | [] => Ok tt
  | item :: rest =>
      if negb (pytype_eqb (py_type item) str_t) then
        Raise (Exn ValueError (String.append "all elements must be str in " name))
      else is_list_of_str_items name rest
  end.

Definition is_list_of_str : validator :=
  fun name value =>
    if negb (pytype_eqb (py_type value) list_t) then
      Raise (Exn ValueError (String.append name " must be a list"))
    else
      items <- py_iter value ;;
      is_list_of_str_items name items.

Definition is_valid_proportion : validator :=
  fun name value =>
    match value with
    | PyFloat f =>
        if (PrimFloat.ltb f 0%float || PrimFloat.ltb 1%float f)%bool then
          Raise (Exn ValueError
                   (String.append name " must be between 0 and 1 if specified as a proportion"))
        else Ok tt
    | _ => Ok tt
    end.

Definition is_pos_int : validator :=
  fun name value =>
    if negb (pytype_eqb (py_type value) int_t) then
      Raise (Exn ValueError (String.append name " must be an int"))
    else
      small <- py_lt_int value 1 ;;
      if (small : bool) then
        Raise (Exn ValueError (String.append name " must be a positive integer"))
      else Ok tt.

Definition is_non_neg_int : validator :=
  fun name value =>
    if negb (pytype_eqb (py_type value) int_t) then
      Raise (Exn ValueError (String.append name " must be an int"))
    else
      small <- py_lt_int value 0 ;;
      if (small : bool) then
        Raise (Exn ValueError (String.append name " must be a non-negative integer"))
      else Ok tt.

(** A validator method of the form
    [if value not in {...}: raise ValueError(...)]. *)
Definition check_one_of (set : list string) : validator :=
  fun name value =>
    found <- py_in_strs value set ;;
    if negb found then
      Raise (Exn ValueError (String.append name " is not one of the allowed values"))
    else Ok tt.

(** A validator method of the form
    [for ind, x in enumerate(value): if type(x) != t: raise TypeError(...)]. *)
Fixpoint check_items_of_type (t : pytype) (name : string) (items : list pyval)
  : result unit :=
  match items with
  | [] => Ok tt
  | x :: rest =>
      if negb (pytype_eqb (py_type x) t) then
        Raise (Exn TypeError (String.append "wrong type for an element of " name))
      else check_items_of_type t name rest
  end.

Definition check_all_of_type (t : pytype) : validator :=
  fun name value =>
    items <- py_iter value ;;
    check_items_of_type t name items.

(** One attribute of an attrs class, as [__init__] sees it: name, validator,
    value. *)
Definition attribute : Type := string * validator * pyval.

Definition validate (a : attribute) : result unit :=
  let '(name, v, value) := a in v name value.

(** The generated [__init__] runs the validators in definition order. *)
Fixpoint run_validators (attrs : list attribute) : result unit :=
  match attrs with
  | [] => Ok tt
  | a :: rest => validate a ;; run_validators rest
  end.

(** ** [DataConfig] *)

Module DataConfig.

Record t : Type := mk {
  csv_file_in : pyval;
  train_size : pyval;
  root : pyval;
  dataset_type : pyval;
  csv_file_out : pyval;
  stim_types : pyval;
  val_size : pyval;
  test_size : pyval;
  set_sizes : pyval;
  train_size_per_set_size : pyval;
  val_size_per_set_size : pyval;
  test_size_per_set_size : pyval
}.

(** The two mandatory arguments, every other attribute at its default. *)
Definition defaults (csv_file_in train_size : pyval) : t :=
  {| csv_file_in := csv_file_in;
     train_size := train_size;
     root := PyNone;
     dataset_type := PyStr "searchstims";
     csv_file_out := PyNone;
     stim_types := PyNone;
     val_size := PyNone;
     test_size := PyNone;
     set_sizes := PyNone;
     train_size_per_set_size := PyNone;
     val_size_per_set_size := PyNone;
     test_size_per_set_size := PyNone |}.

Definition check_dataset_type : validator :=
  check_one_of ["searchstims"; "VSD"].

Definition check_set_sizes : validator :=
  fun name value =>
    if negb (is_None value) then check_all_of_type int_t name value
    else Ok tt.

Definition size_validator : validator :=
  and_ [instance_of [int_t; float_t]; is_valid_proportion].

Definition attributes (self : t) : list attribute :=
  [ ("csv_file_in", instance_of [str_t], csv_file_in self);
    ("train_size", size_validator, train_size self);
    ("root", optional (instance_of [str_t]), root self);
    ("dataset_type", and_ [instance_of [str_t]; check_dataset_type], dataset_type self);
    ("csv_file_out", optional (instance_of [str_t]), csv_file_out self);
    ("stim_types", optional is_list_of_str, stim_types self);
    ("val_size", optional size_validator, val_size self);
    ("test_size", optional size_validator, test_size self);
    ("set_sizes", and_ [optional (instance_of [list_t]); check_set_sizes], set_sizes self);
    ("train_size_per_set_size", optional is_list_of_pos_int, train_size_per_set_size self);
    ("val_size_per_set_size", optional is_list_of_pos_int, val_size_per_set_size self);
    ("test_size_per_set_size", optional is_list_of_pos_int, test_size_per_set_size self) ].

Definition split_sizes (self : t) : list pyval :=
  [train_size self; val_size self; test_size self].

Definition set_csv_file_out (self : t) (out : pyval) : t :=
  {| csv_file_in := csv_file_in self;
     train_size := train_size self;
     root := root self;
     dataset_type := dataset_type self;
     csv_file_out := out;
     stim_types := stim_types self;
     val_size := val_size self;
     test_size := test_size self;
     set_sizes := set_sizes self;
     train_size_per_set_size := train_size_per_set_size self;
     val_size_per_set_size := val_size_per_set_size self;
     test_size_per_set_size := test_size_per_set_size self |}.

Definition mixed_sizes_error : exn :=
  Exn TypeError
    "if the size of any split of the dataset is specified as a proportion, then they all must be specified as a proportion".

Definition total_error : exn :=
  Exn ValueError
    "when specified as proportions, total of train_size, val_size, and test_size cannot be greater than 1".

(** The proportion check of [__attrs_post_init__]. *)
Definition check_proportions (self : t) : result unit :=
  if existsb (fun size => pytype_eqb (py_type size) float_t) (split_sizes self) then
    if negb (forallb (fun size => pytype_eqb (py_type size) float_t || is_None size)%bool
               (split_sizes self))
    then
      Raise mixed_sizes_error
    else
      size_sum <- py_sum (map (fun size => if negb (is_None size) then size else PyInt 0)
                            (split_sizes self)) ;;
      too_much <- py_gt_int size_sum 1 ;;
      if (too_much : bool) then
        Raise total_error
      else Ok tt
  else Ok tt.

Definition attrs_post_init (self : t) : result t :=
  check_proportions self ;;
  if is_None (csv_file_out self) then
    out <- py_add (csv_file_in self) (PyStr "_split.csv") ;;
    Ok (set_csv_file_out self out)
  else Ok self.

(** [DataConfig(...)]: assign, validate every attribute, then
    [__attrs_post_init__]. *)
Definition new (self : t) : result t :=
  run_validators (attributes self) ;;
  attrs_post_init self.

End DataConfig.

(** ** [TrainConfig] *)

Module TrainConfig.

Record t : Type := mk {
  net_name : pyval;
  number_nets_to_train : pyval;
  epochs_list : pyval;
  batch_size : pyval;
  random_seed : pyval;
  save_path : pyval;
  method : pyval;
  learning_rate : pyval;
  new_learn_rate_layers : pyval;
  new_layer_learning_rate : pyval;
  base_learning_rate : pyval;
  freeze_trained_weights : pyval;
  loss_func : pyval;
  optimizer : pyval;
  save_acc_by_set_size_by_epoch : pyval;
  use_val : pyval;
  val_epoch : pyval;
  summary_step : pyval;
  patience : pyval;
  checkpoint_epoch : pyval;
  num_workers : pyval;
  data_parallel : pyval
}.

(** The six mandatory arguments, every other attribute at its default. *)
Definition defaults
  (net_name number_nets_to_train epochs_list batch_size random_seed save_path : pyval)
  : t :=
  {| net_name := net_name;
     number_nets_to_train := number_nets_to_train;
     epochs_list := epochs_list;
     batch_size := batch_size;
     random_seed := random_seed;
     save_path := save_path;
     method := PyStr "transfer";
     learning_rate := PyFloat 0.001%float;
     new_learn_rate_layers := PyList [PyStr "fc8"];
     new_layer_learning_rate := PyFloat 0.001%float;
     base_learning_rate := PyFloat 1e-20%float;
     freeze_trained_weights := PyBool true;
     loss_func := PyStr "CE";
     optimizer := PyStr "SGD";
     save_acc_by_set_size_by_epoch := PyBool false;
     use_val := PyBool false;
     val_epoch := PyNone;
     summary_step := PyNone;
     patience := PyNone;
     checkpoint_epoch := PyNone;
     num_workers := PyInt 4;
     data_parallel := PyBool false |}.

Definition check_net_name : validator := check_one_of ["alexnet"; "VGG16"; "CORnet_Z"].
Definition check_epochs_list : validator := check_all_of_type int_t.
Definition check_method : validator := check_one_of ["initialize"; "transfer"].
Definition check_new_learn_rate_layers : validator := check_all_of_type str_t.
Definition check_loss_func : validator := check_one_of ["CE"; "BCE"].
Definition check_optimizer : validator := check_one_of ["SGD"; "Adam"; "AdamW"].

Definition attributes (self : t) : list attribute :=
  [ ("net_name", and_ [instance_of [str_t]; check_net_name], net_name self);
    ("number_nets_to_train", instance_of [int_t], number_nets_to_train self);
    ("epochs_list", and_ [instance_of [list_t]; check_epochs_list], epochs_list self);
    ("batch_size", instance_of [int_t], batch_size self);
    ("random_seed", instance_of [int_t], random_seed self);
    ("save_path", instance_of [str_t], save_path self);
    ("method", and_ [instance_of [str_t]; check_method], method self);
    ("learning_rate", instance_of [float_t], learning_rate self);
    ("new_learn_rate_layers",
      and_ [instance_of [list_t]; check_new_learn_rate_layers], new_learn_rate_layers self);
    ("new_layer_learning_rate", instance_of [float_t], new_layer_learning_rate self);
    ("base_learning_rate", instance_of [float_t], base_learning_rate self);
    ("freeze_trained_weights", instance_of [bool_t], freeze_trained_weights self);
    ("loss_func", and_ [instance_of [str_t]; check_loss_func], loss_func self);
    ("optimizer", and_ [instance_of [str_t]; check_optimizer], optimizer self);
    ("save_acc_by_set_size_by_epoch", instance_of [bool_t],
      save_acc_by_set_size_by_epoch self);
    ("use_val", instance_of [bool_t], use_val self);
    ("val_epoch", optional is_pos_int, val_epoch self);
    ("summary_step", optional is_pos_int, summary_step self);
    ("patience", optional is_pos_int, patience self);
    ("checkpoint_epoch", optional is_pos_int, checkpoint_epoch self);
    ("num_workers", optional is_non_neg_int, num_workers self);
    ("data_parallel", optional (instance_of [bool_t]), data_parallel self) ].

(** [TrainConfig(...)]: assign and validate every attribute; the class has
    no [__attrs_post_init__]. *)
Definition new (self : t) : result t :=
  run_validators (attributes self) ;;
  Ok self.

End TrainConfig.

(** ** The training driver, [searchnets.train.train] *)

Module Train.

(** *** Collaborators *)

(** An object returned by [get_transforms]. *)
Definition handle : Type := nat.

(** A dataset object, identified by the constructor call that made it. *)
Inductive dataset : Type :=
| VOCDetection (root csv_file : pyval) (image_set split : string) (download : bool)
    (transform target_transform : handle)
| Searchstims (csv_file : pyval) (split : string) (transform : handle)
    (return_set_size : bool).

Inductive criterion_t : Type := CrossEntropyLoss | BCELoss.

Inductive device_t : Type := cuda | cpu.

(** The keyword arguments both trainer classes receive. *)
Record kwargs : Type := mk_kwargs {
  kw_net_name : pyval;
  kw_trainset : dataset;
  kw_save_path : pyval;
  kw_num_classes : pyval;
  kw_apply_sigmoid : bool;
  kw_criterion : criterion_t;
  kw_optimizer : pyval;
  kw_save_acc_by_set_size_by_epoch : pyval;
  kw_trainset_set_size : option dataset;
  kw_batch_size : pyval;
  kw_epochs : pyval;
  kw_use_val : pyval;
  kw_valset : option dataset;
  kw_val_epoch : pyval;
  kw_patience : pyval;
  kw_checkpoint_epoch : pyval;
  kw_summary_step : pyval;
  kw_device : device_t;
  kw_num_workers : pyval;
  kw_data_parallel : pyval
}.

(** A trainer object, identified by the [from_config] call that made it. *)
Inductive trainer_t : Type :=
| TransferTrainer
    (new_learn_rate_layers freeze_trained_weights base_learning_rate
       new_layer_learning_rate : pyval) (kw : kwargs)
| Trainer (learning_rate : pyval) (kw : kwargs).

(** What the driver asks of the outside, in order. *)
Inductive event : Type :=
| np_random_seed (seed : pyval)
| torch_manual_seed (seed : pyval)
| set_cudnn_deterministic (b : bool)
| set_cudnn_benchmark (b : bool)
| cuda_is_available
| get_transforms (dataset_type loss_func pad_size : pyval)
| dataset_init (d : dataset)
| print (net_name epochs : pyval)
| make_save_path (save_path net_name : pyval) (net_number : Z) (epochs : pyval)
| from_config (tr : trainer_t)
| trainer_train (tr : trainer_t).

(** How the collaborators answer: the code of none of them is part of
    the driver, so each is a parameter.  [None] means the call returns. *)
Record world : Type := mk_world {
  VSD_PAD_SIZE : pyval;
  np_random_seed_exn : pyval -> option exn;
  torch_manual_seed_exn : pyval -> option exn;
  cuda_available : bool;
  get_transforms_res : pyval -> pyval -> pyval -> result (handle * handle);
  dataset_init_exn : dataset -> option exn;
  make_save_path_res : pyval -> pyval -> Z -> pyval -> result pyval;
  from_config_exn : trainer_t -> option exn;
  trainer_train_exn : trainer_t -> option exn
}.

(** *** Running with a log of events *)

Definition M (A : Type) : Type := result A * list event.

Definition ret {A : Type} (a : A) : M A := (Ok a, []).

Definition raise {A : Type} (e : exn) : M A := (Raise e, []).

Definition lift {A : Type} (r : result A) : M A := (r, []).

Definition bind {A B : Type} (m : M A) (k : A -> M B) : M B :=
  match m with
  | (Ok a, log) => let '(r, log') := k a in (r, log ++ log')
  | (Raise e, log) => (Raise e, log)
  end.

(** A call that yields nothing: logged, then it returns or raises. *)
Definition call (ev : event) (outcome : option exn) : M unit :=
  (match outcome with None => Ok tt | Some e => Raise e end, [ev]).

(** A call that yields a value. *)
Definition ask {A : Type} (ev : event) (outcome : result A) : M A := (outcome, [ev]).

(** Reading a local variable that may not have been assigned. *)
Definition read_local {A : Type} (name : string) (v : option A) : M A :=
  match v with
  | Some a => ret a
  | None =>
      raise (Exn UnboundLocalError
               (String.append "local variable referenced before assignment: " name))
  end.

Declare Scope run_scope.
Delimit Scope run_scope with run.
Notation "x <- m ;; k" := (bind m (fun x => k))
  (at level 61, m at next level, right associativity) : run_scope.
Notation "m ;; k" := (bind m (fun _ => k))
  (at level 61, right associativity) : run_scope.

(** *** Arguments *)

Record args : Type := mk_args {
  csv_file : pyval;
  dataset_type : pyval;
  net_name : pyval;
  number_nets_to_train : pyval;
  epochs_list : pyval;
  batch_size : pyval;
  random_seed : pyval;
  save_path : pyval;
  root : pyval;
  pad_size : pyval;
  method : pyval;
  num_classes : pyval;
  learning_rate : pyval;
  base_learning_rate : pyval;
  new_learn_rate_layers : pyval;
  new_layer_learning_rate : pyval;
  freeze_trained_weights : pyval;
  loss_func : pyval;
  optimizer : pyval;
  use_val : pyval;
  val_epoch : pyval;
  summary_step : pyval;
  patience : pyval;
  checkpoint_epoch : pyval;
  save_acc_by_set_size_by_epoch : pyval;
  num_workers : pyval;
  data_parallel : pyval
}.

(** The eight mandatory arguments, every other one at its default. *)
Definition defaults (W : world)
  (csv_file dataset_type net_name number_nets_to_train epochs_list batch_size
     random_seed save_path : pyval) : args :=
  {| csv_file := csv_file;
     dataset_type := dataset_type;
     net_name := net_name;
     number_nets_to_train := number_nets_to_train;
     epochs_list := epochs_list;
     batch_size := batch_size;
     random_seed := random_seed;
     save_path := save_path;
     root := PyNone;
     pad_size := VSD_PAD_SIZE W;
     method := PyStr "transfer";
     num_classes := PyInt 2;
     learning_rate := PyNone;
     base_learning_rate := PyFloat 1e-20%float;
     new_learn_rate_layers := PyStr "fc8";
     new_layer_learning_rate := PyFloat 0.001%float;
     freeze_trained_weights := PyBool true;
     loss_func := PyStr "CE";
     optimizer := PyStr "SGD";
     use_val := PyBool true;
     val_epoch := PyInt 1;
     summary_step := PyNone;
     patience := PyNone;
     checkpoint_epoch := PyInt 10;
     save_acc_by_set_size_by_epoch := PyBool false;
     num_workers := PyInt 4;
     data_parallel := PyBool false |}.

(** *** The body of [train], step by step *)

(** [range(start, stop)] *)
Definition py_range (start : Z) (stop : pyval) : result (list Z) :=
  match as_int stop with
  | Some z => Ok (map (fun i => start + Z.of_nat i) (seq 0 (Z.to_nat (z - start))))
  | None => Raise (Exn TypeError "object cannot be interpreted as an integer")
  end.

(** [v is False] *)
Definition is_False (v : pyval) : bool :=
  match v with PyBool false => true | _ => false end.

Definition val_epoch_error : exn :=
  Exn ValueError "invalid value for val_epoch. Validation epoch must be positive integer".

(** Lines 133-136:
    [if use_val and val_epoch is None or val_epoch < 1 or type(val_epoch) != int],
    which Python reads as
    [(use_val and val_epoch is None) or (val_epoch < 1) or (type(val_epoch) != int)]. *)
Definition check_val_epoch (use_val val_epoch : pyval) : result unit :=
  (if (py_truthy use_val && is_None val_epoch)%bool then Raise val_epoch_error
   else
     small <- py_lt_int val_epoch 1 ;;
     if (small : bool) then Raise val_epoch_error
     else if negb (pytype_eqb (py_type val_epoch) int_t) then Raise val_epoch_error
     else Ok tt)%res.

(** Lines 138-143. *)
Definition check_patience (use_val val_epoch patience : pyval) : result unit :=
  (if (is_False use_val && negb (is_None patience))%bool then
     Raise (Exn ValueError "patience argument only works with a validation set")
   else if negb (is_None patience) then
     if negb (pytype_eqb (py_type val_epoch) int_t) then
       Raise (Exn TypeError "patience must be a positive integer")
     else
       small <- py_lt_int patience 1 ;;
       if (small : bool) then Raise (Exn TypeError "patience must be a positive integer")
       else Ok tt
   else Ok tt)%res.

(** Lines 145-151. *)
Definition normalize_epochs_list (epochs_list : pyval) : result (list pyval) :=
  match epochs_list with
  | PyInt _ => Ok [epochs_list]
  | PyList l => Ok l
  | _ => Raise (Exn TypeError "'EPOCHS' option in 'TRAIN' section of config.ini file parsed as invalid type")
  end.

(** Lines 213-222. *)
Definition select_loss (loss_func : pyval) : result (bool * criterion_t) :=
  (is_ce <- py_in_strs loss_func ["CE"; "CE-largest"; "CE-random"] ;;
   if (is_ce : bool) then Ok (false, CrossEntropyLoss)
   else if py_eq_str loss_func "BCE" then Ok (true, BCELoss)
   else Raise (Exn ValueError "invalid value for loss function"))%res.

Definition set_size_error : exn :=
  Exn ValueError
    "dataset type is VSD but save_acc_by_set_size_by_epoch was set to True;can only measure accuracy by set size with searchstims stimuli, not VSD dataset".

(** The local variables the two loops read.  [None] in an [option] that
    wraps a local means the name was never assigned. *)
Record locals : Type := mk_locals {
  l_device : device_t;
  l_trainset : option dataset;
  l_valset : option (option dataset);
  l_trainset_set_size : option (option dataset);
  l_apply_sigmoid : bool;
  l_criterion : criterion_t
}.

Section Driver.

Variable W : world.

Local Open Scope run_scope.

(** Lines 153-157. *)
Definition seed (random_seed : pyval) : M unit :=
  if py_truthy random_seed then
    call (np_random_seed random_seed) (np_random_seed_exn W random_seed) ;;
    call (torch_manual_seed random_seed) (torch_manual_seed_exn W random_seed) ;;
    call (set_cudnn_deterministic true) None ;;
    call (set_cudnn_benchmark false) None
  else ret tt.

(** Lines 159-162. *)
Definition select_device : M device_t :=
  call cuda_is_available None ;;
  if cuda_available W then ret cuda else ret cpu.

(** Lines 166-197: there is no [else], so with any other [dataset_type]
    neither [trainset] nor [valset] is assigned. *)
Definition select_datasets (a : args) (transform target_transform : handle)
  : M (option dataset * option (option dataset)) :=
  if py_eq_str (dataset_type a) "VSD" then
    let trainset :=
      VOCDetection (root a) (csv_file a) "trainval" "train" true transform target_transform in
    call (dataset_init trainset) (dataset_init_exn W trainset) ;;
    if py_truthy (use_val a) then
      let valset :=
        VOCDetection (root a) (csv_file a) "trainval" "val" true transform target_transform in
      call (dataset_init valset) (dataset_init_exn W valset) ;;
      ret (Some trainset, Some (Some valset))
    else ret (Some trainset, Some None)
  else if py_eq_str (dataset_type a) "searchstims" then
    let trainset := Searchstims (csv_file a) "train" transform false in
    call (dataset_init trainset) (dataset_init_exn W trainset) ;;
    if py_truthy (use_val a) then
      let valset := Searchstims (csv_file a) "val" transform false in
      call (dataset_init valset) (dataset_init_exn W valset) ;;
      ret (Some trainset, Some (Some valset))
    else ret (Some trainset, Some None)
  else ret (None, None).

(** Lines 199-211. *)
Definition select_trainset_set_size (a : args) (transform : handle)
  : M (option (option dataset)) :=
  if py_truthy (save_acc_by_set_size_by_epoch a) then
    if py_eq_str (dataset_type a) "VSD" then
      raise set_size_error
    else if py_eq_str (dataset_type a) "searchstims" then
      let trainset_set_size := Searchstims (csv_file a) "train" transform true in
      call (dataset_init trainset_set_size) (dataset_init_exn W trainset_set_size) ;;
      ret (Some (Some trainset_set_size))
    else ret None
  else ret (Some None).

(** The keyword arguments shared by the two [from_config] calls; the
    locals are read in the order the call lists them. *)
Definition common_kwargs (a : args) (L : locals) (save_path_this_net epochs : pyval)
  : M kwargs :=
  trainset <- read_local "trainset" (l_trainset L) ;;
  trainset_set_size <- read_local "trainset_set_size" (l_trainset_set_size L) ;;
  valset <- read_local "valset" (l_valset L) ;;
  ret {| kw_net_name := net_name a;
         kw_trainset := trainset;
         kw_save_path := save_path_this_net;
         kw_num_classes := num_classes a;
         kw_apply_sigmoid := l_apply_sigmoid L;
         kw_criterion := l_criterion L;
         kw_optimizer := optimizer a;
         kw_save_acc_by_set_size_by_epoch := save_acc_by_set_size_by_epoch a;
         kw_trainset_set_size := trainset_set_size;
         kw_batch_size := batch_size a;
         kw_epochs := epochs;
         kw_use_val := use_val a;
         kw_valset := valset;
         kw_val_epoch := val_epoch a;
         kw_patience := patience a;
         kw_checkpoint_epoch := checkpoint_epoch a;
         kw_summary_step := summary_step a;
         kw_device := l_device L;
         kw_num_workers := num_workers a;
         kw_data_parallel := data_parallel a |}.

(** Lines 227-276: the body of the inner loop.  [trainer] is the local
    of that name as the previous iteration left it. *)
Definition run_job (a : args) (L : locals) (epochs : pyval)
  (trainer : option trainer_t) (net_number : Z) : M (option trainer_t) :=
  save_path_this_net <-
    ask (make_save_path (save_path a) (net_name a) net_number epochs)
        (make_save_path_res W (save_path a) (net_name a) net_number epochs) ;;
  trainer' <-
    (if py_eq_str (method a) "transfer" then
       kw <- common_kwargs a L save_path_this_net epochs ;;
       let tr :=
         TransferTrainer (new_learn_rate_layers a) (freeze_trained_weights a)
           (base_learning_rate a) (new_layer_learning_rate a) kw in
       call (from_config tr) (from_config_exn W tr) ;;
       ret (Some tr)
     else if py_eq_str (method a) "initialize" then
       kw <- common_kwargs a L save_path_this_net epochs ;;
       let tr := Trainer (learning_rate a) kw in
       call (from_config tr) (from_config_exn W tr) ;;
       ret (Some tr)
     else ret trainer) ;;
  tr <- read_local "trainer" trainer' ;;
  call (trainer_train tr) (trainer_train_exn W tr) ;;
  ret trainer'.

(** Line 226: [for net_number in range(1, number_nets_to_train + 1)]. *)
Fixpoint for_net_number (a : args) (L : locals) (epochs : pyval)
  (trainer : option trainer_t) (net_numbers : list Z) : M (option trainer_t) :=
  match net_numbers with
  | [] => ret trainer
  | net_number :: rest =>
      trainer' <- run_job a L epochs trainer net_number ;;
      for_net_number a L epochs trainer' rest
  end.

(** Lines 224-226: [for epochs in epochs_list]. *)
Fixpoint for_epochs (a : args) (L : locals) (trainer : option trainer_t)
  (epochs_list : list pyval) : M (option trainer_t) :=
  match epochs_list with
  | [] => ret trainer
  | epochs :: rest =>
      call (print (net_name a) epochs) None ;;
      stop <- lift (py_add (number_nets_to_train a) (PyInt 1)) ;;
      net_numbers <- lift (py_range 1 stop) ;;
      trainer' <- for_net_number a L epochs trainer net_numbers ;;
      for_epochs a L trainer' rest
  end.

(** Lines 133-222: everything [train] does before the two loops. *)
Definition prepare (a : args) : M (list pyval * locals) :=
  lift (check_val_epoch (use_val a) (val_epoch a)) ;;
  lift (check_patience (use_val a) (val_epoch a) (patience a)) ;;
  epochs_list <- lift (normalize_epochs_list (epochs_list a)) ;;
  seed (random_seed a) ;;
  device <- select_device ;;
  transforms <-
    ask (get_transforms (dataset_type a) (loss_func a) (pad_size a))
        (get_transforms_res W (dataset_type a) (loss_func a) (pad_size a)) ;;
  sets <- select_datasets a (fst transforms) (snd transforms) ;;
  trainset_set_size <- select_trainset_set_size a (fst transforms) ;;
  loss <- lift (select_loss (loss_func a)) ;;
  ret (epochs_list,
       {| l_device := device;
          l_trainset := fst sets;
          l_valset := snd sets;
          l_trainset_set_size := trainset_set_size;
          l_apply_sigmoid := fst loss;
          l_criterion := snd loss |}).

Definition train (a : args) : M unit :=
  prepared <- prepare a ;;
  for_epochs a (snd prepared) None (fst prepared) ;;
  ret tt.

End Driver.

End Train.

(** ** [TestConfig] and [LearnCurveConfig] *)

Module TestConfig.

Record t : Type := mk { test_results_save_path : pyval }.

Definition attributes (self : t) : list attribute :=
  [ ("test_results_save_path", instance_of [str_t], test_results_save_path self) ].

Definition new (self : t) : result t :=
  run_validators (attributes self) ;;
  Ok self.

End TestConfig.

Module LearnCurveConfig.

Record t : Type := mk { train_size_list : pyval }.

Definition check_train_size_list : validator := check_all_of_type int_t.

Definition attributes (self : t) : list attribute :=
  [ ("train_size_list", and_ [instance_of [list_t]; check_train_size_list],
      train_size_list self) ].

Definition new (self : t) : result t :=
  run_validators (attributes self) ;;
  Ok self.

End LearnCurveConfig.

(** * Vocabulary of the statements *)

(** A split size given as a proportion is a [float]; one given as an
    absolute count is an [int] (which in Python includes [bool]). *)
Definition is_proportion (v : pyval) : bool :=
  match v with PyFloat _ => true | _ => false end.

Definition is_count (v : pyval) : bool :=
  match v with PyInt _ | PyBool _ => true | _ => false end.

Definition proportion_of (v : pyval) : float :=
  match v with PyFloat f => f | _ => 0%float end.

(** The total of the split sizes as doubles, a size that is not given
    counting for zero; the sum is the double-precision sum from the left. *)
Definition proportion_total (sizes : list pyval) : float :=
  fold_left PrimFloat.add (map proportion_of sizes) 0%float.

Definition provided (sizes : list pyval) : list pyval :=
  filter (fun v => negb (is_None v)) sizes.

Definition mixes_proportion_and_count (sizes : list pyval) : bool :=
  (existsb is_proportion sizes && existsb is_count sizes)%bool.

Definition proportions_exceed_one (sizes : list pyval) : bool :=
  (existsb is_proportion sizes && forallb is_proportion (provided sizes)
   && PrimFloat.ltb 1%float (proportion_total sizes))%bool.

(** The invariant on the three split sizes of a [DataConfig]: [not (total > 1)],
    with the comparison of doubles. *)
Definition proportion_invariant (sizes : list pyval) : Prop :=
  existsb is_proportion sizes = true ->
  forallb is_proportion (provided sizes) = true /\
  PrimFloat.ltb 1%float (proportion_total sizes) = false.

(** What the validators of a split size let through. *)
Definition admissible_size (v : pyval) : bool :=
  (is_None v || is_count v || is_proportion v)%bool.

(** A split size the specification rules out: an integer that is not
    positive, or a double below 0 or above 1. *)
Definition size_out_of_range (v : pyval) : bool :=
  match v with
  | PyInt z => z <=? 0
  | PyFloat f => (PrimFloat.ltb f 0%float || PrimFloat.ltb 1%float f)%bool
  | _ => false
  end.

Definition proportion_in_range (v : pyval) : Prop :=
  exists f, v = PyFloat f /\
            PrimFloat.ltb f 0%float = false /\ PrimFloat.ltb 1%float f = false.

Definition attribute_validator (a : attribute) : validator := snd (fst a).

Definition only_validation_errors (v : validator) : Prop :=
  forall name x e, v name x = Raise e -> is_validation_error e = true.

Definition fails_validation {A : Type} (r : result A) : Prop :=
  exists e, r = Raise e /\ is_validation_error e = true.

(** A [DataConfig] call that gives the three split sizes. *)
Definition DataConfig_with_sizes (csv_file_in train_size val_size test_size : pyval)
  : DataConfig.t :=
  {| DataConfig.csv_file_in := csv_file_in;
     DataConfig.train_size := train_size;
     DataConfig.root := PyNone;
     DataConfig.dataset_type := PyStr "searchstims";
     DataConfig.csv_file_out := PyNone;
     DataConfig.stim_types := PyNone;
     DataConfig.val_size := val_size;
     DataConfig.test_size := test_size;
     DataConfig.set_sizes := PyNone;
     DataConfig.train_size_per_set_size := PyNone;
     DataConfig.val_size_per_set_size := PyNone;
     DataConfig.test_size_per_set_size := PyNone |}.

(** What the validators of a split size accept: nothing given, an int of
    any sign, or a double that is neither below 0 nor above 1. *)
Definition accepted_size (v : pyval) : Prop :=
  v = PyNone \/ is_count v = true \/ proportion_in_range v.

(** [self] with other values for the three validation arguments. *)
Definition TrainConfig_with_validation (self : TrainConfig.t)
  (use_val val_epoch patience : pyval) : TrainConfig.t :=
  {| TrainConfig.net_name := TrainConfig.net_name self;
     TrainConfig.number_nets_to_train := TrainConfig.number_nets_to_train self;
     TrainConfig.epochs_list := TrainConfig.epochs_list self;
     TrainConfig.batch_size := TrainConfig.batch_size self;
     TrainConfig.random_seed := TrainConfig.random_seed self;
     TrainConfig.save_path := TrainConfig.save_path self;
     TrainConfig.method := TrainConfig.method self;
     TrainConfig.learning_rate := TrainConfig.learning_rate self;
     TrainConfig.new_learn_rate_layers := TrainConfig.new_learn_rate_layers self;
     TrainConfig.new_layer_learning_rate := TrainConfig.new_layer_learning_rate self;
     TrainConfig.base_learning_rate := TrainConfig.base_learning_rate self;
     TrainConfig.freeze_trained_weights := TrainConfig.freeze_trained_weights self;
     TrainConfig.loss_func := TrainConfig.loss_func self;
     TrainConfig.optimizer := TrainConfig.optimizer self;
     TrainConfig.save_acc_by_set_size_by_epoch := TrainConfig.save_acc_by_set_size_by_epoch self;
     TrainConfig.use_val := use_val;
     TrainConfig.val_epoch := val_epoch;
     TrainConfig.summary_step := TrainConfig.summary_step self;
     TrainConfig.patience := patience;
     TrainConfig.checkpoint_epoch := TrainConfig.checkpoint_epoch self;
     TrainConfig.num_workers := TrainConfig.num_workers self;
     TrainConfig.data_parallel := TrainConfig.data_parallel self |}.

(** [self] with another replicate count and other epoch budgets. *)
Definition TrainConfig_with_grid (self : TrainConfig.t)
  (number_nets_to_train epochs_list : pyval) : TrainConfig.t :=
  {| TrainConfig.net_name := TrainConfig.net_name self;
     TrainConfig.number_nets_to_train := number_nets_to_train;
     TrainConfig.epochs_list := epochs_list;
     TrainConfig.batch_size := TrainConfig.batch_size self;
     TrainConfig.random_seed := TrainConfig.random_seed self;
     TrainConfig.save_path := TrainConfig.save_path self;
     TrainConfig.method := TrainConfig.method self;
     TrainConfig.learning_rate := TrainConfig.learning_rate self;
     TrainConfig.new_learn_rate_layers := TrainConfig.new_learn_rate_layers self;
     TrainConfig.new_layer_learning_rate := TrainConfig.new_layer_learning_rate self;
     TrainConfig.base_learning_rate := TrainConfig.base_learning_rate self;
     TrainConfig.freeze_trained_weights := TrainConfig.freeze_trained_weights self;
     TrainConfig.loss_func := TrainConfig.loss_func self;
     TrainConfig.optimizer := TrainConfig.optimizer self;
     TrainConfig.save_acc_by_set_size_by_epoch := TrainConfig.save_acc_by_set_size_by_epoch self;
     TrainConfig.use_val := TrainConfig.use_val self;
     TrainConfig.val_epoch := TrainConfig.val_epoch self;
     TrainConfig.summary_step := TrainConfig.summary_step self;
     TrainConfig.patience := TrainConfig.patience self;
     TrainConfig.checkpoint_epoch := TrainConfig.checkpoint_epoch self;
     TrainConfig.num_workers := TrainConfig.num_workers self;
     TrainConfig.data_parallel := TrainConfig.data_parallel self |}.

(** The [TrainConfig] of the examples: two replicates, five and ten epochs. *)
Definition TrainConfig_example : TrainConfig.t :=
  TrainConfig.defaults (PyStr "alexnet") (PyInt 2) (PyList [PyInt 5; PyInt 10])
    (PyInt 64) (PyInt 42) (PyStr "results").

(** Nothing given, or a positive [int]. *)
Definition optional_pos_int (v : pyval) : bool :=
  match v with
  | PyNone => true
  | PyInt z => 1 <=? z
  | _ => false
  end.

Definition is_int (v : pyval) : bool :=
  match v with PyInt _ => true | _ => false end.

(** A list whose items are of type [int], whatever their sign. *)
Definition list_of_int (v : pyval) : bool :=
  match v with
  | PyList l => forallb is_int l
  | _ => false
  end.

(** ** Vocabulary for the driver *)

(** The events of a job: a save path is computed, a trainer is
    constructed, a trainer is run. *)
Definition is_job_event (ev : Train.event) : bool :=
  match ev with
  | Train.make_save_path _ _ _ _ | Train.from_config _ | Train.trainer_train _ => true
  | _ => false
  end.

(** The events of the loops: those of a job, and the progress message. *)
Definition is_loop_event (ev : Train.event) : bool :=
  match ev with
  | Train.print _ _ => true
  | _ => is_job_event ev
  end.

(** The events of the seeding step. *)
Definition is_seeding_event (ev : Train.event) : bool :=
  match ev with
  | Train.np_random_seed _ | Train.torch_manual_seed _
  | Train.set_cudnn_deterministic _ | Train.set_cudnn_benchmark _ => true
  | _ => false
  end.

Definition none_of (p : Train.event -> bool) (log : list Train.event) : Prop :=
  Forall (fun ev => p ev = false) log.

(** A job, as [make_save_path] is called for it:
    [(save_path, net_name, net_number, epochs)]. *)
Definition job : Type := pyval * pyval * Z * pyval.

Fixpoint jobs_of (log : list Train.event) : list job :=
  match log with
  | [] => []
  | Train.make_save_path save_path net_name net_number epochs :: rest =>
      (save_path, net_name, net_number, epochs) :: jobs_of rest
  | _ :: rest => jobs_of rest
  end.

(** The trainers that were run, in order. *)
Fixpoint trained_of (log : list Train.event) : list Train.trainer_t :=
  match log with
  | [] => []
  | Train.trainer_train tr :: rest => tr :: trained_of rest
  | _ :: rest => trained_of rest
  end.

Definition kwargs_of (tr : Train.trainer_t) : Train.kwargs :=
  match tr with
  | Train.TransferTrainer _ _ _ _ kw => kw
  | Train.Trainer _ kw => kw
  end.

(** The replicate indices [1 .. number_nets_to_train]. *)
Definition replicates (a : Train.args) : list Z :=
  match as_int (Train.number_nets_to_train a) with
  | Some n => map (fun i => 1 + Z.of_nat i) (seq 0 (Z.to_nat n))
  | None => []
  end.

(** The job of replicate [net_number] for the budget [epochs]. *)
Definition job_at (a : Train.args) (epochs : pyval) (net_number : Z) : job :=
  (Train.save_path a, Train.net_name a, net_number, epochs).

(** The grid of jobs: epoch budgets outside, replicate indices inside. *)
Definition grid (a : Train.args) (epochs_list : list pyval) : list job :=
  flat_map (fun epochs => map (job_at a epochs) (replicates a)) epochs_list.

Definition prefix_of {A : Type} (l1 l2 : list A) : Prop := exists l3, l2 = l1 ++ l3.

(** The run ends in an exception. *)
Definition fails {A : Type} (m : Train.M A) : Prop := exists e, fst m = Raise e.

(** [method] is one of the two training methods. *)
Definition method_known (a : Train.args) : Prop :=
  py_eq_str (Train.method a) "transfer" = true \/
  py_eq_str (Train.method a) "initialize" = true.


(** A world in which every collaborator returns. *)
Definition returns_always (W : Train.world) : Prop :=
  (forall s, Train.np_random_seed_exn W s = None) /\
  (forall s, Train.torch_manual_seed_exn W s = None) /\
  (forall d l p, exists t, Train.get_transforms_res W d l p = Ok t) /\
  (forall d, Train.dataset_init_exn W d = None) /\
  (forall s n i e, exists p, Train.make_save_path_res W s n i e = Ok p) /\
  (forall tr, Train.from_config_exn W tr = None) /\
  (forall tr, Train.trainer_train_exn W tr = None).


(** A world for the examples: every call returns, no GPU, the save path is
    [save_path/net_name/net_number/epochs] kept as its four parts. *)
Definition quiet_world : Train.world :=
  {| Train.VSD_PAD_SIZE := PyInt 500;
     Train.np_random_seed_exn := fun _ => None;
     Train.torch_manual_seed_exn := fun _ => None;
     Train.cuda_available := false;
     Train.get_transforms_res := fun _ _ _ => Ok (0%nat, 1%nat);
     Train.dataset_init_exn := fun _ => None;
     Train.make_save_path_res :=
       fun save_path net_name net_number epochs =>
         Ok (PyList [save_path; net_name; PyInt net_number; epochs]);
     Train.from_config_exn := fun _ => None;
     Train.trainer_train_exn := fun _ => None |}.

(** [np.random.seed] accepts an int seed only between 0 and 2**32 - 1 and
    raises [ValueError] otherwise. *)
Definition seed_range_error : exn :=
  Exn ValueError "Seed must be between 0 and 2**32 - 1".

(** [quiet_world] with the [np.random.seed] of numpy, which rejects an int
    seed out of its range. *)
Definition numpy_world : Train.world :=
  {| Train.VSD_PAD_SIZE := Train.VSD_PAD_SIZE quiet_world;
     Train.np_random_seed_exn :=
       fun s =>
         match s with
         | PyInt z => if ((0 <=? z) && (z <? 2 ^ 32))%bool then None else Some seed_range_error
         | _ => None
         end;
     Train.torch_manual_seed_exn := Train.torch_manual_seed_exn quiet_world;
     Train.cuda_available := Train.cuda_available quiet_world;
     Train.get_transforms_res := Train.get_transforms_res quiet_world;
     Train.dataset_init_exn := Train.dataset_init_exn quiet_world;
     Train.make_save_path_res := Train.make_save_path_res quiet_world;
     Train.from_config_exn := Train.from_config_exn quiet_world;
     Train.trainer_train_exn := Train.trainer_train_exn quiet_world |}.

(** A call of [train] for the examples; the arguments not listed are
    those of a two-replicate alexnet run with the defaults of [train]. *)
Definition train_call
  (dataset_type epochs_list random_seed loss_func use_val val_epoch
     save_acc_by_set_size_by_epoch : pyval) : Train.args :=
  {| Train.csv_file := PyStr "stims_split.csv";
     Train.dataset_type := dataset_type;
     Train.net_name := PyStr "alexnet";
     Train.number_nets_to_train := PyInt 2;
     Train.epochs_list := epochs_list;
     Train.batch_size := PyInt 64;
     Train.random_seed := random_seed;
     Train.save_path := PyStr "results";
     Train.root := PyNone;
     Train.pad_size := PyInt 500;
     Train.method := PyStr "transfer";
     Train.num_classes := PyInt 2;
     Train.learning_rate := PyNone;
     Train.base_learning_rate := PyFloat 1e-20%float;
     Train.new_learn_rate_layers := PyStr "fc8";
     Train.new_layer_learning_rate := PyFloat 0.001%float;
     Train.freeze_trained_weights := PyBool true;
     Train.loss_func := loss_func;
     Train.optimizer := PyStr "SGD";
     Train.use_val := use_val;
     Train.val_epoch := val_epoch;
     Train.summary_step := PyNone;
     Train.patience := PyNone;
     Train.checkpoint_epoch := PyInt 10;
     Train.save_acc_by_set_size_by_epoch := save_acc_by_set_size_by_epoch;
     Train.num_workers := PyInt 4;
     Train.data_parallel := PyBool false |}.

(** ** Vocabulary for what the validators accept *)

Definition is_str (v : pyval) : bool :=
  match v with PyStr _ => true | _ => false end.

Definition is_bool (v : pyval) : bool :=
  match v with PyBool _ => true | _ => false end.

Definition is_list (v : pyval) : bool :=
  match v with PyList _ => true | _ => false end.

(** An [int] (not a [bool]) that is at least [lo]. *)
Definition int_at_least (lo : Z) (v : pyval) : bool :=
  match v with PyInt z => lo <=? z | _ => false end.

(** A list, possibly empty, whose items all satisfy [p]. *)
Definition list_of (p : pyval -> bool) (v : pyval) : bool :=
  match v with PyList l => forallb p l | _ => false end.

(** [None], or a value that satisfies [p]. *)
Definition none_or (p : pyval -> bool) (v : pyval) : bool :=
  (is_None v || p v)%bool.

(** A [str] equal to one of the names of [set]. *)
Definition one_of (set : list string) (v : pyval) : bool :=
  (is_str v && existsb (py_eq_str v) set)%bool.

(** An int of any sign, or a double that is neither below 0 nor above 1. *)
Definition size_ok (v : pyval) : bool :=
  match v with
  | PyInt _ | PyBool _ => true
  | PyFloat f => negb (PrimFloat.ltb f 0%float || PrimFloat.ltb 1%float f)
  | _ => false
  end.

(** The run ends in an exception of class [c]. *)
Definition raises_class {A : Type} (c : exn_class) (r : result A) : Prop :=
  exists msg, r = Raise (Exn c msg).

(** The validator [v] passes exactly the values that satisfy [p]. *)
Definition decides (v : validator) (p : pyval -> bool) : Prop :=
  forall name x, if p x then v name x = Ok tt else raises (v name x).

(** ** What the configuration classes accept *)

(** The proportion rule of [DataConfig]: no split size is a double, or
    none is an int and the total as doubles is not above 1. *)
Definition proportions_ok (sizes : list pyval) : bool :=
  (negb (existsb is_proportion sizes)
   || (negb (existsb is_count sizes)
       && negb (PrimFloat.ltb 1%float (proportion_total sizes))))%bool.

(** Every attribute of a [DataConfig] passes its own validator. *)
Definition DataConfig_fields_ok (self : DataConfig.t) : bool :=
  (is_str (DataConfig.csv_file_in self)
   && size_ok (DataConfig.train_size self)
   && none_or is_str (DataConfig.root self)
   && one_of ["searchstims"; "VSD"] (DataConfig.dataset_type self)
   && none_or is_str (DataConfig.csv_file_out self)
   && none_or (list_of is_str) (DataConfig.stim_types self)
   && none_or size_ok (DataConfig.val_size self)
   && none_or size_ok (DataConfig.test_size self)
   && none_or (list_of is_int) (DataConfig.set_sizes self)
   && none_or (list_of (int_at_least 1)) (DataConfig.train_size_per_set_size self)
   && none_or (list_of (int_at_least 1)) (DataConfig.val_size_per_set_size self)
   && none_or (list_of (int_at_least 1)) (DataConfig.test_size_per_set_size self))%bool.

Definition DataConfig_accepts (self : DataConfig.t) : bool :=
  (DataConfig_fields_ok self && proportions_ok (DataConfig.split_sizes self))%bool.

(** Every attribute of a [TrainConfig] passes its own validator. *)
Definition TrainConfig_accepts (self : TrainConfig.t) : bool :=
  (one_of ["alexnet"; "VGG16"; "CORnet_Z"] (TrainConfig.net_name self)
   && is_count (TrainConfig.number_nets_to_train self)
   && list_of is_int (TrainConfig.epochs_list self)
   && is_count (TrainConfig.batch_size self)
   && is_count (TrainConfig.random_seed self)
   && is_str (TrainConfig.save_path self)
   && one_of ["initialize"; "transfer"] (TrainConfig.method self)
   && is_proportion (TrainConfig.learning_rate self)
   && list_of is_str (TrainConfig.new_learn_rate_layers self)
   && is_proportion (TrainConfig.new_layer_learning_rate self)
   && is_proportion (TrainConfig.base_learning_rate self)
   && is_bool (TrainConfig.freeze_trained_weights self)
   && one_of ["CE"; "BCE"] (TrainConfig.loss_func self)
   && one_of ["SGD"; "Adam"; "AdamW"] (TrainConfig.optimizer self)
   && is_bool (TrainConfig.save_acc_by_set_size_by_epoch self)
   && is_bool (TrainConfig.use_val self)
   && none_or (int_at_least 1) (TrainConfig.val_epoch self)
   && none_or (int_at_least 1) (TrainConfig.summary_step self)
   && none_or (int_at_least 1) (TrainConfig.patience self)
   && none_or (int_at_least 1) (TrainConfig.checkpoint_epoch self)
   && none_or (int_at_least 0) (TrainConfig.num_workers self)
   && none_or is_bool (TrainConfig.data_parallel self))%bool.

(** ** More vocabulary for the driver *)

(** A [patience] that the test [patience < 1] lets through: [True], an int
    that is at least 1, or a double that is not below 1. *)
Definition not_below_one (v : pyval) : bool :=
  match v with
  | PyBool b => b
  | PyInt z => 1 <=? z
  | PyFloat f => negb (PrimFloat.ltb f 1%float)
  | _ => false
  end.

(** How the world answers the call that an event records. *)
Definition outcome (W : Train.world) (ev : Train.event) : option exn :=
  match ev with
  | Train.np_random_seed seed => Train.np_random_seed_exn W seed
  | Train.torch_manual_seed seed => Train.torch_manual_seed_exn W seed
  | Train.get_transforms dataset_type loss_func pad_size =>
      match Train.get_transforms_res W dataset_type loss_func pad_size with
      | Ok _ => None
      | Raise e => Some e
      end
  | Train.dataset_init d => Train.dataset_init_exn W d
  | Train.make_save_path save_path net_name net_number epochs =>
      match Train.make_save_path_res W save_path net_name net_number epochs with
      | Ok _ => None
      | Raise e => Some e
      end
  | Train.from_config tr => Train.from_config_exn W tr
  | Train.trainer_train tr => Train.trainer_train_exn W tr
  | _ => None
  end.

(** Every call of the log returned. *)
Definition all_returned (W : Train.world) (log : list Train.event) : Prop :=
  Forall (fun ev => outcome W ev = None) log.

(** Either every call returned, or the last call is the only one that
    raised and the run ends in the exception it raised. *)
Definition stops_at_first_raise {A : Type} (W : Train.world) (m : Train.M A) : Prop :=
  all_returned W (snd m) \/
  exists log ev e,
    snd m = log ++ [ev] /\ all_returned W log /\ outcome W ev = Some e /\ fst m = Raise e.

(** The trainers that were constructed, in order. *)
Fixpoint constructed_of (log : list Train.event) : list Train.trainer_t :=
  match log with
  | [] => []
  | Train.from_config tr :: rest => tr :: constructed_of rest
  | _ :: rest => constructed_of rest
  end.

(** The datasets that were constructed, in order. *)
Fixpoint datasets_of (log : list Train.event) : list Train.dataset :=
  match log with
  | [] => []
  | Train.dataset_init d :: rest => d :: datasets_of rest
  | _ :: rest => datasets_of rest
  end.

Definition option_list {A : Type} (o : option A) : list A :=
  match o with Some x => [x] | None => [] end.

(** The events of the seeding step for the seed of [a]. *)
Definition seed_events (a : Train.args) : list Train.event :=
  if py_truthy (Train.random_seed a) then
    [Train.np_random_seed (Train.random_seed a);
     Train.torch_manual_seed (Train.random_seed a);
     Train.set_cudnn_deterministic true; Train.set_cudnn_benchmark false]
  else [].

(** The events of one job that ends well. *)
Definition job_trace (j : job) (tr : Train.trainer_t) : list Train.event :=
  let '(save_path, net_name, net_number, epochs) := j in
  [Train.make_save_path save_path net_name net_number epochs;
   Train.from_config tr; Train.trainer_train tr].

Fixpoint job_traces (jobs : list job) (trainers : list Train.trainer_t)
  : list Train.event :=
  match jobs, trainers with
  | j :: jobs', tr :: trainers' => job_trace j tr ++ job_traces jobs' trainers'
  | _, _ => []
  end.

(** A local that is assigned and is not [None]. *)
Definition bound_value {A : Type} (o : option (option A)) : list A :=
  match o with Some (Some x) => [x] | _ => [] end.

(** The trainer [tr] is what the body of the inner loop constructs from
    the arguments [a] and the locals [L] for some job: the class that
    [method] names, with the keyword arguments of the call. *)
Definition made_by (a : Train.args) (L : Train.locals) (tr : Train.trainer_t) : Prop :=
  exists save_path_this_net epochs,
    fst (Train.common_kwargs a L save_path_this_net epochs) = Ok (kwargs_of tr) /\
    ((py_eq_str (Train.method a) "transfer" = true /\
      tr = Train.TransferTrainer (Train.new_learn_rate_layers a)
             (Train.freeze_trained_weights a) (Train.base_learning_rate a)
             (Train.new_layer_learning_rate a) (kwargs_of tr)) \/
     (py_eq_str (Train.method a) "transfer" = false /\
      py_eq_str (Train.method a) "initialize" = true /\
      tr = Train.Trainer (Train.learning_rate a) (kwargs_of tr))).

(** The arguments that [train] hands on as they are. *)
Definition passes_arguments (a : Train.args) (tr : Train.trainer_t) : Prop :=
  let kw := kwargs_of tr in
  Train.kw_net_name kw = Train.net_name a /\
  Train.kw_num_classes kw = Train.num_classes a /\
  Train.kw_optimizer kw = Train.optimizer a /\
  Train.kw_save_acc_by_set_size_by_epoch kw = Train.save_acc_by_set_size_by_epoch a /\
  Train.kw_batch_size kw = Train.batch_size a /\
  Train.kw_use_val kw = Train.use_val a /\
  Train.kw_val_epoch kw = Train.val_epoch a /\
  Train.kw_patience kw = Train.patience a /\
  Train.kw_checkpoint_epoch kw = Train.checkpoint_epoch a /\
  Train.kw_summary_step kw = Train.summary_step a /\
  Train.kw_num_workers kw = Train.num_workers a /\
  Train.kw_data_parallel kw = Train.data_parallel a.

(** The class of the trainer and the arguments only that class takes. *)
Definition follows_method (a : Train.args) (tr : Train.trainer_t) : Prop :=
  match tr with
  | Train.TransferTrainer layers freeze base_rate new_rate _ =>
      py_eq_str (Train.method a) "transfer" = true /\
      layers = Train.new_learn_rate_layers a /\
      freeze = Train.freeze_trained_weights a /\
      base_rate = Train.base_learning_rate a /\
      new_rate = Train.new_layer_learning_rate a
  | Train.Trainer rate _ =>
      py_eq_str (Train.method a) "transfer" = false /\
      py_eq_str (Train.method a) "initialize" = true /\
      rate = Train.learning_rate a
  end.

(** The dataset [d] is the one the driver constructs for the split
    [split] of the data of [a], with the transforms [t]; [set_size] says
    whether the samples come with their set size. *)
Definition is_split_of (a : Train.args) (t : Train.handle * Train.handle)
  (split : string) (set_size : bool) (d : Train.dataset) : Prop :=
  match d with
  | Train.VOCDetection root csv_file image_set split' download transform target_transform =>
      py_eq_str (Train.dataset_type a) "VSD" = true /\
      root = Train.root a /\ csv_file = Train.csv_file a /\
      image_set = "trainval" /\ split' = split /\ download = true /\
      transform = fst t /\ target_transform = snd t /\ set_size = false
  | Train.Searchstims csv_file split' transform return_set_size =>
      py_eq_str (Train.dataset_type a) "VSD" = false /\
      py_eq_str (Train.dataset_type a) "searchstims" = true /\
      csv_file = Train.csv_file a /\ split' = split /\
      transform = fst t /\ return_set_size = set_size
  end.

(** What a constructed trainer must satisfy, as a property of events. *)
Definition constructs_only (P : Train.trainer_t -> Prop) (ev : Train.event) : Prop :=
  match ev with
  | Train.from_config tr => P tr
  | _ => True
  end.

(** An event that is not part of a job. *)
Definition is_print_event (ev : Train.event) : bool := negb (is_job_event ev).

(** The trainers run are the trainers constructed, in order, except
    perhaps for a last one that was constructed and not run, in a run that
    ends in an exception. *)
Definition runs_what_it_made {A : Type} (m : Train.M A) : Prop :=
  exists rest,
    constructed_of (snd m) = trained_of (snd m) ++ rest /\
    (List.length rest <= 1)%nat /\
    (rest <> [] -> fails m).

(** [a] with another [method]. *)
Definition with_method (a : Train.args) (method : pyval) : Train.args :=
  {| Train.csv_file := Train.csv_file a;
     Train.dataset_type := Train.dataset_type a;
     Train.net_name := Train.net_name a;
     Train.number_nets_to_train := Train.number_nets_to_train a;
     Train.epochs_list := Train.epochs_list a;
     Train.batch_size := Train.batch_size a;
     Train.random_seed := Train.random_seed a;
     Train.save_path := Train.save_path a;
     Train.root := Train.root a;
     Train.pad_size := Train.pad_size a;
     Train.method := method;
     Train.num_classes := Train.num_classes a;
     Train.learning_rate := Train.learning_rate a;
     Train.base_learning_rate := Train.base_learning_rate a;
     Train.new_learn_rate_layers := Train.new_learn_rate_layers a;
     Train.new_layer_learning_rate := Train.new_layer_learning_rate a;
     Train.freeze_trained_weights := Train.freeze_trained_weights a;
     Train.loss_func := Train.loss_func a;
     Train.optimizer := Train.optimizer a;
     Train.use_val := Train.use_val a;
     Train.val_epoch := Train.val_epoch a;
     Train.summary_step := Train.summary_step a;
     Train.patience := Train.patience a;
     Train.checkpoint_epoch := Train.checkpoint_epoch a;
     Train.save_acc_by_set_size_by_epoch := Train.save_acc_by_set_size_by_epoch a;
     Train.num_workers := Train.num_workers a;
     Train.data_parallel := Train.data_parallel a |}.

(** * Facts about values and validators *)

Lemma Z2float_0 : Z2float 0 = 0%float.
Proof. reflexivity. Qed.

Lemma Z2float_1 : Z2float 1 = 1%float.
Proof. reflexivity. Qed.

Lemma float_of_int_0 : float_of_int 0 = Ok 0%float.
Proof. reflexivity. Qed.

Lemma rbind_ok {A B : Type} (m : result A) (k : A -> result B) (b : B) :
  rbind m k = Ok b -> exists a, m = Ok a /\ k a = Ok b.
Proof.
  destruct m as [a | e]; simpl; intros H; [ | discriminate ].
  exists a. split; [ reflexivity | exact H ].
Qed.

Lemma rbind_raise {A B : Type} (m : result A) (k : A -> result B) (e : exn) :
  rbind m k = Raise e -> m = Raise e \/ exists a, m = Ok a /\ k a = Raise e.
Proof.
  destruct m as [a | e']; simpl; intros H.
  - right. exists a. split; [ reflexivity | exact H ].
  - left. congruence.
Qed.

Lemma result_unit_cases (r : result unit) : r = Ok tt \/ raises r.
Proof.
  destruct r as [[] | e]; [ left; reflexivity | right; exists e; reflexivity ].
Qed.

(** [run_validators] succeeds exactly when every attribute validates. *)
Lemma run_validators_ok (attrs : list attribute) :
  run_validators attrs = Ok tt <-> Forall (fun a => validate a = Ok tt) attrs.
Proof.
  induction attrs as [ | a rest IH ]; simpl.
  - split; [ constructor | reflexivity ].
  - split.
    + intros H. apply rbind_ok in H. destruct H as [[] [Ha Hrest]].
      constructor; [ exact Ha | apply IH; exact Hrest ].
    + intros H. inversion H as [ | ? ? Ha Hrest ]; subst.
      rewrite Ha. simpl. apply IH. exact Hrest.
Qed.

(** One attribute that does not validate makes [run_validators] raise. *)
Lemma run_validators_raises (attrs : list attribute) (a : attribute) :
  In a attrs -> raises (validate a) -> raises (run_validators attrs).
Proof.
  intros Hin Hbad.
  destruct (result_unit_cases (run_validators attrs)) as [Hok | Hr]; [ | exact Hr ].
  apply run_validators_ok in Hok. rewrite Forall_forall in Hok.
  specialize (Hok a Hin). destruct Hbad as [e He]. congruence.
Qed.

(** The first failing validator decides the exception. *)
Lemma run_validators_raise_inv (attrs : list attribute) (e : exn) :
  run_validators attrs = Raise e -> exists a, In a attrs /\ validate a = Raise e.
Proof.
  induction attrs as [ | a rest IH ]; simpl; [ discriminate | ].
  intros H. apply rbind_raise in H. destruct H as [H | [[] [_ H]]].
  - exists a. split; [ left; reflexivity | exact H ].
  - destruct (IH H) as [b [Hb Hv]]. exists b. split; [ right; exact Hb | exact Hv ].
Qed.

(** ** Every validator reports with [TypeError] or [ValueError] *)

Create HintDb validators.

Ltac raise_inv H :=
  match type of H with
  | Raise _ = Raise _ => injection H as H; subst; reflexivity
  | Ok _ = Raise _ => discriminate H
  end.

Lemma py_lt_int_error (v : pyval) (k : Z) (e : exn) :
  py_lt_int v k = Raise e -> is_validation_error e = true.
Proof. destruct v; simpl; intros H; try discriminate H; raise_inv H. Qed.

Lemma py_iter_error (v : pyval) (e : exn) :
  py_iter v = Raise e -> is_validation_error e = true.
Proof. destruct v; simpl; intros H; try discriminate H; raise_inv H. Qed.

Lemma py_in_strs_error (v : pyval) (set : list string) (e : exn) :
  py_in_strs v set = Raise e -> is_validation_error e = true.
Proof. destruct v; simpl; intros H; try discriminate H; raise_inv H. Qed.

Lemma instance_of_errors (ts : list pytype) : only_validation_errors (instance_of ts).
Proof.
  intros name x e. unfold instance_of.
  destruct (existsb (isinstance x) ts); intros H; raise_inv H.
Qed.

Lemma optional_errors (v : validator) :
  only_validation_errors v -> only_validation_errors (optional v).
Proof.
  intros Hv name x e. unfold optional.
  destruct (is_None x); intros H; [ discriminate H | exact (Hv _ _ _ H) ].
Qed.

Lemma and_errors (vs : list validator) :
  Forall only_validation_errors vs -> only_validation_errors (and_ vs).
Proof.
  induction 1 as [ | v vs Hv _ IH ]; intros name x e; simpl; intros H.
  - discriminate H.
  - apply rbind_raise in H. destruct H as [H | [[] [_ H]]].
    + exact (Hv _ _ _ H).
    + exact (IH _ _ _ H).
Qed.

Lemma is_list_of_pos_int_errors : only_validation_errors is_list_of_pos_int.
Proof.
  intros name x e. unfold is_list_of_pos_int.
  destruct (negb (pytype_eqb (py_type x) list_t)); intros H; [ raise_inv H | ].
  apply rbind_raise in H. destruct H as [H | [items [_ H]]].
  - exact (py_iter_error _ _ H).
  - induction items as [ | item rest IH ]; simpl in H; [ discriminate H | ].
    destruct (negb (pytype_eqb (py_type item) int_t)); [ raise_inv H | ].
    apply rbind_raise in H. destruct H as [H | [small [_ H]]].
    + exact (py_lt_int_error _ _ _ H).
    + destruct small; [ raise_inv H | exact (IH H) ].
Qed.

Lemma is_list_of_str_errors : only_validation_errors is_list_of_str.
Proof.
  intros name x e. unfold is_list_of_str.
  destruct (negb (pytype_eqb (py_type x) list_t)); intros H; [ raise_inv H | ].
  apply rbind_raise in H. destruct H as [H | [items [_ H]]].
  - exact (py_iter_error _ _ H).
  - induction items as [ | item rest IH ]; simpl in H; [ discriminate H | ].
    destruct (negb (pytype_eqb (py_type item) str_t)); [ raise_inv H | exact (IH H) ].
Qed.

Lemma is_valid_proportion_errors : only_validation_errors is_valid_proportion.
Proof.
  intros name x e. unfold is_valid_proportion.
  destruct x; intros H; try discriminate H.
  destruct (PrimFloat.ltb f 0 || PrimFloat.ltb 1 f)%bool; raise_inv H.
Qed.

Lemma is_pos_int_errors : only_validation_errors is_pos_int.
Proof.
  intros name x e. unfold is_pos_int.
  destruct (negb (pytype_eqb (py_type x) int_t)); intros H; [ raise_inv H | ].
  apply rbind_raise in H. destruct H as [H | [small [_ H]]].
  - exact (py_lt_int_error _ _ _ H).
  - destruct small; raise_inv H.
Qed.

Lemma is_non_neg_int_errors : only_validation_errors is_non_neg_int.
Proof.
  intros name x e. unfold is_non_neg_int.
  destruct (negb (pytype_eqb (py_type x) int_t)); intros H; [ raise_inv H | ].
  apply rbind_raise in H. destruct H as [H | [small [_ H]]].
  - exact (py_lt_int_error _ _ _ H).
  - destruct small; raise_inv H.
Qed.

Lemma check_one_of_errors (set : list string) : only_validation_errors (check_one_of set).
Proof.
  intros name x e. unfold check_one_of. intros H.
  apply rbind_raise in H. destruct H as [H | [found [_ H]]].
  - exact (py_in_strs_error _ _ _ H).
  - destruct found; simpl in H; raise_inv H.
Qed.

Lemma check_all_of_type_errors (t : pytype) : only_validation_errors (check_all_of_type t).
Proof.
  intros name x e. unfold check_all_of_type. intros H.
  apply rbind_raise in H. destruct H as [H | [items [_ H]]].
  - exact (py_iter_error _ _ H).
  - induction items as [ | item rest IH ]; simpl in H; [ discriminate H | ].
    destruct (negb (pytype_eqb (py_type item) t)); [ raise_inv H | exact (IH H) ].
Qed.

Lemma check_set_sizes_errors : only_validation_errors DataConfig.check_set_sizes.
Proof.
  intros name x e. unfold DataConfig.check_set_sizes.
  destruct (negb (is_None x)); intros H; [ | discriminate H ].
  exact (check_all_of_type_errors _ _ _ _ H).
Qed.

#[export] Hint Resolve instance_of_errors optional_errors and_errors
  is_list_of_pos_int_errors is_list_of_str_errors is_valid_proportion_errors
  is_pos_int_errors is_non_neg_int_errors check_one_of_errors
  check_all_of_type_errors check_set_sizes_errors : validators.
#[export] Hint Constructors Forall : validators.

Ltac solve_attribute_errors :=
  unfold attribute_validator, DataConfig.check_dataset_type, DataConfig.size_validator,
    TrainConfig.check_net_name, TrainConfig.check_epochs_list, TrainConfig.check_method,
    TrainConfig.check_new_learn_rate_layers, TrainConfig.check_loss_func,
    TrainConfig.check_optimizer;
  cbn [snd fst]; solve [ auto 8 with validators ].

Lemma run_validators_errors (attrs : list attribute) (e : exn) :
  Forall (fun a => only_validation_errors (attribute_validator a)) attrs ->
  run_validators attrs = Raise e -> is_validation_error e = true.
Proof.
  intros Hall H. apply run_validators_raise_inv in H.
  destruct H as [[[name v] x] [Hin Hv]].
  rewrite Forall_forall in Hall. exact (Hall _ Hin _ _ _ Hv).
Qed.

Lemma DataConfig_attributes_errors (self : DataConfig.t) :
  Forall (fun a => only_validation_errors (attribute_validator a))
    (DataConfig.attributes self).
Proof.
  unfold DataConfig.attributes.
  repeat (apply Forall_cons; [ solve_attribute_errors | ]).
  apply Forall_nil.
Qed.

Lemma TrainConfig_attributes_errors (self : TrainConfig.t) :
  Forall (fun a => only_validation_errors (attribute_validator a))
    (TrainConfig.attributes self).
Proof.
  unfold TrainConfig.attributes.
  repeat (apply Forall_cons; [ solve_attribute_errors | ]).
  apply Forall_nil.
Qed.

(** ** What the validators of [DataConfig] let through *)

Lemma size_validator_ok (name : string) (v : pyval) :
  DataConfig.size_validator name v = Ok tt <->
  (is_count v = true \/
   exists f, v = PyFloat f /\ PrimFloat.ltb f 0%float = false /\ PrimFloat.ltb 1%float f = false).
Proof.
  unfold DataConfig.size_validator, and_, instance_of, is_valid_proportion.
  destruct v as [ | b | z | f | s | l ]; simpl;
    try (split; [ discriminate | intros [H | [f' [H _]]]; discriminate ]);
    try (split; [ intros _; left; reflexivity | reflexivity ]).
  destruct (PrimFloat.ltb f 0) eqn:Hlo; simpl.
  - split; [ discriminate | ].
    intros [H | [f' [H [Hlo' _]]]]; [ discriminate | ]. injection H as <-. congruence.
  - destruct (PrimFloat.ltb 1 f) eqn:Hhi; simpl.
    + split; [ discriminate | ].
      intros [H | [f' [H [_ Hhi']]]]; [ discriminate | ]. injection H as <-. congruence.
    + split; [ intros _ | reflexivity ].
      right. exists f. repeat split; assumption.
Qed.

Lemma optional_ok (v : validator) (name : string) (x : pyval) :
  optional v name x = Ok tt <-> (x = PyNone \/ v name x = Ok tt).
Proof.
  unfold optional. destruct x; simpl; split; auto; intros [H | H]; auto; discriminate.
Qed.

Lemma instance_of_str_ok (name : string) (v : pyval) :
  instance_of [str_t] name v = Ok tt <-> exists s, v = PyStr s.
Proof.
  unfold instance_of. destruct v; simpl; split;
    try discriminate; try (intros [s' H]; discriminate); eauto.
Qed.

Lemma DataConfig_validated_ranges (self : DataConfig.t) :
  run_validators (DataConfig.attributes self) = Ok tt ->
  Forall accepted_size (DataConfig.split_sizes self) /\
  exists s, DataConfig.csv_file_in self = PyStr s.
Proof.
  intros H. apply run_validators_ok in H. rewrite Forall_forall in H.
  assert (Hin : forall a, In a (DataConfig.attributes self) -> validate a = Ok tt)
    by exact H.
  pose proof (Hin ("csv_file_in", instance_of [str_t], DataConfig.csv_file_in self)) as Hcsv.
  pose proof (Hin ("train_size", DataConfig.size_validator, DataConfig.train_size self)) as Htr.
  pose proof (Hin ("val_size", optional DataConfig.size_validator, DataConfig.val_size self))
    as Hva.
  pose proof (Hin ("test_size", optional DataConfig.size_validator, DataConfig.test_size self))
    as Hte.
  unfold DataConfig.attributes in Hcsv, Htr, Hva, Hte. simpl in Hcsv, Htr, Hva, Hte.
  split.
  - assert (Hacc : forall name v, DataConfig.size_validator name v = Ok tt -> accepted_size v).
    { intros name v Hv. apply size_validator_ok in Hv. right. exact Hv. }
    unfold DataConfig.split_sizes.
    constructor; [ apply (Hacc "train_size"); apply Htr; tauto | ].
    constructor.
    { assert (Hv : optional DataConfig.size_validator "val_size" (DataConfig.val_size self)
                   = Ok tt) by (apply Hva; tauto).
      apply optional_ok in Hv. destruct Hv as [Hv | Hv]; [ left; exact Hv | exact (Hacc _ _ Hv) ]. }
    constructor; [ | constructor ].
    assert (Hv : optional DataConfig.size_validator "test_size" (DataConfig.test_size self)
                 = Ok tt) by (apply Hte; tauto).
    apply optional_ok in Hv. destruct Hv as [Hv | Hv]; [ left; exact Hv | exact (Hacc _ _ Hv) ].
  - apply (instance_of_str_ok "csv_file_in"). apply Hcsv. tauto.
Qed.

Lemma accepted_admissible (v : pyval) : accepted_size v -> admissible_size v = true.
Proof.
  intros [-> | [Hc | [f [-> _]]]]; try reflexivity.
  destruct v; try discriminate Hc; reflexivity.
Qed.

Lemma DataConfig_validated_sizes (self : DataConfig.t) :
  run_validators (DataConfig.attributes self) = Ok tt ->
  Forall (fun v => admissible_size v = true) (DataConfig.split_sizes self) /\
  exists s, DataConfig.csv_file_in self = PyStr s.
Proof.
  intros H. destruct (DataConfig_validated_ranges self H) as [Hacc Hcsv].
  split; [ | exact Hcsv ].
  exact (Forall_impl _ accepted_admissible Hacc).
Qed.

(** The proportion check, on sizes the validators let through, in the
    vocabulary of the statements. *)
Lemma check_proportions_spec (self : DataConfig.t) :
  Forall (fun v => admissible_size v = true) (DataConfig.split_sizes self) ->
  DataConfig.check_proportions self =
    if existsb is_proportion (DataConfig.split_sizes self) then
      if existsb is_count (DataConfig.split_sizes self) then
        Raise DataConfig.mixed_sizes_error
      else if PrimFloat.ltb 1%float (proportion_total (DataConfig.split_sizes self)) then
        Raise DataConfig.total_error
      else Ok tt
    else Ok tt.
Proof.
  unfold DataConfig.check_proportions, DataConfig.split_sizes.
  intros H.
  inversion H as [ | ? ? H1 H' ]; subst; clear H.
  inversion H' as [ | ? ? H2 H'' ]; subst; clear H'.
  inversion H'' as [ | ? ? H3 _ ]; subst; clear H''.
  destruct (DataConfig.train_size self); try discriminate H1;
    destruct (DataConfig.val_size self); try discriminate H2;
    destruct (DataConfig.test_size self); try discriminate H3;
    reflexivity.
Qed.

Lemma DataConfig_new_ok (self c : DataConfig.t) :
  DataConfig.new self = Ok c ->
  run_validators (DataConfig.attributes self) = Ok tt /\
  DataConfig.check_proportions self = Ok tt /\
  DataConfig.split_sizes c = DataConfig.split_sizes self.
Proof.
  unfold DataConfig.new, DataConfig.attrs_post_init. intros H.
  apply rbind_ok in H. destruct H as [[] [Hval H]].
  apply rbind_ok in H. destruct H as [[] [Hprop H]].
  split; [ exact Hval | split; [ exact Hprop | ] ].
  destruct (is_None (DataConfig.csv_file_out self)).
  - apply rbind_ok in H. destruct H as [out [_ H]]. injection H as <-. reflexivity.
  - injection H as <-. reflexivity.
Qed.

(** A construction that does not succeed fails with a validation error. *)
Lemma DataConfig_new_cases (self : DataConfig.t) :
  (exists c, DataConfig.new self = Ok c) \/ fails_validation (DataConfig.new self).
Proof.
  unfold DataConfig.new, DataConfig.attrs_post_init.
  destruct (run_validators (DataConfig.attributes self)) as [[] | e] eqn:Hval.
  - destruct (DataConfig_validated_sizes self Hval) as [Hadm [s Hcsv]].
    simpl. rewrite (check_proportions_spec self Hadm).
    destruct (existsb is_proportion (DataConfig.split_sizes self)).
    + destruct (existsb is_count (DataConfig.split_sizes self)).
      * right. eexists. split; reflexivity.
      * destruct (PrimFloat.ltb 1 (proportion_total (DataConfig.split_sizes self))).
        -- right. eexists. split; reflexivity.
        -- left. simpl. rewrite Hcsv.
           destruct (is_None (DataConfig.csv_file_out self)); simpl; eauto.
    + left. simpl. rewrite Hcsv.
      destruct (is_None (DataConfig.csv_file_out self)); simpl; eauto.
  - right. exists e. split; [ reflexivity | ].
    exact (run_validators_errors _ _ (DataConfig_attributes_errors self) Hval).
Qed.

Lemma not_ok_fails (self : DataConfig.t) :
  (forall c, DataConfig.new self <> Ok c) -> fails_validation (DataConfig.new self).
Proof.
  intros Hno. destruct (DataConfig_new_cases self) as [[c Hc] | Hf]; [ | exact Hf ].
  exfalso. exact (Hno c Hc).
Qed.

Lemma no_count_provided_proportions (sizes : list pyval) :
  Forall (fun v => admissible_size v = true) sizes ->
  existsb is_count sizes = false ->
  forallb is_proportion (provided sizes) = true.
Proof.
  induction 1 as [ | v rest Hv _ IH ]; simpl; [ reflexivity | ].
  intros Hc. apply orb_false_iff in Hc. destruct Hc as [Hcv Hcrest].
  destruct v; try discriminate Hv; try discriminate Hcv; simpl; auto.
Qed.

(** C4: when a split size of a [DataConfig] is a proportion, every
    provided split size is a proportion and their total is not above 1.
    Mixing a proportion with an absolute count fails with a validation
    error, so does a total above 1, and a [DataConfig] that is constructed
    satisfies the invariant (the total is the double-precision sum that
    [sum] computes). *)
Theorem DataConfig_proportion_invariant (self : DataConfig.t) :
  (mixes_proportion_and_count (DataConfig.split_sizes self) = true ->
   fails_validation (DataConfig.new self)) /\
  (proportions_exceed_one (DataConfig.split_sizes self) = true ->
   fails_validation (DataConfig.new self)) /\
  (forall c, DataConfig.new self = Ok c ->
             DataConfig.split_sizes c = DataConfig.split_sizes self /\
             proportion_invariant (DataConfig.split_sizes c)).
Proof.
  assert (Hspec : forall c, DataConfig.new self = Ok c ->
            Forall (fun v => admissible_size v = true) (DataConfig.split_sizes self) /\
            (existsb is_proportion (DataConfig.split_sizes self) = true ->
             existsb is_count (DataConfig.split_sizes self) = false /\
             PrimFloat.ltb 1 (proportion_total (DataConfig.split_sizes self)) = false)).
  { intros c Hc. destruct (DataConfig_new_ok self c Hc) as [Hval [Hprop _]].
    destruct (DataConfig_validated_sizes self Hval) as [Hadm _].
    split; [ exact Hadm | ]. intros Hany.
    rewrite (check_proportions_spec self Hadm), Hany in Hprop.
    destruct (existsb is_count (DataConfig.split_sizes self)); [ discriminate Hprop | ].
    destruct (PrimFloat.ltb 1 (proportion_total (DataConfig.split_sizes self)));
      [ discriminate Hprop | split; reflexivity ]. }
  split; [ | split ].
  - unfold mixes_proportion_and_count. intros Hmix.
    apply andb_true_iff in Hmix. destruct Hmix as [Hany Hcount].
    apply not_ok_fails. intros c Hc.
    destruct (Hspec c Hc) as [_ Hinv]. destruct (Hinv Hany) as [Hno _]. congruence.
  - unfold proportions_exceed_one. intros Hex.
    apply andb_true_iff in Hex. destruct Hex as [Hex Hgt].
    apply andb_true_iff in Hex. destruct Hex as [Hany _].
    apply not_ok_fails. intros c Hc.
    destruct (Hspec c Hc) as [_ Hinv]. destruct (Hinv Hany) as [_ Hle]. congruence.
  - intros c Hc. destruct (DataConfig_new_ok self c Hc) as [_ [_ Hsame]].
    split; [ exact Hsame | ]. rewrite Hsame.
    destruct (Hspec c Hc) as [Hadm Hinv]. intros Hany.
    destruct (Hinv Hany) as [Hno Hle].
    split; [ exact (no_count_provided_proportions _ Hadm Hno) | exact Hle ].
Qed.

Lemma DataConfig_proportion_invariant_witness :
  fails_validation
    (DataConfig.new (DataConfig_with_sizes (PyStr "stims.csv") (PyFloat 0.5) (PyInt 100) PyNone)) /\
  fails_validation
    (DataConfig.new
       (DataConfig_with_sizes (PyStr "stims.csv") (PyFloat 0.6) (PyFloat 0.3) (PyFloat 0.2))) /\
  proportion_invariant [PyFloat 0.6; PyFloat 0.2; PyNone].
Proof.
  split; [ | split ].
  - apply (proj1 (DataConfig_proportion_invariant _)). reflexivity.
  - apply (proj1 (proj2 (DataConfig_proportion_invariant _))). reflexivity.
  - exact (proj2 (proj2 (proj2 (DataConfig_proportion_invariant
             (DataConfig_with_sizes (PyStr "stims.csv") (PyFloat 0.6) (PyFloat 0.2) PyNone)))
             _ eq_refl)).
Defined.

(** Rounding is part of the check: these three proportions add up to more
    than 1 as real numbers, and to exactly 1 as doubles. *)
Example DataConfig_total_is_rounded :
  exists c,
    DataConfig.new
      (DataConfig_with_sizes (PyStr "stims.csv") (PyFloat 0.5) (PyFloat 0.5) (PyFloat 0x1p-60))
    = Ok c.
Proof. eexists. reflexivity. Qed.

(** As stated, C6 does not hold: an integer split size is not
    range-checked, so zero and a negative count are accepted. *)
Lemma DataConfig_nonpositive_count_accepted :
  existsb size_out_of_range
    (DataConfig.split_sizes
       (DataConfig_with_sizes (PyStr "stims.csv") (PyInt 0) (PyInt (-5)) PyNone)) = true /\
  DataConfig.new (DataConfig_with_sizes (PyStr "stims.csv") (PyInt 0) (PyInt (-5)) PyNone)
  = Ok (DataConfig.set_csv_file_out
          (DataConfig_with_sizes (PyStr "stims.csv") (PyInt 0) (PyInt (-5)) PyNone)
          (PyStr "stims.csv_split.csv")).
Proof. split; reflexivity. Qed.

(** C6, amended: each provided split size must be an int or a double; a
    double below 0 or above 1 fails with a validation error, while an int
    is not range-checked, so counts of any sign are accepted. *)
Theorem DataConfig_split_size_check (self : DataConfig.t) :
  (forall c, DataConfig.new self = Ok c ->
             Forall accepted_size (DataConfig.split_sizes self)) /\
  (forall f, In (PyFloat f) (DataConfig.split_sizes self) ->
             size_out_of_range (PyFloat f) = true ->
             fails_validation (DataConfig.new self)) /\
  (forall s z1 z2 z3,
      exists c,
        DataConfig.new (DataConfig_with_sizes (PyStr s) (PyInt z1) (PyInt z2) (PyInt z3))
        = Ok c).
Proof.
  assert (Hacc : forall c, DataConfig.new self = Ok c ->
                           Forall accepted_size (DataConfig.split_sizes self)).
  { intros c Hc. destruct (DataConfig_new_ok self c Hc) as [Hval _].
    exact (proj1 (DataConfig_validated_ranges self Hval)). }
  split; [ exact Hacc | split ].
  - intros f Hin Hout. apply not_ok_fails. intros c Hc.
    specialize (Hacc c Hc). rewrite Forall_forall in Hacc.
    destruct (Hacc _ Hin) as [H | [H | [f' [H [Hlo Hhi]]]]]; try discriminate H.
    injection H as <-. simpl in Hout. rewrite Hlo, Hhi in Hout. discriminate Hout.
  - intros s z1 z2 z3. eexists. reflexivity.
Qed.

Lemma DataConfig_split_size_check_witness :
  fails_validation
    (DataConfig.new (DataConfig_with_sizes (PyStr "stims.csv") (PyFloat 1.5) PyNone PyNone)) /\
  Forall accepted_size [PyInt 10; PyInt 0; PyNone].
Proof.
  split.
  - apply (proj1 (proj2 (DataConfig_split_size_check
             (DataConfig_with_sizes (PyStr "stims.csv") (PyFloat 1.5) PyNone PyNone)))
             1.5%float).
    + left. reflexivity.
    + reflexivity.
  - exact (proj1 (DataConfig_split_size_check
             (DataConfig_with_sizes (PyStr "stims.csv") (PyInt 10) (PyInt 0) PyNone))
             _ eq_refl).
Defined.

(** ** What the validators of [TrainConfig] let through *)

Lemma optional_is_pos_int_spec (name : string) (v : pyval) :
  if optional_pos_int v then optional is_pos_int name v = Ok tt
  else raises (optional is_pos_int name v).
Proof.
  unfold optional, is_pos_int, raises.
  destruct v as [ | b | z | f | s | l ]; simpl; eauto.
  destruct (Z.leb_spec 1 z) as [Hz | Hz].
  - replace (z <? 1) with false by (symmetry; apply Z.ltb_ge; lia). reflexivity.
  - replace (z <? 1) with true by (symmetry; apply Z.ltb_lt; lia). simpl. eauto.
Qed.

Lemma instance_of_int_spec (name : string) (v : pyval) :
  if is_count v then instance_of [int_t] name v = Ok tt
  else raises (instance_of [int_t] name v).
Proof. unfold instance_of, raises. destruct v; simpl; eauto. Qed.

Lemma check_items_of_type_int (name : string) (l : list pyval) :
  if forallb is_int l then check_items_of_type int_t name l = Ok tt
  else raises (check_items_of_type int_t name l).
Proof.
  unfold raises. induction l as [ | x rest IH ]; simpl; [ reflexivity | ].
  destruct x; simpl; eauto.
Qed.

Lemma epochs_list_validator_spec (name : string) (v : pyval) :
  if list_of_int v
  then and_ [instance_of [list_t]; TrainConfig.check_epochs_list] name v = Ok tt
  else raises (and_ [instance_of [list_t]; TrainConfig.check_epochs_list] name v).
Proof.
  unfold TrainConfig.check_epochs_list, check_all_of_type, instance_of, raises.
  destruct v as [ | b | z | f | s | l ]; simpl; eauto.
  pose proof (check_items_of_type_int name l) as H.
  destruct (forallb is_int l).
  - rewrite H. reflexivity.
  - destruct H as [e ->]. simpl. eauto.
Qed.

Lemma TrainConfig_new_ok_iff (self : TrainConfig.t) :
  TrainConfig.new self = Ok self <->
  Forall (fun a => validate a = Ok tt) (TrainConfig.attributes self).
Proof.
  rewrite <- run_validators_ok. unfold TrainConfig.new.
  destruct (run_validators (TrainConfig.attributes self)) as [[] | e]; simpl;
    split; intros H; try reflexivity; discriminate H.
Qed.

Lemma TrainConfig_bad_attribute (self : TrainConfig.t) (a : attribute) :
  In a (TrainConfig.attributes self) -> raises (validate a) ->
  fails_validation (TrainConfig.new self).
Proof.
  intros Hin Hbad.
  destruct (run_validators_raises _ _ Hin Hbad) as [e He].
  exists e. unfold TrainConfig.new. rewrite He. split; [ reflexivity | ].
  exact (run_validators_errors _ _ (TrainConfig_attributes_errors self) He).
Qed.

Ltac split_Forall H :=
  repeat (apply Forall_cons_iff in H;
          let Hv := fresh "Hv" in destruct H as [Hv H]).

Ltac in_attributes := simpl; repeat first [ left; reflexivity | right ].

(** As stated, C5 does not hold: [TrainConfig] has no cross-field check,
    so [patience] with [use_val = False] is accepted, and so is
    [use_val = True] without a [val_epoch]. *)
Lemma TrainConfig_cross_field_unchecked :
  TrainConfig.new (TrainConfig_with_validation TrainConfig_example (PyBool false) PyNone (PyInt 5))
  = Ok (TrainConfig_with_validation TrainConfig_example (PyBool false) PyNone (PyInt 5)) /\
  TrainConfig.new (TrainConfig_with_validation TrainConfig_example (PyBool true) PyNone PyNone)
  = Ok (TrainConfig_with_validation TrainConfig_example (PyBool true) PyNone PyNone).
Proof. split; reflexivity. Qed.

(** C5, amended: [TrainConfig] validates [use_val], [val_epoch] and
    [patience] one at a time and checks no invariant across them.  With
    every other field valid, construction succeeds exactly when [val_epoch]
    and [patience] are each [None] or a positive int, whatever [use_val]
    is, and fails with a validation error otherwise; so [patience] with
    [use_val = True] and a valid [val_epoch] succeeds, and so does
    [patience] with [use_val = False]. *)
Theorem TrainConfig_validation_fieldwise
  (self : TrainConfig.t) (b : bool) (val_epoch patience : pyval) :
  TrainConfig.new self = Ok self ->
  if (optional_pos_int val_epoch && optional_pos_int patience)%bool
  then TrainConfig.new (TrainConfig_with_validation self (PyBool b) val_epoch patience)
       = Ok (TrainConfig_with_validation self (PyBool b) val_epoch patience)
  else fails_validation
         (TrainConfig.new (TrainConfig_with_validation self (PyBool b) val_epoch patience)).
Proof.
  intros Hbase. apply TrainConfig_new_ok_iff in Hbase.
  pose proof (optional_is_pos_int_spec "val_epoch" val_epoch) as Hve.
  pose proof (optional_is_pos_int_spec "patience" patience) as Hpa.
  destruct (optional_pos_int val_epoch); simpl.
  - destruct (optional_pos_int patience).
    + apply TrainConfig_new_ok_iff.
      unfold TrainConfig.attributes in *. split_Forall Hbase.
      repeat (apply Forall_cons; [ first [ assumption | reflexivity ] | ]).
      apply Forall_nil.
    + apply (TrainConfig_bad_attribute _ ("patience", optional is_pos_int, patience));
        [ in_attributes | exact Hpa ].
  - apply (TrainConfig_bad_attribute _ ("val_epoch", optional is_pos_int, val_epoch));
      [ in_attributes | exact Hve ].
Qed.

Lemma TrainConfig_validation_fieldwise_witness :
  TrainConfig.new (TrainConfig_with_validation TrainConfig_example (PyBool true) (PyInt 1) (PyInt 20))
  = Ok (TrainConfig_with_validation TrainConfig_example (PyBool true) (PyInt 1) (PyInt 20)) /\
  fails_validation
    (TrainConfig.new
       (TrainConfig_with_validation TrainConfig_example (PyBool true) (PyInt 0) PyNone)).
Proof.
  split.
  - exact (TrainConfig_validation_fieldwise TrainConfig_example true (PyInt 1) (PyInt 20) eq_refl).
  - exact (TrainConfig_validation_fieldwise TrainConfig_example true (PyInt 0) PyNone eq_refl).
Defined.

(** As stated, C9 does not hold: a replicate count of zero and epoch
    budgets that are zero or negative are accepted. *)
Lemma TrainConfig_nonpositive_grid_accepted :
  TrainConfig.new
    (TrainConfig_with_grid TrainConfig_example (PyInt 0) (PyList [PyInt 0; PyInt (-3)]))
  = Ok (TrainConfig_with_grid TrainConfig_example (PyInt 0) (PyList [PyInt 0; PyInt (-3)])) /\
  TrainConfig.new (TrainConfig_with_grid TrainConfig_example (PyInt (-1)) (PyList [PyInt 5]))
  = Ok (TrainConfig_with_grid TrainConfig_example (PyInt (-1)) (PyList [PyInt 5])).
Proof. split; reflexivity. Qed.

(** C9, amended: [TrainConfig] requires [number_nets_to_train] to be an
    int and [epochs_list] to be a list whose items are of type int, and
    checks the sign of neither.  With every other field valid,
    construction succeeds exactly when both hold and fails with a
    validation error otherwise. *)
Theorem TrainConfig_grid_types_only
  (self : TrainConfig.t) (number_nets_to_train epochs_list : pyval) :
  TrainConfig.new self = Ok self ->
  if (is_count number_nets_to_train && list_of_int epochs_list)%bool
  then TrainConfig.new (TrainConfig_with_grid self number_nets_to_train epochs_list)
       = Ok (TrainConfig_with_grid self number_nets_to_train epochs_list)
  else fails_validation
         (TrainConfig.new (TrainConfig_with_grid self number_nets_to_train epochs_list)).
Proof.
  intros Hbase. apply TrainConfig_new_ok_iff in Hbase.
  pose proof (instance_of_int_spec "number_nets_to_train" number_nets_to_train) as Hn.
  pose proof (epochs_list_validator_spec "epochs_list" epochs_list) as He.
  destruct (is_count number_nets_to_train); simpl.
  - destruct (list_of_int epochs_list).
    + apply TrainConfig_new_ok_iff.
      unfold TrainConfig.attributes in *. split_Forall Hbase.
      repeat (apply Forall_cons; [ first [ assumption | reflexivity ] | ]).
      apply Forall_nil.
    + apply (TrainConfig_bad_attribute _
               ("epochs_list", and_ [instance_of [list_t]; TrainConfig.check_epochs_list],
                 epochs_list));
        [ in_attributes | exact He ].
  - apply (TrainConfig_bad_attribute _
             ("number_nets_to_train", instance_of [int_t], number_nets_to_train));
      [ in_attributes | exact Hn ].
Qed.

Lemma TrainConfig_grid_types_only_witness :
  TrainConfig.new (TrainConfig_with_grid TrainConfig_example (PyInt (-2)) (PyList [PyInt 0]))
  = Ok (TrainConfig_with_grid TrainConfig_example (PyInt (-2)) (PyList [PyInt 0])) /\
  fails_validation
    (TrainConfig.new
       (TrainConfig_with_grid TrainConfig_example (PyInt 2) (PyList [PyBool true]))).
Proof.
  split.
  - exact (TrainConfig_grid_types_only TrainConfig_example (PyInt (-2)) (PyList [PyInt 0])
             eq_refl).
  - exact (TrainConfig_grid_types_only TrainConfig_example (PyInt 2) (PyList [PyBool true])
             eq_refl).
Defined.

(** * The driver *)

(** ** Running with a log *)

Lemma bind_ok {A B : Type} (m : Train.M A) (k : A -> Train.M B) (x : A) :
  fst m = Ok x ->
  fst (Train.bind m k) = fst (k x) /\ snd (Train.bind m k) = snd m ++ snd (k x).
Proof.
  destruct m as [r log]. simpl. intros ->. simpl.
  destruct (k x) as [r' log']. split; reflexivity.
Qed.

Lemma bind_raise {A B : Type} (m : Train.M A) (k : A -> Train.M B) (e : exn) :
  fst m = Raise e -> Train.bind m k = (Raise e, snd m).
Proof. destruct m as [r log]. simpl. intros ->. reflexivity. Qed.

Lemma bind_ok_inv {A B : Type} (m : Train.M A) (k : A -> Train.M B) (y : B) :
  fst (Train.bind m k) = Ok y ->
  exists x, fst m = Ok x /\ fst (k x) = Ok y /\
            snd (Train.bind m k) = snd m ++ snd (k x).
Proof.
  destruct m as [[x | e] log]; simpl; [ | discriminate ].
  destruct (k x) as [r' log'] eqn:Hk. simpl. intros ->.
  exists x. rewrite Hk. repeat split; reflexivity.
Qed.

Lemma bind_cases {A B : Type} (m : Train.M A) (k : A -> Train.M B) :
  (exists e, fst m = Raise e /\ Train.bind m k = (Raise e, snd m)) \/
  (exists x, fst m = Ok x /\ fst (Train.bind m k) = fst (k x) /\
             snd (Train.bind m k) = snd m ++ snd (k x)).
Proof.
  destruct (fst m) as [x | e] eqn:Hm.
  - right. exists x. split; [ reflexivity | exact (bind_ok m k x Hm) ].
  - left. exists e. split; [ reflexivity | exact (bind_raise m k e Hm) ].
Qed.

(** A property of every event of the parts holds of every event of the whole. *)
Lemma log_bind {A B : Type} (P : Train.event -> Prop) (m : Train.M A) (k : A -> Train.M B) :
  Forall P (snd m) -> (forall x, Forall P (snd (k x))) -> Forall P (snd (Train.bind m k)).
Proof.
  intros Hm Hk. destruct (bind_cases m k) as [[e [_ ->]] | [x [_ [_ ->]]]].
  - exact Hm.
  - apply Forall_app. split; [ exact Hm | exact (Hk x) ].
Qed.

Lemma log_lift {A : Type} (P : Train.event -> Prop) (r : result A) :
  Forall P (snd (Train.lift r)).
Proof. constructor. Qed.

Lemma log_ret {A : Type} (P : Train.event -> Prop) (x : A) : Forall P (snd (Train.ret x)).
Proof. constructor. Qed.

Lemma log_raise {A : Type} (P : Train.event -> Prop) (e : exn) :
  Forall P (snd (@Train.raise A e)).
Proof. constructor. Qed.

Lemma log_read_local {A : Type} (P : Train.event -> Prop) (name : string) (v : option A) :
  Forall P (snd (Train.read_local name v)).
Proof. destruct v; constructor. Qed.

Lemma log_call (P : Train.event -> Prop) (ev : Train.event) (o : option exn) :
  P ev -> Forall P (snd (Train.call ev o)).
Proof. intros H. repeat constructor. exact H. Qed.

Lemma log_ask {A : Type} (P : Train.event -> Prop) (ev : Train.event) (r : result A) :
  P ev -> Forall P (snd (Train.ask ev r)).
Proof. intros H. repeat constructor. exact H. Qed.

(** Splits the log of a step into the logs of its calls. *)
Ltac log_steps :=
  repeat first
    [ apply log_bind; [ | intros ? ]
    | apply log_lift | apply log_ret | apply log_raise | apply log_read_local
    | apply log_call; try reflexivity
    | apply log_ask; try reflexivity
    | match goal with
      | |- Forall _ (snd (if ?c then _ else _)) => destruct c
      end ].

Lemma fails_bind {A B : Type} (m : Train.M A) (k : A -> Train.M B) :
  (forall x, fst m = Ok x -> fails (k x)) -> fails (Train.bind m k).
Proof.
  intros H. unfold fails.
  destruct (bind_cases m k) as [[e [_ ->]] | [x [Hx [-> _]]]].
  - exists e. reflexivity.
  - exact (H x Hx).
Qed.

Lemma fails_first {A B : Type} (m : Train.M A) (k : A -> Train.M B) :
  fails m -> fails (Train.bind m k).
Proof.
  intros [e He]. apply fails_bind. intros x Hx. congruence.
Qed.

Arguments Train.bind : simpl never.

(** ** What each part of [train] logs *)

Lemma seed_skipped (W : Train.world) (random_seed : pyval) :
  py_truthy random_seed = false -> Train.seed W random_seed = (Ok tt, []).
Proof. unfold Train.seed. intros ->. reflexivity. Qed.

Lemma prepare_no_loop_event (W : Train.world) (a : Train.args) :
  none_of is_loop_event (snd (Train.prepare W a)).
Proof.
  unfold none_of, Train.prepare, Train.seed, Train.select_device, Train.select_datasets,
    Train.select_trainset_set_size.
  log_steps.
Qed.

Lemma prepare_no_seeding_event (W : Train.world) (a : Train.args) :
  py_truthy (Train.random_seed a) = false ->
  none_of is_seeding_event (snd (Train.prepare W a)).
Proof.
  intros Hseed.
  unfold none_of, Train.prepare, Train.select_device, Train.select_datasets,
    Train.select_trainset_set_size.
  rewrite (seed_skipped W _ Hseed).
  log_steps.
Qed.

Lemma run_job_only_job_events (W : Train.world) (a : Train.args) (L : Train.locals)
  (epochs : pyval) (trainer : option Train.trainer_t) (net_number : Z) :
  Forall (fun ev => is_job_event ev = true)
    (snd (Train.run_job W a L epochs trainer net_number)).
Proof. unfold Train.run_job, Train.common_kwargs. log_steps. Qed.

Lemma for_net_number_only_job_events (W : Train.world) (a : Train.args) (L : Train.locals)
  (epochs : pyval) (net_numbers : list Z) (trainer : option Train.trainer_t) :
  Forall (fun ev => is_job_event ev = true)
    (snd (Train.for_net_number W a L epochs trainer net_numbers)).
Proof.
  revert trainer. induction net_numbers as [ | n rest IH ]; intros trainer; simpl.
  - constructor.
  - apply log_bind; [ apply run_job_only_job_events | intros trainer'; apply IH ].
Qed.

Lemma for_epochs_only_loop_events (W : Train.world) (a : Train.args) (L : Train.locals)
  (epochs_list : list pyval) (trainer : option Train.trainer_t) :
  Forall (fun ev => is_loop_event ev = true)
    (snd (Train.for_epochs W a L trainer epochs_list)).
Proof.
  revert trainer. induction epochs_list as [ | epochs rest IH ]; intros trainer; simpl.
  - constructor.
  - log_steps; [ | apply IH ].
    eapply Forall_impl; [ | apply for_net_number_only_job_events ].
    intros ev Hev. destruct ev; try discriminate Hev; reflexivity.
Qed.

Lemma loop_event_not_seeding (ev : Train.event) :
  is_loop_event ev = true -> is_seeding_event ev = false.
Proof. destruct ev; simpl; intros H; try discriminate H; reflexivity. Qed.

(** When [prepare] raises, [train] stops there: same exception, same log. *)
Lemma train_stops_in_prepare (W : Train.world) (a : Train.args) (e : exn) :
  fst (Train.prepare W a) = Raise e ->
  Train.train W a = (Raise e, snd (Train.prepare W a)).
Proof. intros H. unfold Train.train. exact (bind_raise _ _ _ H). Qed.

Lemma train_log (W : Train.world) (a : Train.args) (P : Train.event -> Prop) :
  Forall P (snd (Train.prepare W a)) ->
  (forall ev, is_loop_event ev = true -> P ev) ->
  Forall P (snd (Train.train W a)).
Proof.
  intros Hprep Hloop. unfold Train.train.
  apply log_bind; [ exact Hprep | intros prepared ].
  apply log_bind; [ | intros ?; apply log_ret ].
  eapply Forall_impl; [ exact Hloop | apply for_epochs_only_loop_events ].
Qed.

Lemma bind_lift_ok {A B : Type} (r : result A) (k : A -> Train.M B) (x : A) :
  r = Ok x -> Train.bind (Train.lift r) k = k x.
Proof.
  intros ->. unfold Train.bind, Train.lift. destruct (k x) as [r' log']. reflexivity.
Qed.

Lemma prefix_of_bind {A B : Type} (m : Train.M A) (k : A -> Train.M B) :
  prefix_of (snd m) (snd (Train.bind m k)).
Proof.
  destruct (bind_cases m k) as [[e [_ ->]] | [x [_ [_ ->]]]].
  - exists []. symmetry. apply app_nil_r.
  - exists (snd (k x)). reflexivity.
Qed.

Lemma prefix_of_trans {A : Type} (l1 l2 l3 : list A) :
  prefix_of l1 l2 -> prefix_of l2 l3 -> prefix_of l1 l3.
Proof.
  intros [r1 ->] [r2 ->]. exists (r1 ++ r2). symmetry. apply app_assoc.
Qed.

(** ** The check on [val_epoch] *)

Lemma check_val_epoch_spec (use_val val_epoch : pyval) :
  Train.check_val_epoch use_val val_epoch = Ok tt <-> exists z, val_epoch = PyInt z /\ 1 <= z.
Proof.
  unfold Train.check_val_epoch.
  destruct val_epoch as [ | b | z | f | s | l ]; simpl;
    try rewrite andb_false_r; simpl.
  - split; [ | intros [z [H _]]; discriminate H ].
    destruct (py_truthy use_val); discriminate.
  - split; [ | intros [z [H _]]; discriminate H ].
    destruct ((if b then 1 else 0) <? 1); discriminate.
  - destruct (Z.ltb_spec z 1) as [Hz | Hz]; simpl.
    + split; [ discriminate | ]. intros [z' [H Hz']]. injection H as <-. lia.
    + split; [ intros _; exists z; split; [ reflexivity | exact Hz ] | reflexivity ].
  - split; [ | intros [z [H _]]; discriminate H ].
    destruct (PrimFloat.ltb f (Z2float 1)); discriminate.
  - split; [ discriminate | intros [z [H _]]; discriminate H ].
  - split; [ discriminate | intros [z [H _]]; discriminate H ].
Qed.

(** C1: the check on [val_epoch] at the top of [train] does not depend on
    [use_val].  It passes exactly when [val_epoch] is a positive int; in
    particular [use_val = False] with [val_epoch = 0] raises the
    [val_epoch] error, and [use_val = False] with [val_epoch = None] stops
    [train] with the [TypeError] of [None < 1], before any effect. *)
Theorem check_val_epoch_ignores_use_val :
  (forall use_val val_epoch,
      Train.check_val_epoch use_val val_epoch = Ok tt <->
      exists z, val_epoch = PyInt z /\ 1 <= z) /\
  Train.check_val_epoch (PyBool false) (PyInt 0) = Raise Train.val_epoch_error /\
  Train.check_val_epoch (PyBool false) PyNone
  = Raise (Exn TypeError "'<' not supported between these instances") /\
  (forall W,
      Train.train W
        (train_call (PyStr "searchstims") (PyList [PyInt 5]) (PyInt 42) (PyStr "CE")
           (PyBool false) PyNone (PyBool false))
      = (Raise (Exn TypeError "'<' not supported between these instances"), [])).
Proof.
  split; [ exact check_val_epoch_spec | ].
  repeat split; reflexivity.
Qed.

(** ** Dataset selection *)

Lemma select_datasets_no_else (W : Train.world) (a : Train.args) (t1 t2 : Train.handle) :
  py_eq_str (Train.dataset_type a) "VSD" = false ->
  py_eq_str (Train.dataset_type a) "searchstims" = false ->
  Train.select_datasets W a t1 t2 = (Ok (None, None), []).
Proof. unfold Train.select_datasets. intros -> ->. reflexivity. Qed.

(** C7: with a [dataset_type] other than "searchstims" and "VSD" the
    dataset selection step raises nothing: it assigns neither [trainset]
    nor [valset].  With an empty list of epochs [train] then returns
    normally; with a job to run it computes the first save path and stops
    with [UnboundLocalError] on [trainset]. *)
Theorem select_datasets_unknown_type :
  (forall W t1 t2,
      Train.select_datasets W
        (train_call (PyStr "imagenet") (PyList [PyInt 5]) (PyInt 42) (PyStr "CE")
           (PyBool true) (PyInt 1) (PyBool false)) t1 t2
      = (Ok (None, None), [])) /\
  fst (Train.train quiet_world
         (train_call (PyStr "imagenet") (PyList []) (PyInt 42) (PyStr "CE")
            (PyBool true) (PyInt 1) (PyBool false)))
  = Ok tt /\
  fst (Train.train quiet_world
         (train_call (PyStr "imagenet") (PyList [PyInt 5]) (PyInt 42) (PyStr "CE")
            (PyBool true) (PyInt 1) (PyBool false)))
  = Raise (Exn UnboundLocalError "local variable referenced before assignment: trainset") /\
  jobs_of (snd (Train.train quiet_world
                  (train_call (PyStr "imagenet") (PyList [PyInt 5]) (PyInt 42) (PyStr "CE")
                     (PyBool true) (PyInt 1) (PyBool false))))
  = [(PyStr "results", PyStr "alexnet", 1, PyInt 5)].
Proof. repeat split; reflexivity. Qed.

(** ** Seeding *)

Lemma seed_runs (W : Train.world) (z : Z) :
  z <> 0 ->
  prefix_of [Train.np_random_seed (PyInt z)] (snd (Train.seed W (PyInt z))) /\
  (Train.np_random_seed_exn W (PyInt z) = None ->
   Train.torch_manual_seed_exn W (PyInt z) = None ->
   Train.seed W (PyInt z)
   = (Ok tt,
      [Train.np_random_seed (PyInt z); Train.torch_manual_seed (PyInt z);
       Train.set_cudnn_deterministic true; Train.set_cudnn_benchmark false])).
Proof.
  intros Hz. unfold Train.seed. simpl.
  replace (z =? 0) with false by (symmetry; apply Z.eqb_neq; exact Hz). simpl.
  split.
  - apply (prefix_of_bind (Train.call _ _)).
  - intros -> ->. reflexivity.
Qed.

Lemma seed_stops (W : Train.world) (z : Z) :
  z <> 0 ->
  (forall e,
      Train.np_random_seed_exn W (PyInt z) = Some e ->
      Train.seed W (PyInt z) = (Raise e, [Train.np_random_seed (PyInt z)])) /\
  (forall e,
      Train.np_random_seed_exn W (PyInt z) = None ->
      Train.torch_manual_seed_exn W (PyInt z) = Some e ->
      Train.seed W (PyInt z)
      = (Raise e, [Train.np_random_seed (PyInt z); Train.torch_manual_seed (PyInt z)])).
Proof.
  intros Hz. unfold Train.seed. simpl.
  replace (z =? 0) with false by (symmetry; apply Z.eqb_neq; exact Hz). simpl.
  split.
  - intros e ->. reflexivity.
  - intros e -> ->. reflexivity.
Qed.

Lemma train_from_seed (W : Train.world) (a : Train.args) :
  Train.check_val_epoch (Train.use_val a) (Train.val_epoch a) = Ok tt ->
  Train.check_patience (Train.use_val a) (Train.val_epoch a) (Train.patience a) = Ok tt ->
  (exists l, Train.normalize_epochs_list (Train.epochs_list a) = Ok l) ->
  prefix_of (snd (Train.seed W (Train.random_seed a))) (snd (Train.train W a)) /\
  (forall e,
      fst (Train.seed W (Train.random_seed a)) = Raise e ->
      Train.train W a = (Raise e, snd (Train.seed W (Train.random_seed a)))).
Proof.
  intros Hval Hpat [l Hl]. unfold Train.train, Train.prepare.
  rewrite (bind_lift_ok _ _ tt Hval), (bind_lift_ok _ _ tt Hpat), (bind_lift_ok _ _ l Hl).
  split.
  - eapply prefix_of_trans; [ | apply prefix_of_bind ]. apply prefix_of_bind.
  - intros e He. rewrite (bind_raise _ _ e He). reflexivity.
Qed.

Lemma train_before_seed (W : Train.world) (a : Train.args) :
  raises (Train.check_val_epoch (Train.use_val a) (Train.val_epoch a)) \/
  raises (Train.check_patience (Train.use_val a) (Train.val_epoch a) (Train.patience a)) \/
  raises (Train.normalize_epochs_list (Train.epochs_list a)) ->
  snd (Train.train W a) = [].
Proof.
  unfold Train.train, Train.prepare.
  destruct (Train.check_val_epoch (Train.use_val a) (Train.val_epoch a)) as [ [] | e1 ];
    [ | intros _; reflexivity ].
  destruct (Train.check_patience (Train.use_val a) (Train.val_epoch a) (Train.patience a))
    as [ [] | e2 ]; [ | intros _; reflexivity ].
  destruct (Train.normalize_epochs_list (Train.epochs_list a)) as [ l | e3 ];
    [ | intros _; reflexivity ].
  intros [ [e H] | [ [e H] | [e H] ] ]; discriminate H.
Qed.

(** The claim C10 fails for a nonzero [random_seed] in two ways.  A
    [TrainConfig] is constructed with [random_seed = -1], and [train] called
    with that seed stops in the [ValueError] of [np.random.seed]:
    [torch.manual_seed] is not called and no cudnn flag is set.  And a call
    with [random_seed = 42] and [val_epoch = 0] raises before the seeding
    step, so that nothing is seeded. *)
Lemma seed_nonzero_not_seeded :
  (exists c,
      TrainConfig.new
        (TrainConfig.defaults (PyStr "alexnet") (PyInt 2) (PyList [PyInt 5])
           (PyInt 64) (PyInt (-1)) (PyStr "results"))
      = Ok c /\ TrainConfig.random_seed c = PyInt (-1)) /\
  Train.train numpy_world
    (train_call (PyStr "searchstims") (PyList [PyInt 5]) (PyInt (-1)) (PyStr "CE")
       (PyBool true) (PyInt 1) (PyBool false))
  = (Raise seed_range_error, [Train.np_random_seed (PyInt (-1))]) /\
  Train.train quiet_world
    (train_call (PyStr "searchstims") (PyList [PyInt 5]) (PyInt 42) (PyStr "CE")
       (PyBool true) (PyInt 0) (PyBool false))
  = (Raise Train.val_epoch_error, []).
Proof.
  split; [ eexists; split; reflexivity | ].
  split; reflexivity.
Qed.

(** C10, amended: the seeding step tests the truth value of [random_seed].
    With [random_seed = 0] a call of [train] seeds no generator and does not
    ask for deterministic kernels, whatever else happens.  With a nonzero
    int [random_seed] the step is reached only when the checks of
    [val_epoch], [patience] and [epochs_list] pass: when one of them raises,
    [train] has no effect at all.  When they pass, [np.random.seed] is the
    first call of [train]; if it raises, [train] ends in that exception
    with nothing else done; if it returns and [torch.manual_seed] raises,
    [train] ends in that exception after these two calls, without setting
    a cudnn flag; and if both return, the two seeding calls and the two
    cudnn flags are the first four effects of [train]. *)
Theorem seed_step_outcomes (W : Train.world) (a : Train.args) :
  (Train.random_seed a = PyInt 0 -> none_of is_seeding_event (snd (Train.train W a))) /\
  (raises (Train.check_val_epoch (Train.use_val a) (Train.val_epoch a)) \/
   raises (Train.check_patience (Train.use_val a) (Train.val_epoch a) (Train.patience a)) \/
   raises (Train.normalize_epochs_list (Train.epochs_list a)) ->
   snd (Train.train W a) = []) /\
  (forall z,
      Train.random_seed a = PyInt z ->
      z <> 0 ->
      Train.check_val_epoch (Train.use_val a) (Train.val_epoch a) = Ok tt ->
      Train.check_patience (Train.use_val a) (Train.val_epoch a) (Train.patience a) = Ok tt ->
      (exists l, Train.normalize_epochs_list (Train.epochs_list a) = Ok l) ->
      prefix_of [Train.np_random_seed (PyInt z)] (snd (Train.train W a)) /\
      (forall e,
          Train.np_random_seed_exn W (PyInt z) = Some e ->
          Train.train W a = (Raise e, [Train.np_random_seed (PyInt z)])) /\
      (forall e,
          Train.np_random_seed_exn W (PyInt z) = None ->
          Train.torch_manual_seed_exn W (PyInt z) = Some e ->
          Train.train W a
          = (Raise e, [Train.np_random_seed (PyInt z); Train.torch_manual_seed (PyInt z)])) /\
      (Train.np_random_seed_exn W (PyInt z) = None ->
       Train.torch_manual_seed_exn W (PyInt z) = None ->
       prefix_of
         [Train.np_random_seed (PyInt z); Train.torch_manual_seed (PyInt z);
          Train.set_cudnn_deterministic true; Train.set_cudnn_benchmark false]
         (snd (Train.train W a)))).
Proof.
  split; [ | split ].
  - intros Hseed. apply train_log.
    + apply prepare_no_seeding_event. rewrite Hseed. reflexivity.
    + exact loop_event_not_seeding.
  - exact (train_before_seed W a).
  - intros z Hseed Hz Hval Hpat Hl.
    destruct (train_from_seed W a Hval Hpat Hl) as [Hpre Hstop].
    rewrite Hseed in Hpre, Hstop.
    destruct (seed_runs W z Hz) as [Hfirst Hall].
    destruct (seed_stops W z Hz) as [Hnp Htorch].
    split; [ exact (prefix_of_trans _ _ _ Hfirst Hpre) | ].
    split; [ | split ].
    + intros e He. rewrite (Hstop e); rewrite (Hnp e He); reflexivity.
    + intros e He1 He2. rewrite (Hstop e); rewrite (Htorch e He1 He2); reflexivity.
    + intros He1 He2. rewrite (Hall He1 He2) in Hpre. exact Hpre.
Qed.

Lemma seed_step_outcomes_witness :
  snd (Train.train quiet_world
         (train_call (PyStr "searchstims") (PyList [PyInt 5]) (PyInt 42) (PyStr "CE")
            (PyBool true) (PyInt 0) (PyBool false)))
  = [] /\
  none_of is_seeding_event
    (snd (Train.train quiet_world
            (train_call (PyStr "searchstims") (PyList [PyInt 5]) (PyInt 0) (PyStr "CE")
               (PyBool true) (PyInt 1) (PyBool false)))) /\
  prefix_of
    [Train.np_random_seed (PyInt 42); Train.torch_manual_seed (PyInt 42);
     Train.set_cudnn_deterministic true; Train.set_cudnn_benchmark false]
    (snd (Train.train quiet_world
            (train_call (PyStr "searchstims") (PyList [PyInt 5]) (PyInt 42) (PyStr "CE")
               (PyBool true) (PyInt 1) (PyBool false)))) /\
  Train.train numpy_world
    (train_call (PyStr "searchstims") (PyList [PyInt 5]) (PyInt (-1)) (PyStr "CE")
       (PyBool true) (PyInt 1) (PyBool false))
  = (Raise seed_range_error, [Train.np_random_seed (PyInt (-1))]).
Proof.
  split; [ | split; [ | split ] ].
  - apply (proj1 (proj2 (seed_step_outcomes quiet_world _))).
    left. eexists. reflexivity.
  - apply (proj1 (seed_step_outcomes quiet_world _)). reflexivity.
  - destruct (proj2 (proj2 (seed_step_outcomes quiet_world
                              (train_call (PyStr "searchstims") (PyList [PyInt 5]) (PyInt 42)
                                 (PyStr "CE") (PyBool true) (PyInt 1) (PyBool false)))) 42)
      as [_ [_ [_ H]]];
      [ reflexivity | discriminate | reflexivity | reflexivity
      | eexists; reflexivity | ].
    apply H; reflexivity.
  - destruct (proj2 (proj2 (seed_step_outcomes numpy_world
                              (train_call (PyStr "searchstims") (PyList [PyInt 5])
                                 (PyInt (-1)) (PyStr "CE") (PyBool true) (PyInt 1)
                                 (PyBool false)))) (-1))
      as [_ [H _]];
      [ reflexivity | discriminate | reflexivity | reflexivity
      | eexists; reflexivity | ].
    apply H. reflexivity.
Defined.

Lemma fst_bind_ok {A B : Type} (m : Train.M A) (k : A -> Train.M B) (x : A) :
  fst m = Ok x -> fst (Train.bind m k) = fst (k x).
Proof. intros H. exact (proj1 (bind_ok m k x H)). Qed.

Lemma fst_bind_raise {A B : Type} (m : Train.M A) (k : A -> Train.M B) (e : exn) :
  fst m = Raise e -> fst (Train.bind m k) = Raise e.
Proof. intros H. rewrite (bind_raise m k e H). reflexivity. Qed.

(** ** The steps return in a world whose collaborators return *)

Lemma seed_returns (W : Train.world) (random_seed : pyval) :
  returns_always W -> fst (Train.seed W random_seed) = Ok tt.
Proof.
  intros [Hnp [Htorch _]]. unfold Train.seed.
  destruct (py_truthy random_seed); [ | reflexivity ].
  rewrite Hnp, Htorch. reflexivity.
Qed.

Lemma select_device_returns (W : Train.world) :
  exists device, fst (Train.select_device W) = Ok device.
Proof.
  unfold Train.select_device. destruct (Train.cuda_available W); eexists; reflexivity.
Qed.

Lemma select_datasets_returns (W : Train.world) (a : Train.args) (t1 t2 : Train.handle) :
  returns_always W ->
  py_eq_str (Train.dataset_type a) "VSD" = true \/
  py_eq_str (Train.dataset_type a) "searchstims" = true ->
  exists trainset valset,
    fst (Train.select_datasets W a t1 t2) = Ok (Some trainset, Some valset).
Proof.
  intros [_ [_ [_ [Hds _]]]] Hknown. unfold Train.select_datasets.
  destruct (py_eq_str (Train.dataset_type a) "VSD").
  - destruct (py_truthy (Train.use_val a)); repeat rewrite Hds; do 2 eexists; reflexivity.
  - destruct Hknown as [H | ->]; [ discriminate H | ].
    destruct (py_truthy (Train.use_val a)); repeat rewrite Hds; do 2 eexists; reflexivity.
Qed.

(** ** Accuracy by set size needs searchstims *)

Lemma prepare_fails_on_VSD_set_size (W : Train.world) (a : Train.args) :
  py_truthy (Train.save_acc_by_set_size_by_epoch a) = true ->
  py_eq_str (Train.dataset_type a) "VSD" = true ->
  fails (Train.prepare W a).
Proof.
  intros Hacc Hvsd. unfold Train.prepare.
  do 7 (apply fails_bind; intros ? _).
  apply fails_first. unfold Train.select_trainset_set_size. rewrite Hacc, Hvsd.
  exists Train.set_size_error. reflexivity.
Qed.

Lemma train_fails_in_prepare (W : Train.world) (a : Train.args) :
  fails (Train.prepare W a) ->
  fails (Train.train W a) /\ none_of is_loop_event (snd (Train.train W a)).
Proof.
  intros [e He]. rewrite (train_stops_in_prepare W a e He). split.
  - exists e. reflexivity.
  - apply prepare_no_loop_event.
Qed.

(** C8: a call of [train] with [save_acc_by_set_size_by_epoch] true and
    [dataset_type = "VSD"] ends in an exception before the loops: the log
    holds no progress message, no save path computation, no trainer
    construction and no trainer run.  When the argument checks before it
    pass and the collaborators return, the exception is the [ValueError]
    of the set size step. *)
Theorem train_VSD_set_size_fails (W : Train.world) (a : Train.args) :
  py_truthy (Train.save_acc_by_set_size_by_epoch a) = true ->
  py_eq_str (Train.dataset_type a) "VSD" = true ->
  fails (Train.train W a) /\
  none_of is_loop_event (snd (Train.train W a)) /\
  (returns_always W ->
   Train.check_val_epoch (Train.use_val a) (Train.val_epoch a) = Ok tt ->
   Train.check_patience (Train.use_val a) (Train.val_epoch a) (Train.patience a) = Ok tt ->
   (exists l, Train.normalize_epochs_list (Train.epochs_list a) = Ok l) ->
   fst (Train.train W a) = Raise Train.set_size_error).
Proof.
  intros Hacc Hvsd.
  destruct (train_fails_in_prepare W a (prepare_fails_on_VSD_set_size W a Hacc Hvsd))
    as [Hfails Hlog].
  split; [ exact Hfails | split; [ exact Hlog | ] ].
  intros HW Hval Hpat [l Hl].
  assert (Hprep : fst (Train.prepare W a) = Raise Train.set_size_error).
  { unfold Train.prepare.
    rewrite (bind_lift_ok _ _ tt Hval), (bind_lift_ok _ _ tt Hpat), (bind_lift_ok _ _ l Hl).
    rewrite (fst_bind_ok _ _ tt (seed_returns W _ HW)).
    destruct (select_device_returns W) as [device Hdev].
    rewrite (fst_bind_ok _ _ device Hdev).
    destruct HW as [Hnp [Htorch [Htr HW']]].
    destruct (Htr (Train.dataset_type a) (Train.loss_func a) (Train.pad_size a)) as [t Ht].
    rewrite (fst_bind_ok _ _ t); [ | simpl; exact Ht ].
    destruct (select_datasets_returns W a (fst t) (snd t)) as [trainset [valset Hsets]];
      [ repeat split; tauto | left; exact Hvsd | ].
    rewrite (fst_bind_ok _ _ _ Hsets).
    apply fst_bind_raise. unfold Train.select_trainset_set_size.
    rewrite Hacc, Hvsd. reflexivity. }
  rewrite (train_stops_in_prepare W a _ Hprep). reflexivity.
Qed.

Lemma train_VSD_set_size_fails_witness :
  fails (Train.train quiet_world
           (train_call (PyStr "VSD") (PyList [PyInt 5]) (PyInt 42) (PyStr "BCE")
              (PyBool true) (PyInt 1) (PyBool true))) /\
  fst (Train.train quiet_world
         (train_call (PyStr "VSD") (PyList [PyInt 5]) (PyInt 42) (PyStr "BCE")
            (PyBool true) (PyInt 1) (PyBool true)))
  = Raise Train.set_size_error.
Proof.
  pose proof (train_VSD_set_size_fails quiet_world
                (train_call (PyStr "VSD") (PyList [PyInt 5]) (PyInt 42) (PyStr "BCE")
                   (PyBool true) (PyInt 1) (PyBool true)) eq_refl eq_refl) as [Hf [_ He]].
  split; [ exact Hf | ].
  apply He; try reflexivity.
  - unfold returns_always, quiet_world. simpl. repeat split; eauto.
  - eexists. reflexivity.
Defined.

(** ** Loss selection *)





(** ** The grid of jobs *)

Lemma jobs_of_app (l1 l2 : list Train.event) :
  jobs_of (l1 ++ l2) = jobs_of l1 ++ jobs_of l2.
Proof.
  induction l1 as [ | ev l1 IH ]; simpl; [ reflexivity | ].
  destruct ev; simpl; rewrite IH; reflexivity.
Qed.

Lemma jobs_of_none (log : list Train.event) :
  Forall (fun ev => jobs_of [ev] = []) log -> jobs_of log = [].
Proof.
  induction 1 as [ | ev log Hev _ IH ]; [ reflexivity | ].
  change (ev :: log) with ([ev] ++ log). rewrite jobs_of_app, Hev, IH. reflexivity.
Qed.

Lemma prepare_no_jobs (W : Train.world) (a : Train.args) :
  jobs_of (snd (Train.prepare W a)) = [].
Proof.
  apply jobs_of_none. eapply Forall_impl; [ | apply prepare_no_loop_event ].
  intros ev Hev. destruct ev; try discriminate Hev; reflexivity.
Qed.







(** [range(1, number_nets_to_train + 1)], when it can be computed, is
    [replicates]. *)
Lemma replicates_spec (a : Train.args) (stop : pyval) (net_numbers : list Z) :
  py_add (Train.number_nets_to_train a) (PyInt 1) = Ok stop ->
  Train.py_range 1 stop = Ok net_numbers ->
  net_numbers = replicates a.
Proof.
  unfold replicates.
  destruct (Train.number_nets_to_train a) as [ | b | z | f | s | l ]; simpl;
    try discriminate.
  - intros H. injection H as <-. unfold Train.py_range. simpl.
    intros H. injection H as <-. do 3 f_equal. lia.
  - intros H. injection H as <-. unfold Train.py_range. simpl.
    intros H. injection H as <-. do 3 f_equal. lia.
  - intros H. injection H as <-. discriminate.
Qed.

Ltac step_lift :=
  match goal with
  | |- context [Train.bind (Train.lift (Raise ?e)) ?k] =>
      rewrite (bind_raise (Train.lift (Raise e)) k e eq_refl)
  | |- context [Train.bind (Train.lift (Ok ?x)) ?k] =>
      rewrite (bind_lift_ok (Ok x) k x eq_refl); cbv beta
  end.

Ltac step_print :=
  match goal with
  | |- context [Train.bind (Train.call ?ev None) ?k] =>
      let Hfst := fresh "Hfst" in
      let Hsnd := fresh "Hsnd" in
      destruct (bind_ok (Train.call ev None) k tt eq_refl) as [Hfst Hsnd];
      try rewrite Hfst; try rewrite Hsnd; clear Hfst Hsnd; cbv beta
  end.


(** ** The trainers that are run *)

Lemma trained_of_app (l1 l2 : list Train.event) :
  trained_of (l1 ++ l2) = trained_of l1 ++ trained_of l2.
Proof.
  induction l1 as [ | ev l1 IH ]; simpl; [ reflexivity | ].
  destruct ev; simpl; rewrite IH; reflexivity.
Qed.



Lemma trained_of_print (ev : Train.event) (o : option exn) :
  is_job_event ev = false -> trained_of (snd (Train.call ev o)) = [].
Proof. destruct ev; simpl; intros H; try discriminate H; reflexivity. Qed.


(** What [prepare] returns as the list of budgets is the normalized
    [epochs_list]. *)
Lemma prepare_ok_epochs (W : Train.world) (a : Train.args)
  (prepared : list pyval * Train.locals) :
  fst (Train.prepare W a) = Ok prepared ->
  Train.normalize_epochs_list (Train.epochs_list a) = Ok (fst prepared).
Proof.
  unfold Train.prepare. intros H.
  apply bind_ok_inv in H. destruct H as [? [_ [H _]]].
  apply bind_ok_inv in H. destruct H as [? [_ [H _]]].
  apply bind_ok_inv in H. destruct H as [l [Hl [H _]]].
  do 6 (apply bind_ok_inv in H; destruct H as [? [_ [H _]]]).
  simpl in H, Hl. injection H as <-. exact Hl.
Qed.

Lemma trained_of_none (log : list Train.event) :
  none_of is_loop_event log -> trained_of log = [].
Proof.
  induction 1 as [ | ev log Hev _ IH ]; [ reflexivity | ].
  destruct ev; try discriminate Hev; exact IH.
Qed.




(** ** A well-formed call returns *)












(** The end-to-end scenario: two replicates, budgets of 5 and 10 epochs. *)
Example train_two_by_two :
  jobs_of (snd (Train.train quiet_world
                  (train_call (PyStr "searchstims") (PyList [PyInt 5; PyInt 10]) (PyInt 42)
                     (PyStr "CE") (PyBool true) (PyInt 1) (PyBool false))))
  = [ (PyStr "results", PyStr "alexnet", 1, PyInt 5);
      (PyStr "results", PyStr "alexnet", 2, PyInt 5);
      (PyStr "results", PyStr "alexnet", 1, PyInt 10);
      (PyStr "results", PyStr "alexnet", 2, PyInt 10) ] /\
  map (fun tr => Train.kw_save_path (kwargs_of tr))
    (trained_of (snd (Train.train quiet_world
                        (train_call (PyStr "searchstims") (PyList [PyInt 5; PyInt 10])
                           (PyInt 42) (PyStr "CE") (PyBool true) (PyInt 1) (PyBool false)))))
  = [ PyList [PyStr "results"; PyStr "alexnet"; PyInt 1; PyInt 5];
      PyList [PyStr "results"; PyStr "alexnet"; PyInt 2; PyInt 5];
      PyList [PyStr "results"; PyStr "alexnet"; PyInt 1; PyInt 10];
      PyList [PyStr "results"; PyStr "alexnet"; PyInt 2; PyInt 10] ].
Proof. split; reflexivity. Qed.

(** * More on the configuration classes *)

(** ** What each validator accepts *)

Lemma decides_iff (v : validator) (p : pyval -> bool) (name : string) (x : pyval) :
  decides v p -> (v name x = Ok tt <-> p x = true).
Proof.
  intros Hd. specialize (Hd name x). destruct (p x).
  - split; [ reflexivity | intros _; exact Hd ].
  - destruct Hd as [e He]. rewrite He. split; discriminate.
Qed.

(** X1: [is_list_of_pos_int] passes exactly the lists, empty or not, whose
    items are all of type [int] and at least 1; whatever else it is given,
    a value that is no list included, it reports with [ValueError]. *)
Theorem is_list_of_pos_int_accepts (name : string) (value : pyval) :
  if list_of (int_at_least 1) value
  then is_list_of_pos_int name value = Ok tt
  else raises_class ValueError (is_list_of_pos_int name value).
Proof.
  unfold is_list_of_pos_int, raises_class.
  destruct value as [ | b | z | f | s | l ]; simpl; eauto.
  induction l as [ | item rest IH ]; simpl; [ reflexivity | ].
  destruct item as [ | b | z | f | s | l ]; simpl; eauto.
  destruct (Z.leb_spec 1 z) as [Hz | Hz].
  - replace (z <? 1) with false by (symmetry; apply Z.ltb_ge; lia). exact IH.
  - replace (z <? 1) with true by (symmetry; apply Z.ltb_lt; lia). simpl. eauto.
Qed.

(** X2: [is_list_of_str] passes exactly the lists, empty or not, whose items
    are all of type [str], and reports everything else with [ValueError]. *)
Theorem is_list_of_str_accepts (name : string) (value : pyval) :
  if list_of is_str value
  then is_list_of_str name value = Ok tt
  else raises_class ValueError (is_list_of_str name value).
Proof.
  unfold is_list_of_str, raises_class.
  destruct value as [ | b | z | f | s | l ]; simpl; eauto.
  induction l as [ | item rest IH ]; simpl; [ reflexivity | ].
  destruct item as [ | b | z | f | s | l ]; simpl; eauto.
Qed.

(** X3: [is_pos_int] passes exactly the values of type [int] that are at
    least 1, [is_non_neg_int] those that are at least 0; a [bool], a
    [float] or any other value is reported with [ValueError]. *)
Theorem is_pos_int_and_non_neg_int_accept (name : string) (value : pyval) :
  (if int_at_least 1 value then is_pos_int name value = Ok tt
   else raises_class ValueError (is_pos_int name value)) /\
  (if int_at_least 0 value then is_non_neg_int name value = Ok tt
   else raises_class ValueError (is_non_neg_int name value)).
Proof.
  unfold is_pos_int, is_non_neg_int, raises_class.
  destruct value as [ | b | z | f | s | l ]; simpl; eauto.
  split.
  - destruct (Z.leb_spec 1 z) as [Hz | Hz].
    + replace (z <? 1) with false by (symmetry; apply Z.ltb_ge; lia). reflexivity.
    + replace (z <? 1) with true by (symmetry; apply Z.ltb_lt; lia). simpl. eauto.
  - destruct (Z.leb_spec 0 z) as [Hz | Hz].
    + replace (z <? 0) with false by (symmetry; apply Z.ltb_ge; lia). reflexivity.
    + replace (z <? 0) with true by (symmetry; apply Z.ltb_lt; lia). simpl. eauto.
Qed.

Create HintDb decides.

Lemma decides_ok (v : validator) (p : pyval -> bool) (name : string) (x : pyval) :
  decides v p -> v name x = Ok tt -> p x = true.
Proof. intros Hd H. exact (proj1 (decides_iff v p name x Hd) H). Qed.

Lemma decides_ok_inv (v : validator) (p : pyval -> bool) (name : string) (x : pyval) :
  decides v p -> p x = true -> v name x = Ok tt.
Proof. intros Hd H. exact (proj2 (decides_iff v p name x Hd) H). Qed.

Lemma instance_of_str_decides : decides (instance_of [str_t]) is_str.
Proof. intros name x. unfold instance_of, raises. destruct x; simpl; eauto. Qed.

Lemma instance_of_int_decides : decides (instance_of [int_t]) is_count.
Proof. intros name x. unfold instance_of, raises. destruct x; simpl; eauto. Qed.

Lemma instance_of_float_decides : decides (instance_of [float_t]) is_proportion.
Proof. intros name x. unfold instance_of, raises. destruct x; simpl; eauto. Qed.

Lemma instance_of_bool_decides : decides (instance_of [bool_t]) is_bool.
Proof. intros name x. unfold instance_of, raises. destruct x; simpl; eauto. Qed.

Lemma optional_decides (v : validator) (p : pyval -> bool) :
  decides v p -> decides (optional v) (none_or p).
Proof.
  intros Hd name x. unfold optional, none_or.
  destruct (is_None x); [ reflexivity | exact (Hd name x) ].
Qed.

Lemma size_validator_decides : decides DataConfig.size_validator size_ok.
Proof.
  intros name x. unfold DataConfig.size_validator, and_, instance_of, is_valid_proportion, raises.
  destruct x as [ | b | z | f | s | l ]; simpl; eauto.
  destruct (PrimFloat.ltb f 0 || PrimFloat.ltb 1 f)%bool; simpl; eauto.
Qed.

Lemma one_of_decides (set : list string) :
  decides (and_ [instance_of [str_t]; check_one_of set]) (one_of set).
Proof.
  intros name x. unfold one_of, and_, instance_of, check_one_of, raises.
  destruct x as [ | b | z | f | s | l ]; simpl; eauto.
  destruct (existsb (py_eq_str (PyStr s)) set); simpl; eauto.
Qed.

Lemma forallb_pointwise {A : Type} (f g : A -> bool) (l : list A) :
  (forall x, f x = g x) -> forallb f l = forallb g l.
Proof.
  intros H. induction l as [ | x rest IH ]; simpl; [ reflexivity | ].
  rewrite H, IH. reflexivity.
Qed.

Lemma check_items_of_type_decides (t : pytype) (name : string) (l : list pyval) :
  if forallb (fun x => pytype_eqb (py_type x) t) l
  then check_items_of_type t name l = Ok tt
  else raises (check_items_of_type t name l).
Proof.
  unfold raises. induction l as [ | x rest IH ]; simpl; [ reflexivity | ].
  destruct (pytype_eqb (py_type x) t); simpl; eauto.
Qed.

Lemma list_of_int_decides :
  decides (and_ [instance_of [list_t]; check_all_of_type int_t]) (list_of is_int).
Proof.
  intros name x. unfold and_, instance_of, check_all_of_type, raises.
  destruct x as [ | b | z | f | s | l ]; simpl; eauto.
  pose proof (check_items_of_type_decides int_t name l) as H.
  replace (forallb is_int l) with (forallb (fun x => pytype_eqb (py_type x) int_t) l)
    by (apply forallb_pointwise; intros [ | | | | | ]; reflexivity).
  destruct (forallb (fun x => pytype_eqb (py_type x) int_t) l).
  - rewrite H. reflexivity.
  - destruct H as [e ->]. simpl. eauto.
Qed.

Lemma list_of_str_decides :
  decides (and_ [instance_of [list_t]; check_all_of_type str_t]) (list_of is_str).
Proof.
  intros name x. unfold and_, instance_of, check_all_of_type, raises.
  destruct x as [ | b | z | f | s | l ]; simpl; eauto.
  pose proof (check_items_of_type_decides str_t name l) as H.
  replace (forallb is_str l) with (forallb (fun x => pytype_eqb (py_type x) str_t) l)
    by (apply forallb_pointwise; intros [ | | | | | ]; reflexivity).
  destruct (forallb (fun x => pytype_eqb (py_type x) str_t) l).
  - rewrite H. reflexivity.
  - destruct H as [e ->]. simpl. eauto.
Qed.

Lemma set_sizes_decides :
  decides (and_ [optional (instance_of [list_t]); DataConfig.check_set_sizes])
    (none_or (list_of is_int)).
Proof.
  intros name x.
  pose proof (list_of_int_decides name x) as H.
  unfold none_or, and_, optional, DataConfig.check_set_sizes in *.
  destruct x as [ | b | z | f | s | l ]; simpl in *; eauto.
Qed.

Lemma is_list_of_pos_int_decides : decides is_list_of_pos_int (list_of (int_at_least 1)).
Proof.
  intros name x. unfold is_list_of_pos_int, raises.
  destruct x as [ | b | z | f | s | l ]; simpl; eauto.
  induction l as [ | item rest IH ]; simpl; [ reflexivity | ].
  destruct item as [ | b | z | f | s | l ]; simpl; eauto.
  destruct (Z.leb_spec 1 z) as [Hz | Hz].
  - replace (z <? 1) with false by (symmetry; apply Z.ltb_ge; lia). exact IH.
  - replace (z <? 1) with true by (symmetry; apply Z.ltb_lt; lia). simpl. eauto.
Qed.

Lemma is_list_of_str_decides : decides is_list_of_str (list_of is_str).
Proof.
  intros name x. unfold is_list_of_str, raises.
  destruct x as [ | b | z | f | s | l ]; simpl; eauto.
  induction l as [ | item rest IH ]; simpl; [ reflexivity | ].
  destruct item as [ | b | z | f | s | l ]; simpl; eauto.
Qed.

Lemma is_pos_int_decides : decides is_pos_int (int_at_least 1).
Proof.
  intros name x. pose proof (optional_is_pos_int_spec name x) as H.
  unfold optional in H. destruct x as [ | b | z | f | s | l ]; simpl in *; try exact H.
  unfold is_pos_int, raises. simpl. eauto.
Qed.

Lemma is_non_neg_int_decides : decides is_non_neg_int (int_at_least 0).
Proof.
  intros name x. unfold is_non_neg_int, raises.
  destruct x as [ | b | z | f | s | l ]; simpl; eauto.
  destruct (Z.leb_spec 0 z) as [Hz | Hz].
  - replace (z <? 0) with false by (symmetry; apply Z.ltb_ge; lia). reflexivity.
  - replace (z <? 0) with true by (symmetry; apply Z.ltb_lt; lia). simpl. eauto.
Qed.

#[export] Hint Resolve instance_of_str_decides instance_of_int_decides
  instance_of_float_decides instance_of_bool_decides optional_decides
  size_validator_decides one_of_decides list_of_int_decides list_of_str_decides
  set_sizes_decides is_list_of_pos_int_decides is_list_of_str_decides
  is_pos_int_decides is_non_neg_int_decides : decides.

Ltac unfold_checks :=
  unfold DataConfig.check_dataset_type, TrainConfig.check_net_name,
    TrainConfig.check_epochs_list, TrainConfig.check_method,
    TrainConfig.check_new_learn_rate_layers, TrainConfig.check_loss_func,
    TrainConfig.check_optimizer, LearnCurveConfig.check_train_size_list in *.

(** From "every attribute validates" to the conjunction of the predicates. *)
Ltac fields_ok_of H :=
  repeat (apply Forall_cons_iff in H;
          let Hv := fresh "Hv" in
          destruct H as [Hv H];
          unfold validate in Hv; cbv beta iota in Hv;
          eapply decides_ok in Hv; [ | solve [ eauto with decides ] ];
          rewrite Hv; clear Hv).

(** And back. *)
Ltac fields_ok_to :=
  repeat match goal with
         | H : (_ && _)%bool = true |- _ =>
             apply andb_true_iff in H; let H' := fresh "Hf" in destruct H as [H H']
         end;
  repeat (apply Forall_cons;
          [ unfold validate; cbv beta iota;
            eapply decides_ok_inv; [ solve [ eauto with decides ] | assumption ] | ]);
  apply Forall_nil.

(** One conjunct of an acceptance predicate. *)
Ltac field_of H :=
  let H' := fresh in
  pose proof H as H';
  unfold TrainConfig_accepts, DataConfig_fields_ok in H';
  repeat (apply andb_true_iff in H'; destruct H' as [H' ?]);
  assumption.

Lemma DataConfig_fields_iff (self : DataConfig.t) :
  run_validators (DataConfig.attributes self) = Ok tt <-> DataConfig_fields_ok self = true.
Proof.
  rewrite run_validators_ok. unfold DataConfig.attributes, DataConfig_fields_ok.
  unfold_checks. split; intros H.
  - fields_ok_of H. reflexivity.
  - fields_ok_to.
Qed.

Lemma proportions_ok_check (self : DataConfig.t) :
  Forall (fun v => admissible_size v = true) (DataConfig.split_sizes self) ->
  (DataConfig.check_proportions self = Ok tt <->
   proportions_ok (DataConfig.split_sizes self) = true).
Proof.
  intros Hadm. rewrite (check_proportions_spec self Hadm). unfold proportions_ok.
  destruct (existsb is_proportion (DataConfig.split_sizes self)),
    (existsb is_count (DataConfig.split_sizes self)),
    (PrimFloat.ltb 1 (proportion_total (DataConfig.split_sizes self)));
    cbn [negb orb andb]; split; try discriminate; reflexivity.
Qed.

Lemma DataConfig_accepts_iff (self : DataConfig.t) :
  (exists c, DataConfig.new self = Ok c) <-> DataConfig_accepts self = true.
Proof.
  unfold DataConfig_accepts. rewrite andb_true_iff, <- DataConfig_fields_iff. split.
  - intros [c Hc]. destruct (DataConfig_new_ok self c Hc) as [Hval [Hprop _]].
    split; [ exact Hval | ].
    apply proportions_ok_check; [ | exact Hprop ].
    exact (proj1 (DataConfig_validated_sizes self Hval)).
  - intros [Hval Hprop].
    destruct (DataConfig_validated_sizes self Hval) as [Hadm [s Hcsv]].
    apply (proportions_ok_check self Hadm) in Hprop.
    unfold DataConfig.new, DataConfig.attrs_post_init. rewrite Hval, Hprop, Hcsv. simpl.
    destruct (is_None (DataConfig.csv_file_out self)); simpl; eauto.
Qed.

(** X4: what [DataConfig] accepts: construction succeeds exactly when every
    attribute passes its own validator ([csv_file_in] a str; [train_size]
    an int or a double in range, [val_size] and [test_size] that or [None];
    [root] and [csv_file_out] a str or [None]; [dataset_type] "searchstims"
    or "VSD"; [stim_types] a list of str or [None]; [set_sizes] a list of
    ints of any sign or [None]; the three per-set-size lists each [None] or
    a list, possibly empty, of ints that are at least 1) and the proportion
    rule holds; it fails with a validation error otherwise. *)
Theorem DataConfig_acceptance (self : DataConfig.t) :
  if DataConfig_accepts self
  then exists c, DataConfig.new self = Ok c
  else fails_validation (DataConfig.new self).
Proof.
  pose proof (DataConfig_accepts_iff self) as Hiff.
  destruct (DataConfig_accepts self).
  - apply Hiff. reflexivity.
  - apply not_ok_fails. intros c Hc.
    assert (H : false = true) by (apply Hiff; exists c; exact Hc). discriminate H.
Qed.

Lemma set_csv_file_out_same (self : DataConfig.t) :
  DataConfig.set_csv_file_out self (DataConfig.csv_file_out self) = self.
Proof. destruct self. reflexivity. Qed.

(** X5: the one default computed at construction: a constructed [DataConfig]
    is its arguments with [csv_file_out] set to [csv_file_in + "_split.csv"]
    when it was not given, and is its arguments unchanged when it was; in
    both cases its [csv_file_out] is a str. *)
Theorem DataConfig_csv_file_out_default (self c : DataConfig.t) :
  DataConfig.new self = Ok c ->
  exists s,
    DataConfig.csv_file_in self = PyStr s /\
    (DataConfig.csv_file_out self = PyNone ->
     c = DataConfig.set_csv_file_out self (PyStr (String.append s "_split.csv"))) /\
    (DataConfig.csv_file_out self <> PyNone -> c = self) /\
    is_str (DataConfig.csv_file_out c) = true.
Proof.
  intros Hc. destruct (DataConfig_new_ok self c Hc) as [Hval [Hprop _]].
  destruct (DataConfig_validated_sizes self Hval) as [_ [s Hcsv]].
  pose proof (proj1 (DataConfig_fields_iff self) Hval) as Hfields.
  exists s. split; [ exact Hcsv | ].
  unfold DataConfig.new, DataConfig.attrs_post_init in Hc.
  rewrite Hval, Hprop, Hcsv in Hc. simpl in Hc.
  unfold DataConfig_fields_ok in Hfields.
  repeat (apply andb_true_iff in Hfields; destruct Hfields as [Hfields ?]).
  destruct (DataConfig.csv_file_out self) as [ | b | z | f | s' | l ] eqn:Hout;
    simpl in Hc; injection Hc as <-; try discriminate.
  - split; [ intros _; reflexivity | ]. split; [ intros H'; congruence | reflexivity ].
  - split; [ discriminate | ]. split; [ intros _; reflexivity | ].
    rewrite Hout. reflexivity.
Qed.

Lemma DataConfig_csv_file_out_default_witness :
  exists s,
    PyStr "stims.csv" = PyStr s /\
    DataConfig.csv_file_out
      (DataConfig.set_csv_file_out (DataConfig.defaults (PyStr "stims.csv") (PyInt 6400))
         (PyStr (String.append s "_split.csv")))
    = PyStr "stims.csv_split.csv".
Proof.
  destruct (DataConfig_csv_file_out_default
              (DataConfig.defaults (PyStr "stims.csv") (PyInt 6400))
              (DataConfig.set_csv_file_out (DataConfig.defaults (PyStr "stims.csv") (PyInt 6400))
                 (PyStr "stims.csv_split.csv"))
              eq_refl) as [s [Hs _]].
  exists s. split; [ exact Hs | ]. simpl in Hs. injection Hs as <-. reflexivity.
Defined.

Lemma fields_ok_set_csv_file_out (self : DataConfig.t) (out : pyval) :
  DataConfig_fields_ok self = true -> is_str out = true ->
  DataConfig_fields_ok (DataConfig.set_csv_file_out self out) = true.
Proof.
  destruct self. unfold DataConfig_fields_ok, DataConfig.set_csv_file_out.
  cbn [DataConfig.csv_file_in DataConfig.train_size DataConfig.root DataConfig.dataset_type
       DataConfig.csv_file_out DataConfig.stim_types DataConfig.val_size DataConfig.test_size
       DataConfig.set_sizes DataConfig.train_size_per_set_size
       DataConfig.val_size_per_set_size DataConfig.test_size_per_set_size].
  intros H Hout.
  assert (Hnew : none_or is_str out = true)
    by (unfold none_or; rewrite Hout; apply orb_true_r).
  repeat (apply andb_true_iff in H; destruct H as [H ?]).
  rewrite Hnew.
  repeat match goal with Hf : _ = true |- _ => rewrite Hf; clear Hf end.
  reflexivity.
Qed.

(** X6: constructing a [DataConfig] again from a constructed one changes
    nothing: a constructed object passes every check of its class. *)
Theorem DataConfig_new_idempotent (self c : DataConfig.t) :
  DataConfig.new self = Ok c -> DataConfig.new c = Ok c.
Proof.
  intros Hc.
  destruct (DataConfig_new_ok self c Hc) as [Hval [Hprop Hsizes]].
  destruct (DataConfig_validated_sizes self Hval) as [_ [s Hcsv]].
  assert (Hform : c = DataConfig.set_csv_file_out self (DataConfig.csv_file_out c) /\
                  is_str (DataConfig.csv_file_out c) = true).
  { pose proof (proj1 (DataConfig_fields_iff self) Hval) as Hfields.
    assert (Hout : none_or is_str (DataConfig.csv_file_out self) = true)
      by field_of Hfields.
    unfold DataConfig.new, DataConfig.attrs_post_init in Hc.
    rewrite Hval, Hprop, Hcsv in Hc. simpl in Hc.
    destruct (DataConfig.csv_file_out self) eqn:Hself; try discriminate Hout;
      simpl in Hc; injection Hc as <-.
    - split; reflexivity.
    - rewrite Hself. split; [ | reflexivity ].
      rewrite <- Hself. symmetry. apply set_csv_file_out_same. }
  destruct Hform as [Hform Hstr].
  assert (Hval' : run_validators (DataConfig.attributes c) = Ok tt).
  { apply DataConfig_fields_iff. apply DataConfig_fields_iff in Hval.
    rewrite Hform. exact (fields_ok_set_csv_file_out self _ Hval Hstr). }
  assert (Hprop' : DataConfig.check_proportions c = Ok tt).
  { unfold DataConfig.check_proportions in *. rewrite Hsizes. exact Hprop. }
  unfold DataConfig.new, DataConfig.attrs_post_init. rewrite Hval', Hprop'. simpl.
  destruct (DataConfig.csv_file_out c); try discriminate Hstr; reflexivity.
Qed.

Lemma DataConfig_new_idempotent_witness :
  DataConfig.new
    (DataConfig.set_csv_file_out (DataConfig.defaults (PyStr "stims.csv") (PyFloat 0.8))
       (PyStr "stims.csv_split.csv"))
  = Ok (DataConfig.set_csv_file_out (DataConfig.defaults (PyStr "stims.csv") (PyFloat 0.8))
          (PyStr "stims.csv_split.csv")).
Proof.
  exact (DataConfig_new_idempotent (DataConfig.defaults (PyStr "stims.csv") (PyFloat 0.8)) _
           eq_refl).
Defined.

(** X7: which error the proportion rule gives, once every attribute has
    passed its own validator: mixing a proportion with a count is a
    [TypeError], a total above 1 is a [ValueError]. *)
Theorem DataConfig_proportion_errors (self : DataConfig.t) :
  DataConfig_fields_ok self = true ->
  (mixes_proportion_and_count (DataConfig.split_sizes self) = true ->
   DataConfig.new self = Raise DataConfig.mixed_sizes_error) /\
  (proportions_exceed_one (DataConfig.split_sizes self) = true ->
   DataConfig.new self = Raise DataConfig.total_error).
Proof.
  intros Hfields. apply DataConfig_fields_iff in Hfields.
  destruct (DataConfig_validated_sizes self Hfields) as [Hadm _].
  unfold DataConfig.new, DataConfig.attrs_post_init.
  rewrite Hfields, (check_proportions_spec self Hadm).
  unfold mixes_proportion_and_count, proportions_exceed_one. split.
  - intros H. apply andb_true_iff in H. destruct H as [-> ->]. reflexivity.
  - intros H. apply andb_true_iff in H. destruct H as [H ->].
    apply andb_true_iff in H. destruct H as [Hany Hall]. rewrite Hany.
    destruct (existsb is_count (DataConfig.split_sizes self)) eqn:Hcount; [ | reflexivity ].
    exfalso. apply existsb_exists in Hcount. destruct Hcount as [v [Hin Hv]].
    rewrite forallb_forall in Hall.
    assert (Hp : is_proportion v = true).
    { apply Hall. unfold provided. apply filter_In. split; [ exact Hin | ].
      destruct v; try discriminate Hv; reflexivity. }
    destruct v; discriminate.
Qed.

Lemma DataConfig_proportion_errors_witness :
  DataConfig.new (DataConfig_with_sizes (PyStr "stims.csv") (PyFloat 0.5) (PyInt 100) PyNone)
  = Raise DataConfig.mixed_sizes_error /\
  DataConfig.new
    (DataConfig_with_sizes (PyStr "stims.csv") (PyFloat 0.6) (PyFloat 0.3) (PyFloat 0.2))
  = Raise DataConfig.total_error.
Proof.
  split.
  - exact (proj1 (DataConfig_proportion_errors
                    (DataConfig_with_sizes (PyStr "stims.csv") (PyFloat 0.5) (PyInt 100) PyNone)
                    eq_refl) eq_refl).
  - exact (proj2 (DataConfig_proportion_errors
                    (DataConfig_with_sizes (PyStr "stims.csv") (PyFloat 0.6) (PyFloat 0.3)
                       (PyFloat 0.2)) eq_refl) eq_refl).
Defined.

Lemma TrainConfig_fields_iff (self : TrainConfig.t) :
  run_validators (TrainConfig.attributes self) = Ok tt <-> TrainConfig_accepts self = true.
Proof.
  rewrite run_validators_ok. unfold TrainConfig.attributes, TrainConfig_accepts.
  unfold_checks. split; intros H.
  - fields_ok_of H. reflexivity.
  - fields_ok_to.
Qed.

(** X8: what [TrainConfig] accepts: construction succeeds, and returns its
    arguments, exactly when every attribute passes its own validator: the
    four names are from their closed sets, the three rates are floats, the
    three flags are bools, the counts are ints of any sign, [epochs_list]
    is a list of ints and [new_learn_rate_layers] a list of str (either may
    be empty), the four cadences are [None] or an int that is at least 1,
    [num_workers] is [None] or an int that is at least 0.  Otherwise it
    fails with a validation error. *)
Theorem TrainConfig_acceptance (self : TrainConfig.t) :
  if TrainConfig_accepts self
  then TrainConfig.new self = Ok self
  else fails_validation (TrainConfig.new self).
Proof.
  pose proof (TrainConfig_fields_iff self) as Hiff.
  destruct (TrainConfig_accepts self).
  - apply TrainConfig_new_ok_iff. apply run_validators_ok. apply Hiff. reflexivity.
  - unfold TrainConfig.new, fails_validation.
    destruct (run_validators (TrainConfig.attributes self)) as [[] | e] eqn:Hval.
    + assert (H : false = true) by (apply Hiff; reflexivity). discriminate H.
    + exists e. split; [ reflexivity | ].
      exact (run_validators_errors _ _ (TrainConfig_attributes_errors self) Hval).
Qed.

(** X9: [LearnCurveConfig] accepts exactly a list, possibly empty, whose items
    are of type int, whatever their sign, and [TestConfig] exactly a str;
    anything else is a [TypeError]. *)
Theorem small_sections_acceptance (sizes path : pyval) :
  (if list_of is_int sizes
   then LearnCurveConfig.new (LearnCurveConfig.mk sizes) = Ok (LearnCurveConfig.mk sizes)
   else raises_class TypeError (LearnCurveConfig.new (LearnCurveConfig.mk sizes))) /\
  (if is_str path
   then TestConfig.new (TestConfig.mk path) = Ok (TestConfig.mk path)
   else raises_class TypeError (TestConfig.new (TestConfig.mk path))).
Proof.
  split.
  - unfold LearnCurveConfig.new, LearnCurveConfig.attributes,
      LearnCurveConfig.check_train_size_list, check_all_of_type, instance_of, raises_class.
    destruct sizes as [ | b | z | f | s | l ]; simpl; eauto.
    induction l as [ | x rest IH ]; simpl; [ reflexivity | ].
    destruct x as [ | b | z | f | s | l ]; simpl; eauto.
    destruct (forallb is_int rest).
    + apply rbind_ok in IH. destruct IH as [[] [IH _]].
      apply rbind_ok in IH. destruct IH as [[] [IH _]].
      apply rbind_ok in IH. destruct IH as [[] [IH _]].
      simpl in IH. rewrite IH. reflexivity.
    + destruct IH as [msg IH].
      destruct (check_items_of_type int_t "train_size_list" rest) as [[] | e];
        simpl in *; [ discriminate IH | ].
      injection IH as ->. eauto.
  - unfold TestConfig.new, TestConfig.attributes, instance_of, raises_class.
    destruct path; simpl; eauto.
Qed.

(** * More on the driver *)

(** ** The argument checks *)

Lemma check_patience_set (use_val val_epoch patience : pyval) :
  patience <> PyNone ->
  Train.check_patience use_val val_epoch patience = Ok tt <->
  (Train.is_False use_val = false /\ is_int val_epoch = true /\
   not_below_one patience = true).
Proof.
  intros Hset. unfold Train.check_patience.
  assert (Hnone : is_None patience = false)
    by (destruct patience; try reflexivity; contradiction Hset; reflexivity).
  rewrite Hnone. cbn [negb]. rewrite andb_true_r.
  destruct (Train.is_False use_val); [ split; [ discriminate | intros [H _]; discriminate H ] | ].
  destruct val_epoch as [ | b | z | f | s | l ]; cbn [py_type pytype_eqb negb is_int];
    try (split; [ discriminate | intros [_ [H _]]; discriminate H ]).
  destruct patience as [ | b | p | f | s | l ]; simpl.
  - contradiction Hset. reflexivity.
  - destruct b; simpl; split; try discriminate; auto. intros [_ [_ H]]. discriminate H.
  - destruct (Z.leb_spec 1 p) as [Hp | Hp].
    + replace (p <? 1) with false by (symmetry; apply Z.ltb_ge; lia). split; auto.
    + replace (p <? 1) with true by (symmetry; apply Z.ltb_lt; lia).
      simpl. split; [ discriminate | intros [_ [_ H]]; discriminate H ].
  - change (Z2float 1) with 1%float.
    destruct (PrimFloat.ltb f 1); simpl; split; try discriminate; auto.
    intros [_ [_ H]]. discriminate H.
  - split; [ discriminate | intros [_ [_ H]]; discriminate H ].
  - split; [ discriminate | intros [_ [_ H]]; discriminate H ].
Qed.

(** X10: the check on [patience] passes exactly when [patience] is [None], or
    [use_val] is not the object [False], [val_epoch] is of type int and
    [patience] is not below 1.  The type that is tested is that of
    [val_epoch]: a [patience] that is a double or [True] passes. *)
Theorem check_patience_passes (use_val val_epoch patience : pyval) :
  Train.check_patience use_val val_epoch patience = Ok tt <->
  patience = PyNone \/
  (Train.is_False use_val = false /\ is_int val_epoch = true /\
   not_below_one patience = true).
Proof.
  destruct patience as [ | b | p | f | s | l ] eqn:Hp.
  - unfold Train.check_patience. cbn [is_None negb]. rewrite andb_false_r.
    split; [ left; reflexivity | reflexivity ].
  - rewrite check_patience_set by discriminate.
    split; [ right; assumption | intros [H | H]; [ discriminate H | exact H ] ].
  - rewrite check_patience_set by discriminate.
    split; [ right; assumption | intros [H | H]; [ discriminate H | exact H ] ].
  - rewrite check_patience_set by discriminate.
    split; [ right; assumption | intros [H | H]; [ discriminate H | exact H ] ].
  - rewrite check_patience_set by discriminate.
    split; [ right; assumption | intros [H | H]; [ discriminate H | exact H ] ].
  - rewrite check_patience_set by discriminate.
    split; [ right; assumption | intros [H | H]; [ discriminate H | exact H ] ].
Qed.

(** X11: the three argument checks come before every effect: when one of them
    raises, [train] raises that exception and has called nothing, the
    first check that fails deciding the exception. *)
Theorem train_checks_before_effects (W : Train.world) (a : Train.args) (e : exn) :
  (Train.check_val_epoch (Train.use_val a) (Train.val_epoch a) = Raise e ->
   Train.train W a = (Raise e, [])) /\
  (Train.check_val_epoch (Train.use_val a) (Train.val_epoch a) = Ok tt ->
   Train.check_patience (Train.use_val a) (Train.val_epoch a) (Train.patience a) = Raise e ->
   Train.train W a = (Raise e, [])) /\
  (Train.check_val_epoch (Train.use_val a) (Train.val_epoch a) = Ok tt ->
   Train.check_patience (Train.use_val a) (Train.val_epoch a) (Train.patience a) = Ok tt ->
   Train.normalize_epochs_list (Train.epochs_list a) = Raise e ->
   Train.train W a = (Raise e, [])).
Proof.
  unfold Train.train, Train.prepare. repeat split.
  - intros ->. reflexivity.
  - intros -> ->. reflexivity.
  - intros -> -> ->. reflexivity.
Qed.

Lemma train_checks_before_effects_witness :
  Train.train quiet_world
    (train_call (PyStr "searchstims") (PyStr "five") (PyInt 42) (PyStr "CE")
       (PyBool true) (PyInt 1) (PyBool false))
  = (Raise (Exn TypeError
              "'EPOCHS' option in 'TRAIN' section of config.ini file parsed as invalid type"),
     []).
Proof.
  exact (proj2 (proj2 (train_checks_before_effects quiet_world
                         (train_call (PyStr "searchstims") (PyStr "five") (PyInt 42) (PyStr "CE")
                            (PyBool true) (PyInt 1) (PyBool false))
                         _)) eq_refl eq_refl eq_refl).
Defined.

(** ** From [TrainConfig] to [train] *)

Lemma one_of_str (set : list string) (v : pyval) :
  one_of set v = true -> exists s, v = PyStr s /\ In s set.
Proof.
  unfold one_of. destruct v; simpl; try discriminate.
  intros H. apply existsb_exists in H. destruct H as [t [Hin Ht]].
  apply String.eqb_eq in Ht. subst t. eauto.
Qed.

(** X12: the values a constructed [TrainConfig] holds fit the steps of [train]
    that use the arguments of the same names: the loss is selected, the
    method is one of the two that [train] knows, [epochs_list] is taken as
    it is, the replicate count can be counted from.  The check on
    [val_epoch] passes exactly when a [val_epoch] was given, so a
    [TrainConfig] left at its default is one [train] rejects; given a
    [val_epoch], the check on [patience] passes exactly when [patience] is
    [None] or [use_val] is [True]. *)
Theorem TrainConfig_fits_train (c : TrainConfig.t) :
  TrainConfig.new c = Ok c ->
  (exists l, Train.select_loss (TrainConfig.loss_func c) = Ok l) /\
  (py_eq_str (TrainConfig.method c) "transfer" = true \/
   py_eq_str (TrainConfig.method c) "initialize" = true) /\
  (exists l, TrainConfig.epochs_list c = PyList l /\
             Train.normalize_epochs_list (TrainConfig.epochs_list c) = Ok l) /\
  (exists n, as_int (TrainConfig.number_nets_to_train c) = Some n) /\
  (Train.check_val_epoch (TrainConfig.use_val c) (TrainConfig.val_epoch c) = Ok tt <->
   TrainConfig.val_epoch c <> PyNone) /\
  (TrainConfig.val_epoch c <> PyNone ->
   (Train.check_patience (TrainConfig.use_val c) (TrainConfig.val_epoch c)
      (TrainConfig.patience c) = Ok tt <->
    TrainConfig.patience c = PyNone \/ TrainConfig.use_val c = PyBool true)).
Proof.
  intros Hc. apply TrainConfig_new_ok_iff, run_validators_ok, TrainConfig_fields_iff in Hc.
  assert (Hloss : one_of ["CE"; "BCE"] (TrainConfig.loss_func c) = true) by field_of Hc.
  assert (Hmeth : one_of ["initialize"; "transfer"] (TrainConfig.method c) = true)
    by field_of Hc.
  assert (Hel : list_of is_int (TrainConfig.epochs_list c) = true) by field_of Hc.
  assert (Hn : is_count (TrainConfig.number_nets_to_train c) = true) by field_of Hc.
  assert (Huse : is_bool (TrainConfig.use_val c) = true) by field_of Hc.
  assert (Hve : none_or (int_at_least 1) (TrainConfig.val_epoch c) = true) by field_of Hc.
  assert (Hpa : none_or (int_at_least 1) (TrainConfig.patience c) = true) by field_of Hc.
  clear Hc.
  split; [ | split; [ | split; [ | split; [ | split ] ] ] ].
  - apply one_of_str in Hloss. destruct Hloss as [s [-> Hin]].
    simpl in Hin. destruct Hin as [<- | [<- | []]]; eexists; reflexivity.
  - apply one_of_str in Hmeth. destruct Hmeth as [s [-> Hin]].
    simpl in Hin. destruct Hin as [<- | [<- | []]]; [ right | left ]; reflexivity.
  - destruct (TrainConfig.epochs_list c) as [ | | | | | l ]; try discriminate Hel.
    exists l. split; reflexivity.
  - destruct (TrainConfig.number_nets_to_train c); try discriminate Hn; simpl; eauto.
  - rewrite check_val_epoch_spec.
    destruct (TrainConfig.val_epoch c) as [ | b | z | f | s | l ]; try discriminate Hve.
    + split; [ intros [z [H' _]]; discriminate H' | intros H'; contradiction H'; reflexivity ].
    + simpl in Hve. apply Z.leb_le in Hve.
      split; [ discriminate | intros _; exists z; split; [ reflexivity | exact Hve ] ].
  - intros Hgiven.
    destruct (TrainConfig.val_epoch c) as [ | b | z | f | s | l ]; try discriminate Hve;
      [ contradiction Hgiven; reflexivity | ].
    destruct (TrainConfig.patience c) as [ | b | p | f | s | l ] eqn:Hp;
      try discriminate Hpa.
    + split; [ intros _; left; reflexivity | intros _ ].
      unfold Train.check_patience. cbn [is_None negb]. rewrite andb_false_r. reflexivity.
    + rewrite check_patience_set by discriminate.
      destruct (TrainConfig.use_val c) as [ | [ | ] | | | | ]; try discriminate Huse.
      * split; [ intros _; right; reflexivity | ].
        intros _. repeat split. exact Hpa.
      * split; [ intros [H' _]; discriminate H' | ].
        intros [H' | H']; discriminate H'.
Qed.

Lemma TrainConfig_fits_train_witness :
  Train.check_val_epoch (TrainConfig.use_val TrainConfig_example)
    (TrainConfig.val_epoch TrainConfig_example) <> Ok tt.
Proof.
  intros H.
  apply (proj1 (proj1 (proj2 (proj2 (proj2 (proj2
           (TrainConfig_fits_train TrainConfig_example eq_refl)))))) H).
  reflexivity.
Defined.

(** ** No exception is swallowed *)

Lemma stops_bind {A B : Type} (W : Train.world) (m : Train.M A) (k : A -> Train.M B) :
  stops_at_first_raise W m -> (forall x, stops_at_first_raise W (k x)) ->
  stops_at_first_raise W (Train.bind m k).
Proof.
  intros Hm Hk. unfold stops_at_first_raise in *.
  destruct (bind_cases m k) as [[e [He ->]] | [x [Hx [Hfst Hsnd]]]].
  - simpl. destruct Hm as [Hq | [log [ev [e' [Hlog [Hq [Hout Hr]]]]]]].
    + left. exact Hq.
    + right. exists log, ev, e'. repeat split; try assumption. congruence.
  - rewrite Hfst, Hsnd.
    destruct Hm as [Hq | [log [ev [e' [_ [_ [_ Hr]]]]]]]; [ | congruence ].
    destruct (Hk x) as [Hq' | [log [ev [e' [Hlog [Hq' [Hout Hr]]]]]]].
    + left. apply Forall_app. split; assumption.
    + right. exists (snd m ++ log), ev, e'. rewrite Hlog.
      repeat split; try assumption.
      * apply app_assoc.
      * apply Forall_app. split; assumption.
Qed.

Lemma stops_silent {A : Type} (W : Train.world) (m : Train.M A) :
  snd m = [] -> stops_at_first_raise W m.
Proof. intros H. left. unfold all_returned. rewrite H. constructor. Qed.

Lemma stops_call (W : Train.world) (ev : Train.event) (o : option exn) :
  outcome W ev = o -> stops_at_first_raise W (Train.call ev o).
Proof.
  intros Ho. unfold stops_at_first_raise, Train.call. simpl. destruct o as [e | ].
  - right. exists [], ev, e. repeat split; [ constructor | exact Ho ].
  - left. repeat constructor. exact Ho.
Qed.

Lemma stops_ask {A : Type} (W : Train.world) (ev : Train.event) (r : result A) :
  outcome W ev = match r with Ok _ => None | Raise e => Some e end ->
  stops_at_first_raise W (Train.ask ev r).
Proof.
  intros Ho. unfold stops_at_first_raise, Train.ask. simpl. destruct r as [x | e].
  - left. repeat constructor. exact Ho.
  - right. exists [], ev, e. repeat split; [ constructor | exact Ho ].
Qed.

Ltac stops_steps :=
  repeat first
    [ apply stops_bind; [ | intros ? ]
    | apply stops_silent; reflexivity
    | apply stops_call; reflexivity
    | apply stops_ask; reflexivity
    | match goal with
      | |- stops_at_first_raise _ (if ?c then _ else _) => destruct c
      | |- stops_at_first_raise _ (Train.read_local _ ?v) =>
          destruct v; apply stops_silent; reflexivity
      | |- stops_at_first_raise _ (Train.lift _) => apply stops_silent; reflexivity
      end ].

Lemma stops_for_net_number (W : Train.world) (a : Train.args) (L : Train.locals)
  (epochs : pyval) (net_numbers : list Z) (trainer : option Train.trainer_t) :
  stops_at_first_raise W (Train.for_net_number W a L epochs trainer net_numbers).
Proof.
  revert trainer. induction net_numbers as [ | n rest IH ]; intros trainer; simpl.
  - apply stops_silent. reflexivity.
  - apply stops_bind; [ | intros trainer'; apply IH ].
    unfold Train.run_job, Train.common_kwargs. stops_steps.
Qed.

Lemma stops_for_epochs (W : Train.world) (a : Train.args) (L : Train.locals)
  (epochs_list : list pyval) (trainer : option Train.trainer_t) :
  stops_at_first_raise W (Train.for_epochs W a L trainer epochs_list).
Proof.
  revert trainer. induction epochs_list as [ | epochs rest IH ]; intros trainer; simpl.
  - apply stops_silent. reflexivity.
  - stops_steps; [ apply stops_for_net_number | apply IH ].
Qed.

(** X13: [train] catches nothing: a call to a collaborator that raises is the
    last thing it does, and it ends in the exception of that call.  So
    every call before it returned, and nothing is retried or run after a
    failure. *)
Theorem train_stops_at_first_raise (W : Train.world) (a : Train.args) :
  stops_at_first_raise W (Train.train W a).
Proof.
  unfold Train.train. apply stops_bind.
  - unfold Train.prepare, Train.seed, Train.select_device, Train.select_datasets,
      Train.select_trainset_set_size.
    stops_steps.
  - intros prepared. apply stops_bind; [ apply stops_for_epochs | intros ? ].
    apply stops_silent. reflexivity.
Qed.

(** ** The trace of the jobs *)

Lemma constructed_of_app (l1 l2 : list Train.event) :
  constructed_of (l1 ++ l2) = constructed_of l1 ++ constructed_of l2.
Proof.
  induction l1 as [ | ev l1 IH ]; simpl; [ reflexivity | ].
  destruct ev; simpl; rewrite IH; reflexivity.
Qed.

(** A job that ends well is: the save path, the construction, the run. *)
Lemma run_job_trace (W : Train.world) (a : Train.args) (L : Train.locals) (epochs : pyval)
  (trainer r : option Train.trainer_t) (net_number : Z) :
  method_known a \/ trainer = None ->
  fst (Train.run_job W a L epochs trainer net_number) = Ok r ->
  exists tr,
    r = Some tr /\
    snd (Train.run_job W a L epochs trainer net_number)
    = job_trace (job_at a epochs net_number) tr /\
    made_by a L tr.
Proof.
  unfold method_known, made_by, job_trace, job_at.
  unfold Train.run_job, Train.common_kwargs, Train.bind, Train.ask, Train.call,
    Train.read_local, Train.ret, Train.raise.
  intros Hinv.
  destruct (Train.make_save_path_res W (Train.save_path a) (Train.net_name a) net_number epochs)
    as [p | e]; [ | discriminate ].
  destruct (py_eq_str (Train.method a) "transfer") eqn:Htransfer;
    [ | destruct (py_eq_str (Train.method a) "initialize") eqn:Hinit ].
  - destruct (Train.l_trainset L); [ | discriminate ].
    destruct (Train.l_trainset_set_size L); [ | discriminate ].
    destruct (Train.l_valset L); [ | discriminate ].
    cbn. destruct (Train.from_config_exn W _); [ discriminate | ].
    destruct (Train.trainer_train_exn W _); [ discriminate | ].
    cbn. intros H. injection H as <-.
    eexists. split; [ reflexivity | ]. split; [ reflexivity | ].
    exists p, epochs. split; [ reflexivity | ]. left. split; reflexivity.
  - destruct (Train.l_trainset L); [ | discriminate ].
    destruct (Train.l_trainset_set_size L); [ | discriminate ].
    destruct (Train.l_valset L); [ | discriminate ].
    cbn. destruct (Train.from_config_exn W _); [ discriminate | ].
    destruct (Train.trainer_train_exn W _); [ discriminate | ].
    cbn. intros H. injection H as <-.
    eexists. split; [ reflexivity | ]. split; [ reflexivity | ].
    exists p, epochs. split; [ reflexivity | ]. right. repeat split; reflexivity.
  - destruct Hinv as [[H | H] | ->]; try discriminate H. discriminate.
Qed.

Lemma trained_of_job_trace (j : job) (tr : Train.trainer_t) (log : list Train.event) :
  trained_of (job_trace j tr ++ log) = tr :: trained_of log /\
  constructed_of (job_trace j tr ++ log) = tr :: constructed_of log.
Proof. destruct j as [[[s n] i] e]. split; reflexivity. Qed.

Lemma for_net_number_trace (W : Train.world) (a : Train.args) (L : Train.locals)
  (epochs : pyval) (net_numbers : list Z) (trainer r : option Train.trainer_t) :
  method_known a \/ trainer = None ->
  fst (Train.for_net_number W a L epochs trainer net_numbers) = Ok r ->
  (method_known a \/ r = None) /\
  snd (Train.for_net_number W a L epochs trainer net_numbers)
  = job_traces (map (job_at a epochs) net_numbers)
      (trained_of (snd (Train.for_net_number W a L epochs trainer net_numbers))) /\
  List.length (trained_of (snd (Train.for_net_number W a L epochs trainer net_numbers)))
  = List.length net_numbers /\
  Forall (made_by a L)
    (trained_of (snd (Train.for_net_number W a L epochs trainer net_numbers))).
Proof.
  revert trainer. induction net_numbers as [ | n rest IH ]; intros trainer Hinv; simpl.
  - intros H. injection H as <-. repeat split; [ exact Hinv | constructor ].
  - intros H. apply bind_ok_inv in H. destruct H as [x [Hx [Hrest ->]]].
    destruct (run_job_trace W a L epochs trainer x n Hinv Hx) as [tr [-> [-> Hmade]]].
    assert (Hm : method_known a).
    { destruct Hmade as [_ [_ [_ [[H _] | [_ [H _]]]]]]; [ left | right ]; exact H. }
    destruct (IH (Some tr) (or_introl Hm) Hrest) as [Hinv' [Htrace [Hlen Hall]]].
    destruct (trained_of_job_trace (job_at a epochs n) tr
                (snd (Train.for_net_number W a L epochs (Some tr) rest))) as [-> _].
    split; [ exact Hinv' | ]. split; [ | split ].
    + cbn [job_traces]. rewrite <- Htrace. reflexivity.
    + simpl. rewrite Hlen. reflexivity.
    + constructor; [ exact Hmade | exact Hall ].
Qed.

Lemma job_traces_app (js1 js2 : list job) (trs1 trs2 : list Train.trainer_t) :
  List.length trs1 = List.length js1 ->
  job_traces (js1 ++ js2) (trs1 ++ trs2) = job_traces js1 trs1 ++ job_traces js2 trs2.
Proof.
  revert trs1. induction js1 as [ | j js1 IH ]; intros [ | tr trs1 ] Hlen;
    try discriminate Hlen; [ reflexivity | ].
  simpl. rewrite IH by (simpl in Hlen; lia). apply app_assoc.
Qed.

Lemma job_traces_events (jobs : list job) (trainers : list Train.trainer_t) :
  filter is_job_event (job_traces jobs trainers) = job_traces jobs trainers /\
  constructed_of (job_traces jobs trainers) = trained_of (job_traces jobs trainers).
Proof.
  revert trainers. induction jobs as [ | [[[s n] i] e] jobs IH ]; intros [ | tr trainers ];
    try (split; reflexivity).
  destruct (IH trainers) as [Hf Hc]. cbn. rewrite Hf, Hc. split; reflexivity.
Qed.

Lemma for_epochs_trace (W : Train.world) (a : Train.args) (L : Train.locals)
  (epochs_list : list pyval) (trainer r : option Train.trainer_t) :
  method_known a \/ trainer = None ->
  fst (Train.for_epochs W a L trainer epochs_list) = Ok r ->
  filter is_job_event (snd (Train.for_epochs W a L trainer epochs_list))
  = job_traces (grid a epochs_list)
      (trained_of (snd (Train.for_epochs W a L trainer epochs_list))) /\
  List.length (trained_of (snd (Train.for_epochs W a L trainer epochs_list)))
  = List.length (grid a epochs_list) /\
  Forall (made_by a L) (trained_of (snd (Train.for_epochs W a L trainer epochs_list))).
Proof.
  revert trainer. induction epochs_list as [ | epochs rest IH ]; intros trainer Hinv.
  - intros _. repeat split. constructor.
  - change (grid a (epochs :: rest))
      with (map (job_at a epochs) (replicates a) ++ grid a rest).
    cbn [Train.for_epochs]. step_print. cbn [Train.call snd app filter is_job_event trained_of].
    destruct (py_add (Train.number_nets_to_train a) (PyInt 1)) as [stop | e] eqn:Hstop;
      step_lift; [ | discriminate ].
    destruct (Train.py_range 1 stop) as [net_numbers | e] eqn:Hrange;
      step_lift; [ | discriminate ].
    rewrite (replicates_spec a stop net_numbers Hstop Hrange).
    intros H. apply bind_ok_inv in H. destruct H as [x [Hx [Hrest ->]]].
    destruct (for_net_number_trace W a L epochs (replicates a) trainer x Hinv Hx)
      as [Hinv' [Htrace [Hlen Hall]]].
    destruct (IH x Hinv' Hrest) as [Htrace' [Hlen' Hall']].
    rewrite trained_of_app, filter_app, Htrace'. split; [ | split ].
    + rewrite job_traces_app by (rewrite Hlen, length_map; reflexivity).
      f_equal. rewrite Htrace at 1. apply job_traces_events.
    + rewrite !length_app, Hlen, Hlen', length_map. reflexivity.
    + apply Forall_app. split; assumption.
Qed.

(** ** What [prepare] has done when it returns *)

Lemma seed_ok (W : Train.world) (a : Train.args) :
  fst (Train.seed W (Train.random_seed a)) = Ok tt ->
  snd (Train.seed W (Train.random_seed a)) = seed_events a.
Proof.
  unfold Train.seed, seed_events, Train.bind, Train.call, Train.ret.
  destruct (py_truthy (Train.random_seed a)); [ | reflexivity ].
  destruct (Train.np_random_seed_exn W _); [ discriminate | ].
  destruct (Train.torch_manual_seed_exn W _); [ discriminate | ].
  reflexivity.
Qed.

Lemma select_device_ok (W : Train.world) :
  Train.select_device W
  = (Ok (if Train.cuda_available W then Train.cuda else Train.cpu), [Train.cuda_is_available]).
Proof. unfold Train.select_device. destruct (Train.cuda_available W); reflexivity. Qed.

Lemma select_datasets_ok (W : Train.world) (a : Train.args) (t : Train.handle * Train.handle)
  (trainset : option Train.dataset) (valset : option (option Train.dataset)) :
  fst (Train.select_datasets W a (fst t) (snd t)) = Ok (trainset, valset) ->
  snd (Train.select_datasets W a (fst t) (snd t))
  = map Train.dataset_init (option_list trainset ++ bound_value valset) /\
  (forall d, trainset = Some d ->
             is_split_of a t "train" false d /\
             exists v, valset = Some v /\
                       (v = None <-> py_truthy (Train.use_val a) = false) /\
                       forall d', v = Some d' -> is_split_of a t "val" false d').
Proof.
  unfold Train.select_datasets, Train.bind, Train.call, Train.ret.
  destruct (py_eq_str (Train.dataset_type a) "VSD") eqn:Hvsd;
    [ | destruct (py_eq_str (Train.dataset_type a) "searchstims") eqn:Hss ].
  - destruct (Train.dataset_init_exn W _); [ discriminate | ].
    destruct (py_truthy (Train.use_val a)); cbn.
    + destruct (Train.dataset_init_exn W _); [ discriminate | ].
      cbn. intros H. injection H as <- <-. split; [ reflexivity | ].
      intros d Hd. injection Hd as <-. split; [ repeat split; assumption | ].
      eexists. split; [ reflexivity | ]. split; [ split; discriminate | ].
      intros d' Hd'. injection Hd' as <-. repeat split; assumption.
    + intros H. injection H as <- <-. split; [ reflexivity | ].
      intros d Hd. injection Hd as <-. split; [ repeat split; assumption | ].
      eexists. split; [ reflexivity | ]. split; [ split; reflexivity | discriminate ].
  - destruct (Train.dataset_init_exn W _); [ discriminate | ].
    destruct (py_truthy (Train.use_val a)); cbn.
    + destruct (Train.dataset_init_exn W _); [ discriminate | ].
      cbn. intros H. injection H as <- <-. split; [ reflexivity | ].
      intros d Hd. injection Hd as <-. split; [ repeat split; assumption | ].
      eexists. split; [ reflexivity | ]. split; [ split; discriminate | ].
      intros d' Hd'. injection Hd' as <-. repeat split; assumption.
    + intros H. injection H as <- <-. split; [ reflexivity | ].
      intros d Hd. injection Hd as <-. split; [ repeat split; assumption | ].
      eexists. split; [ reflexivity | ]. split; [ split; reflexivity | discriminate ].
  - cbn. intros H. injection H as <- <-. split; [ reflexivity | discriminate ].
Qed.

Lemma select_trainset_set_size_ok (W : Train.world) (a : Train.args)
  (t : Train.handle * Train.handle) (trainset_set_size : option (option Train.dataset)) :
  fst (Train.select_trainset_set_size W a (fst t)) = Ok trainset_set_size ->
  snd (Train.select_trainset_set_size W a (fst t))
  = map Train.dataset_init (bound_value trainset_set_size) /\
  (forall v, trainset_set_size = Some v ->
             (v = None <-> py_truthy (Train.save_acc_by_set_size_by_epoch a) = false) /\
             forall d, v = Some d -> is_split_of a t "train" true d).
Proof.
  unfold Train.select_trainset_set_size, Train.bind, Train.call, Train.ret, Train.raise.
  destruct (py_truthy (Train.save_acc_by_set_size_by_epoch a)).
  - destruct (py_eq_str (Train.dataset_type a) "VSD") eqn:Hvsd; [ discriminate | ].
    destruct (py_eq_str (Train.dataset_type a) "searchstims") eqn:Hss.
    + destruct (Train.dataset_init_exn W _); [ discriminate | ].
      cbn. intros H. injection H as <-. split; [ reflexivity | ].
      intros v Hv. injection Hv as <-. split; [ split; discriminate | ].
      intros d Hd. injection Hd as <-. repeat split; assumption.
    + cbn. intros H. injection H as <-. split; [ reflexivity | discriminate ].
  - cbn. intros H. injection H as <-. split; [ reflexivity | ].
    intros v Hv. injection Hv as <-. split; [ split; reflexivity | discriminate ].
Qed.

Ltac ok_step H x Hx Hlog :=
  apply bind_ok_inv in H; destruct H as [x [Hx [H Hlog]]]; cbv beta in H, Hlog.

Lemma prepare_ok (W : Train.world) (a : Train.args) (epochs_list : list pyval)
  (L : Train.locals) :
  fst (Train.prepare W a) = Ok (epochs_list, L) ->
  exists t,
    Train.get_transforms_res W (Train.dataset_type a) (Train.loss_func a) (Train.pad_size a)
    = Ok t /\
    snd (Train.prepare W a)
    = seed_events a
      ++ [Train.cuda_is_available;
          Train.get_transforms (Train.dataset_type a) (Train.loss_func a) (Train.pad_size a)]
      ++ map Train.dataset_init
           (option_list (Train.l_trainset L) ++ bound_value (Train.l_valset L)
            ++ bound_value (Train.l_trainset_set_size L)) /\
    Train.l_device L = (if Train.cuda_available W then Train.cuda else Train.cpu) /\
    Train.select_loss (Train.loss_func a)
    = Ok (Train.l_apply_sigmoid L, Train.l_criterion L) /\
    (forall d, Train.l_trainset L = Some d ->
               is_split_of a t "train" false d /\
               exists v, Train.l_valset L = Some v /\
                         (v = None <-> py_truthy (Train.use_val a) = false) /\
                         forall d', v = Some d' -> is_split_of a t "val" false d') /\
    (forall v, Train.l_trainset_set_size L = Some v ->
               (v = None <-> py_truthy (Train.save_acc_by_set_size_by_epoch a) = false) /\
               forall d, v = Some d -> is_split_of a t "train" true d).
Proof.
  unfold Train.prepare. intros H.
  ok_step H x1 H1 Hlog1. ok_step H x2 H2 Hlog2. ok_step H l H3 Hlog3.
  ok_step H x4 Hseed Hlog4. ok_step H device Hdev Hlog5. ok_step H t Ht Hlog6.
  ok_step H sets Hsets Hlog7. ok_step H tss Htss Hlog8. ok_step H loss Hloss Hlog9.
  destruct x4. destruct sets as [trainset valset]. destruct loss as [apply_sigmoid criterion].
  simpl in H. injection H as <- <-. cbn [Train.l_trainset Train.l_valset
    Train.l_trainset_set_size Train.l_device Train.l_apply_sigmoid Train.l_criterion fst snd].
  destruct (select_datasets_ok W a t trainset valset Hsets) as [Hdlog Hdsets].
  destruct (select_trainset_set_size_ok W a t tss Htss) as [Htlog Htss'].
  exists t. split; [ exact Ht | ]. split; [ | split; [ | split; [ | split ] ] ].
  - rewrite Hlog1, Hlog2, Hlog3, Hlog4, Hlog5, Hlog6, Hlog7, Hlog8, Hlog9.
    rewrite (seed_ok W a Hseed), Hdlog, Htlog, select_device_ok.
    cbn [Train.lift Train.ask Train.ret snd app].
    rewrite app_nil_r, !map_app, <- !app_assoc. reflexivity.
  - rewrite select_device_ok in Hdev. simpl in Hdev. injection Hdev as <-. reflexivity.
  - simpl in Hloss. exact Hloss.
  - exact Hdsets.
  - exact Htss'.
Qed.

(** ** Every trainer that is constructed *)

Lemma log_bind_ok {A B : Type} (P : Train.event -> Prop) (m : Train.M A)
  (k : A -> Train.M B) :
  Forall P (snd m) -> (forall x, fst m = Ok x -> Forall P (snd (k x))) ->
  Forall P (snd (Train.bind m k)).
Proof.
  intros Hm Hk. destruct (bind_cases m k) as [[e [_ ->]] | [x [Hx [_ ->]]]].
  - exact Hm.
  - apply Forall_app. split; [ exact Hm | exact (Hk x Hx) ].
Qed.

Lemma constructs_only_spec (P : Train.trainer_t -> Prop) (log : list Train.event) :
  Forall (constructs_only P) log <-> Forall P (constructed_of log).
Proof.
  induction log as [ | ev log IH ]; simpl.
  - split; constructor.
  - split; intros H.
    + inversion H as [ | ? ? Hev Hrest ]; subst.
      destruct ev; simpl in *; try (apply IH; exact Hrest).
      constructor; [ exact Hev | apply IH; exact Hrest ].
    + destruct ev; try (constructor; [ exact I | apply IH; exact H ]).
      inversion H as [ | ? ? Hev Hrest ]; subst.
      constructor; [ exact Hev | apply IH; exact Hrest ].
Qed.

Lemma run_job_constructs (W : Train.world) (a : Train.args) (L : Train.locals)
  (epochs : pyval) (trainer : option Train.trainer_t) (net_number : Z) :
  Forall (constructs_only (made_by a L))
    (snd (Train.run_job W a L epochs trainer net_number)).
Proof.
  unfold Train.run_job.
  apply log_bind; [ apply log_ask; exact I | intros p ].
  apply log_bind; [ | intros trainer'; log_steps; exact I ].
  destruct (py_eq_str (Train.method a) "transfer") eqn:Htransfer;
    [ | destruct (py_eq_str (Train.method a) "initialize") eqn:Hinit ].
  - apply log_bind_ok; [ unfold Train.common_kwargs; log_steps | intros kw Hkw ].
    log_steps. exists p, epochs. split; [ exact Hkw | ].
    left. split; [ exact Htransfer | reflexivity ].
  - apply log_bind_ok; [ unfold Train.common_kwargs; log_steps | intros kw Hkw ].
    log_steps. exists p, epochs. split; [ exact Hkw | ].
    right. split; [ exact Htransfer | split; [ exact Hinit | reflexivity ] ].
  - log_steps.
Qed.

Lemma for_epochs_constructs (W : Train.world) (a : Train.args) (L : Train.locals)
  (epochs_list : list pyval) (trainer : option Train.trainer_t) :
  Forall (made_by a L) (constructed_of (snd (Train.for_epochs W a L trainer epochs_list))).
Proof.
  apply constructs_only_spec. revert trainer.
  induction epochs_list as [ | epochs rest IH ]; intros trainer; simpl.
  - constructor.
  - log_steps; try exact I; [ | apply IH ].
    match goal with
    | |- Forall _ (snd (Train.for_net_number W a L epochs ?tr ?l)) =>
        generalize tr; induction l as [ | n l' IHl ]; intros tr'; simpl
    end.
    + constructor.
    + apply log_bind; [ apply run_job_constructs | intros ?; apply IHl ].
Qed.

Lemma made_by_facts (a : Train.args) (L : Train.locals) (tr : Train.trainer_t) :
  made_by a L tr ->
  passes_arguments a tr /\ follows_method a tr /\
  Some (Train.kw_trainset (kwargs_of tr)) = Train.l_trainset L /\
  Some (Train.kw_valset (kwargs_of tr)) = Train.l_valset L /\
  Some (Train.kw_trainset_set_size (kwargs_of tr)) = Train.l_trainset_set_size L /\
  Train.kw_apply_sigmoid (kwargs_of tr) = Train.l_apply_sigmoid L /\
  Train.kw_criterion (kwargs_of tr) = Train.l_criterion L /\
  Train.kw_device (kwargs_of tr) = Train.l_device L.
Proof.
  intros [p [epochs [Hkw Hclass]]].
  unfold Train.common_kwargs, Train.bind, Train.read_local, Train.ret, Train.raise in Hkw.
  destruct (Train.l_trainset L); [ | discriminate Hkw ].
  destruct (Train.l_trainset_set_size L); [ | discriminate Hkw ].
  destruct (Train.l_valset L); [ | discriminate Hkw ].
  cbn in Hkw. injection Hkw as Hkw.
  split; [ | split ].
  - unfold passes_arguments. rewrite <- Hkw. repeat split; reflexivity.
  - destruct Hclass as [[Hm Htr] | [Hm [Hi Htr]]]; destruct tr; try discriminate Htr;
      injection Htr as -> -> -> ->|| injection Htr as ->; simpl; repeat split; assumption.
  - rewrite <- Hkw. repeat split; reflexivity.
Qed.

Lemma constructed_of_none (log : list Train.event) :
  none_of is_loop_event log -> constructed_of log = [].
Proof.
  induction 1 as [ | ev log Hev _ IH ]; [ reflexivity | ].
  destruct ev; try discriminate Hev; exact IH.
Qed.

Lemma datasets_of_app (l1 l2 : list Train.event) :
  datasets_of (l1 ++ l2) = datasets_of l1 ++ datasets_of l2.
Proof.
  induction l1 as [ | ev l1 IH ]; simpl; [ reflexivity | ].
  destruct ev; simpl; rewrite IH; reflexivity.
Qed.

Lemma datasets_of_init (ds : list Train.dataset) :
  datasets_of (map Train.dataset_init ds) = ds.
Proof. induction ds as [ | d ds IH ]; simpl; [ | rewrite IH ]; reflexivity. Qed.

Lemma datasets_of_loop (log : list Train.event) :
  Forall (fun ev => is_loop_event ev = true) log -> datasets_of log = [].
Proof.
  induction 1 as [ | ev log Hev _ IH ]; [ reflexivity | ].
  destruct ev; try discriminate Hev; exact IH.
Qed.

Lemma datasets_of_seed_events (a : Train.args) : datasets_of (seed_events a) = [].
Proof. unfold seed_events. destruct (py_truthy (Train.random_seed a)); reflexivity. Qed.

(** A run either stops in [prepare], or goes on with the loops on what
    [prepare] returned. *)
Lemma train_cases (W : Train.world) (a : Train.args) :
  (exists e, fst (Train.prepare W a) = Raise e /\
             Train.train W a = (Raise e, snd (Train.prepare W a))) \/
  (exists epochs_list L,
      fst (Train.prepare W a) = Ok (epochs_list, L) /\
      snd (Train.train W a)
      = snd (Train.prepare W a) ++ snd (Train.for_epochs W a L None epochs_list) /\
      (fst (Train.train W a) = Ok tt ->
       exists r, fst (Train.for_epochs W a L None epochs_list) = Ok r)).
Proof.
  unfold Train.train.
  match goal with
  | |- context [Train.bind (Train.prepare W a) ?k] =>
      destruct (bind_cases (Train.prepare W a) k) as [[e [He Hb]] | [[l L] [Hp [Hfst Hsnd]]]]
  end.
  - left. exists e. split; assumption.
  - right. exists l, L. split; [ exact Hp | ]. cbn [fst snd] in *.
    rewrite Hfst, Hsnd.
    match goal with
    | |- context [Train.bind ?m ?k] =>
        destruct (bind_cases m k) as [[e [He Hb]] | [x [Hx [Hfst' Hsnd']]]]
    end.
    + rewrite Hb. simpl. split; [ reflexivity | discriminate ].
    + rewrite Hsnd'. simpl. rewrite app_nil_r. split; [ reflexivity | ].
      intros _. exists x. exact Hx.
Qed.

Lemma train_constructed (W : Train.world) (a : Train.args) :
  constructed_of (snd (Train.train W a)) = [] \/
  exists epochs_list L,
    fst (Train.prepare W a) = Ok (epochs_list, L) /\
    Forall (made_by a L) (constructed_of (snd (Train.train W a))) /\
    datasets_of (snd (Train.train W a)) = datasets_of (snd (Train.prepare W a)).
Proof.
  destruct (train_cases W a) as [[e [_ ->]] | [l [L [Hp [-> _]]]]].
  - left. apply constructed_of_none. apply prepare_no_loop_event.
  - right. exists l, L. split; [ exact Hp | ].
    rewrite constructed_of_app, datasets_of_app.
    rewrite (constructed_of_none _ (prepare_no_loop_event W a)).
    rewrite (datasets_of_loop _ (for_epochs_only_loop_events W a L l None)), app_nil_r.
    split; [ apply for_epochs_constructs | reflexivity ].
Qed.

(** X14: every trainer [train] constructs, in a run that returns or not, is of
    the class [method] names ([TransferTrainer] for "transfer", [Trainer]
    for "initialize"), with the learning-rate arguments of that class, and
    receives the arguments of [train] that are not the driver's own as
    they were given. *)
Theorem train_passes_arguments (W : Train.world) (a : Train.args) :
  Forall (fun tr => passes_arguments a tr /\ follows_method a tr)
    (constructed_of (snd (Train.train W a))).
Proof.
  destruct (train_constructed W a) as [-> | [l [L [_ [Hall _]]]]]; [ constructor | ].
  eapply Forall_impl; [ | exact Hall ].
  intros tr Hmade. destruct (made_by_facts a L tr Hmade) as [H1 [H2 _]]. split; assumption.
Qed.

(** X15: every trainer [train] constructs receives the criterion and the
    sigmoid flag that the loss selection gives for [loss_func], and the
    device chosen once for the run: the GPU exactly when one is available. *)
Theorem train_passes_loss_and_device (W : Train.world) (a : Train.args) :
  Forall (fun tr =>
            Train.select_loss (Train.loss_func a)
            = Ok (Train.kw_apply_sigmoid (kwargs_of tr), Train.kw_criterion (kwargs_of tr)) /\
            Train.kw_device (kwargs_of tr)
            = (if Train.cuda_available W then Train.cuda else Train.cpu))
    (constructed_of (snd (Train.train W a))).
Proof.
  destruct (train_constructed W a) as [-> | [l [L [Hp [Hall _]]]]]; [ constructor | ].
  destruct (prepare_ok W a l L Hp) as [t [_ [_ [Hdev [Hloss _]]]]].
  eapply Forall_impl; [ | exact Hall ].
  intros tr Hmade.
  destruct (made_by_facts a L tr Hmade) as [_ [_ [_ [_ [_ [-> [-> ->]]]]]]].
  split; assumption.
Qed.

(** X16: the datasets are constructed once, before the loops, and shared: for
    every trainer [train] constructs, the datasets constructed in the
    whole run are exactly the ones that trainer receives, namely the
    training split, the validation split when [use_val] is true and
    [None] otherwise, the training split with set sizes when
    [save_acc_by_set_size_by_epoch] is true and [None] otherwise, all with
    the transforms that the one call of [get_transforms] returned. *)
Theorem train_shares_datasets (W : Train.world) (a : Train.args) :
  Forall (fun tr =>
            let kw := kwargs_of tr in
            exists t,
              Train.get_transforms_res W (Train.dataset_type a) (Train.loss_func a)
                (Train.pad_size a) = Ok t /\
              datasets_of (snd (Train.train W a))
              = Train.kw_trainset kw
                :: option_list (Train.kw_valset kw)
                ++ option_list (Train.kw_trainset_set_size kw) /\
              is_split_of a t "train" false (Train.kw_trainset kw) /\
              (Train.kw_valset kw = None <-> py_truthy (Train.use_val a) = false) /\
              (forall d, Train.kw_valset kw = Some d -> is_split_of a t "val" false d) /\
              (Train.kw_trainset_set_size kw = None <->
               py_truthy (Train.save_acc_by_set_size_by_epoch a) = false) /\
              (forall d, Train.kw_trainset_set_size kw = Some d ->
                         is_split_of a t "train" true d))
    (constructed_of (snd (Train.train W a))).
Proof.
  destruct (train_constructed W a) as [-> | [l [L [Hp [Hall Hds]]]]]; [ constructor | ].
  destruct (prepare_ok W a l L Hp) as [t [Ht [Hlog [_ [_ [Hsets Htss]]]]]].
  eapply Forall_impl; [ | exact Hall ].
  intros tr Hmade. cbv zeta.
  destruct (made_by_facts a L tr Hmade) as [_ [_ [Hts [Hvs [Hss _]]]]].
  destruct (Hsets _ (eq_sym Hts)) as [Htrain [v [Hv [Hnone Hval]]]].
  rewrite <- Hvs in Hv. injection Hv as <-.
  destruct (Htss _ (eq_sym Hss)) as [Hnone' Hset].
  exists t. split; [ exact Ht | ]. split; [ | repeat split; try assumption ].
  - rewrite Hds, Hlog, !datasets_of_app, datasets_of_seed_events, datasets_of_init.
    rewrite <- Hts, <- Hvs, <- Hss. reflexivity.
  - apply Hnone.
  - apply Hnone.
  - apply Hnone'.
  - apply Hnone'.
Qed.

(** ** The whole trace of a run that returns *)

Lemma filter_all {A : Type} (p : A -> bool) (l : list A) :
  Forall (fun x => p x = true) l -> filter p l = l.
Proof.
  induction 1 as [ | x l Hx _ IH ]; simpl; [ reflexivity | ].
  rewrite Hx, IH. reflexivity.
Qed.

Lemma filter_none {A : Type} (p : A -> bool) (l : list A) :
  Forall (fun x => p x = false) l -> filter p l = [].
Proof.
  induction 1 as [ | x l Hx _ IH ]; simpl; [ reflexivity | ].
  rewrite Hx, IH. reflexivity.
Qed.

(** One progress message for each budget, in order. *)
Lemma for_epochs_prints (W : Train.world) (a : Train.args) (L : Train.locals)
  (epochs_list : list pyval) (trainer r : option Train.trainer_t) :
  fst (Train.for_epochs W a L trainer epochs_list) = Ok r ->
  filter is_print_event (snd (Train.for_epochs W a L trainer epochs_list))
  = map (Train.print (Train.net_name a)) epochs_list.
Proof.
  revert trainer. induction epochs_list as [ | epochs rest IH ]; intros trainer.
  - intros _. reflexivity.
  - cbn [Train.for_epochs]. step_print.
    cbn [Train.call snd app filter is_print_event is_job_event negb map].
    destruct (py_add (Train.number_nets_to_train a) (PyInt 1)) as [stop | e] eqn:Hstop;
      step_lift; [ | discriminate ].
    destruct (Train.py_range 1 stop) as [net_numbers | e] eqn:Hrange;
      step_lift; [ | discriminate ].
    intros H. apply bind_ok_inv in H. destruct H as [x [Hx [Hrest ->]]].
    rewrite filter_app, (IH x Hrest).
    rewrite filter_none; [ reflexivity | ].
    eapply Forall_impl; [ | apply for_net_number_only_job_events ].
    intros ev Hev. unfold is_print_event. rewrite Hev. reflexivity.
Qed.

Lemma constructed_of_filter (log : list Train.event) :
  constructed_of (filter is_job_event log) = constructed_of log /\
  trained_of (filter is_job_event log) = trained_of log.
Proof.
  induction log as [ | ev log [IH1 IH2] ]; [ split; reflexivity | ].
  destruct ev; simpl; rewrite ?IH1, ?IH2; split; reflexivity.
Qed.

Lemma length_bound_value {A : Type} (o : option (option A)) :
  (List.length (bound_value o) <= 1)%nat.
Proof. destruct o as [[x | ] | ]; simpl; lia. Qed.

(** X17: the trace of a run that returns: the seeding events when the seed is
    true, one query for a GPU, one call of [get_transforms], the
    construction of at most three datasets, and then the loops, which
    hold one progress message for each budget and, for each job of the
    grid in order, the computation of its save path, the construction of a
    trainer and the run of that same trainer. *)
Theorem train_trace (W : Train.world) (a : Train.args) :
  fst (Train.train W a) = Ok tt ->
  exists epochs_list loop,
    Train.normalize_epochs_list (Train.epochs_list a) = Ok epochs_list /\
    snd (Train.train W a)
    = seed_events a
      ++ [Train.cuda_is_available;
          Train.get_transforms (Train.dataset_type a) (Train.loss_func a) (Train.pad_size a)]
      ++ map Train.dataset_init (datasets_of (snd (Train.train W a)))
      ++ loop /\
    (List.length (datasets_of (snd (Train.train W a))) <= 3)%nat /\
    filter is_print_event loop = map (Train.print (Train.net_name a)) epochs_list /\
    filter is_job_event loop
    = job_traces (grid a epochs_list) (trained_of (snd (Train.train W a))) /\
    List.length (trained_of (snd (Train.train W a))) = List.length (grid a epochs_list) /\
    constructed_of (snd (Train.train W a)) = trained_of (snd (Train.train W a)).
Proof.
  intros Hok.
  destruct (train_cases W a) as [[e [_ Hb]] | [l [L [Hp [Hlog Hloop]]]]];
    [ rewrite Hb in Hok; discriminate Hok | ].
  destruct (Hloop Hok) as [r Hr].
  destruct (prepare_ok W a l L Hp) as [t [_ [Hprep _]]].
  destruct (for_epochs_trace W a L l None r (or_intror eq_refl) Hr) as [Htrace [Hlen _]].
  pose proof (for_epochs_only_loop_events W a L l None) as Hevents.
  assert (Hds : datasets_of (snd (Train.train W a))
                = option_list (Train.l_trainset L) ++ bound_value (Train.l_valset L)
                  ++ bound_value (Train.l_trainset_set_size L)).
  { rewrite Hlog, datasets_of_app, (datasets_of_loop _ Hevents), app_nil_r.
    rewrite Hprep, !datasets_of_app, datasets_of_seed_events, datasets_of_init.
    reflexivity. }
  assert (Htr : trained_of (snd (Train.train W a))
                = trained_of (snd (Train.for_epochs W a L None l))).
  { rewrite Hlog, trained_of_app, (trained_of_none _ (prepare_no_loop_event W a)).
    reflexivity. }
  exists l, (snd (Train.for_epochs W a L None l)).
  split; [ exact (prepare_ok_epochs W a (l, L) Hp) | ].
  split; [ | split; [ | split; [ | split; [ | split ] ] ] ].
  - rewrite Hds. rewrite Hlog at 1. rewrite Hprep, <- !app_assoc. reflexivity.
  - rewrite Hds, !length_app.
    pose proof (length_bound_value (Train.l_valset L)).
    pose proof (length_bound_value (Train.l_trainset_set_size L)).
    destruct (Train.l_trainset L); simpl; lia.
  - exact (for_epochs_prints W a L l None r Hr).
  - rewrite Htr. exact Htrace.
  - rewrite Htr. exact Hlen.
  - rewrite Hlog, constructed_of_app, trained_of_app.
    rewrite (constructed_of_none _ (prepare_no_loop_event W a)).
    rewrite (trained_of_none _ (prepare_no_loop_event W a)). cbn [app].
    destruct (constructed_of_filter (snd (Train.for_epochs W a L None l))) as [<- <-].
    rewrite Htrace. apply job_traces_events.
Qed.

Lemma train_trace_witness :
  exists epochs_list loop,
    Train.normalize_epochs_list (PyList [PyInt 5; PyInt 10]) = Ok epochs_list /\
    filter is_print_event loop = map (Train.print (PyStr "alexnet")) epochs_list /\
    List.length
      (trained_of
         (snd (Train.train quiet_world
                 (train_call (PyStr "searchstims") (PyList [PyInt 5; PyInt 10]) (PyInt 42)
                    (PyStr "CE") (PyBool true) (PyInt 1) (PyBool false)))))
    = List.length
        (grid (train_call (PyStr "searchstims") (PyList [PyInt 5; PyInt 10]) (PyInt 42)
                 (PyStr "CE") (PyBool true) (PyInt 1) (PyBool false)) epochs_list).
Proof.
  destruct (train_trace quiet_world
              (train_call (PyStr "searchstims") (PyList [PyInt 5; PyInt 10]) (PyInt 42)
                 (PyStr "CE") (PyBool true) (PyInt 1) (PyBool false)) eq_refl)
    as [l [loop [Hl [_ [_ [Hprints [_ [Hlen _]]]]]]]].
  exists l, loop. repeat split; assumption.
Defined.

(** ** A method that [train] does not know *)

Lemma run_job_unknown_method (W : Train.world) (a : Train.args) (L : Train.locals)
  (epochs : pyval) (net_number : Z) :
  py_eq_str (Train.method a) "transfer" = false ->
  py_eq_str (Train.method a) "initialize" = false ->
  fails (Train.run_job W a L epochs None net_number) /\
  snd (Train.run_job W a L epochs None net_number)
  = [Train.make_save_path (Train.save_path a) (Train.net_name a) net_number epochs].
Proof.
  intros Ht Hi. unfold fails, Train.run_job, Train.bind, Train.ask, Train.read_local,
    Train.ret, Train.raise.
  rewrite Ht, Hi.
  destruct (Train.make_save_path_res W _ _ _ _); cbn; split; eauto.
Qed.

Lemma for_epochs_unknown_method (W : Train.world) (a : Train.args) (L : Train.locals)
  (epochs_list : list pyval) :
  py_eq_str (Train.method a) "transfer" = false ->
  py_eq_str (Train.method a) "initialize" = false ->
  trained_of (snd (Train.for_epochs W a L None epochs_list)) = [] /\
  (List.length (jobs_of (snd (Train.for_epochs W a L None epochs_list))) <= 1)%nat /\
  (grid a epochs_list <> [] -> fails (Train.for_epochs W a L None epochs_list)).
Proof.
  intros Ht Hi. induction epochs_list as [ | epochs rest IH ].
  - repeat split; simpl; try lia. intros H. contradiction H. reflexivity.
  - change (grid a (epochs :: rest))
      with (map (job_at a epochs) (replicates a) ++ grid a rest).
    unfold fails in *. cbn [Train.for_epochs]. step_print.
    cbn [Train.call snd app trained_of jobs_of].
    destruct (py_add (Train.number_nets_to_train a) (PyInt 1)) as [stop | e] eqn:Hstop;
      step_lift; [ | repeat split; simpl; eauto; lia ].
    destruct (Train.py_range 1 stop) as [net_numbers | e] eqn:Hrange;
      step_lift; [ | repeat split; simpl; eauto; lia ].
    rewrite (replicates_spec a stop net_numbers Hstop Hrange).
    destruct (replicates a) as [ | n others ].
    + cbn [Train.for_net_number map app].
      match goal with
      | |- context [Train.bind (Train.ret ?x) ?k] =>
          destruct (bind_ok (Train.ret x) k x eq_refl) as [Hfst Hsnd];
          rewrite Hfst, Hsnd; clear Hfst Hsnd
      end.
      exact IH.
    + cbn [Train.for_net_number].
      destruct (run_job_unknown_method W a L epochs n Ht Hi) as [[e He] Hlog].
      rewrite (bind_raise _ _ e (fst_bind_raise _ _ e He)).
      cbn [fst snd]. rewrite (bind_raise _ _ e He). cbn [snd]. rewrite Hlog.
      repeat split; simpl; eauto.
Qed.

(** X18: with a [method] that is neither "transfer" nor "initialize", [train]
    constructs no trainer and runs none.  It returns only when the grid
    has no job; when there is a job it computes at most one save path and
    ends in an exception. *)
Theorem train_unknown_method (W : Train.world) (a : Train.args) :
  py_eq_str (Train.method a) "transfer" = false ->
  py_eq_str (Train.method a) "initialize" = false ->
  constructed_of (snd (Train.train W a)) = [] /\
  trained_of (snd (Train.train W a)) = [] /\
  (List.length (jobs_of (snd (Train.train W a))) <= 1)%nat /\
  (forall epochs_list,
      Train.normalize_epochs_list (Train.epochs_list a) = Ok epochs_list ->
      grid a epochs_list <> [] -> fails (Train.train W a)).
Proof.
  intros Ht Hi.
  assert (Hnone : constructed_of (snd (Train.train W a)) = []).
  { destruct (train_constructed W a) as [Hnil | [l [L [_ [Hall _]]]]]; [ exact Hnil | ].
    destruct (constructed_of (snd (Train.train W a))) as [ | tr rest ]; [ reflexivity | ].
    inversion Hall as [ | ? ? Hmade _ ]; subst.
    destruct Hmade as [_ [_ [_ [[Hm _] | [_ [Hm _]]]]]]; congruence. }
  split; [ exact Hnone | ].
  destruct (train_cases W a) as [[e [He Hb]] | [l [L [Hp [Hlog _]]]]].
  - rewrite Hb. cbn [snd].
    rewrite (trained_of_none _ (prepare_no_loop_event W a)), prepare_no_jobs.
    split; [ reflexivity | split; [ simpl; lia | ] ].
    intros _ _ _. exists e. reflexivity.
  - destruct (for_epochs_unknown_method W a L l Ht Hi) as [Htr [Hjobs Hfails]].
    rewrite Hlog, trained_of_app, jobs_of_app, Htr, prepare_no_jobs.
    rewrite (trained_of_none _ (prepare_no_loop_event W a)).
    split; [ reflexivity | split; [ exact Hjobs | ] ].
    intros el Hnorm Hgrid.
    pose proof (prepare_ok_epochs W a (l, L) Hp) as Hl. cbn [fst] in Hl.
    rewrite Hnorm in Hl. injection Hl as ->.
    destruct (Hfails Hgrid) as [e He].
    exists e. unfold Train.train.
    rewrite (fst_bind_ok _ _ _ Hp). cbn [fst snd].
    exact (fst_bind_raise _ _ e He).
Qed.

Lemma train_unknown_method_witness :
  fails (Train.train quiet_world
           (with_method
              (train_call (PyStr "searchstims") (PyList [PyInt 5]) (PyInt 42) (PyStr "CE")
                 (PyBool true) (PyInt 1) (PyBool false))
              (PyStr "finetune"))) /\
  constructed_of
    (snd (Train.train quiet_world
            (with_method
               (train_call (PyStr "searchstims") (PyList [PyInt 5]) (PyInt 42) (PyStr "CE")
                  (PyBool true) (PyInt 1) (PyBool false))
               (PyStr "finetune"))))
  = [].
Proof.
  destruct (train_unknown_method quiet_world
              (with_method
                 (train_call (PyStr "searchstims") (PyList [PyInt 5]) (PyInt 42) (PyStr "CE")
                    (PyBool true) (PyInt 1) (PyBool false))
                 (PyStr "finetune")) eq_refl eq_refl) as [Hnone [_ [_ Hfails]]].
  split; [ | exact Hnone ].
  apply (Hfails [PyInt 5] eq_refl). discriminate.
Defined.

(** ** Trainers are run as they are constructed *)

Lemma runs_bind {A B : Type} (m : Train.M A) (k : A -> Train.M B) :
  runs_what_it_made m -> (forall x, fst m = Ok x -> runs_what_it_made (k x)) ->
  runs_what_it_made (Train.bind m k).
Proof.
  intros [rest [Hc [Hlen Hf]]] Hk. unfold runs_what_it_made, fails in *.
  destruct (bind_cases m k) as [[e [He ->]] | [x [Hx [Hfst Hsnd]]]].
  - exists rest. cbn [fst snd]. repeat split; try assumption. intros _. eauto.
  - destruct rest as [ | tr rest ].
    + destruct (Hk x Hx) as [rest' [Hc' [Hlen' Hf']]].
      exists rest'. rewrite Hfst, Hsnd, constructed_of_app, trained_of_app, Hc, Hc'.
      rewrite app_nil_r, app_assoc. repeat split; assumption.
    + destruct Hf as [e He]; [ discriminate | congruence ].
Qed.

Lemma runs_silent {A : Type} (m : Train.M A) :
  none_of is_job_event (snd m) -> runs_what_it_made m.
Proof.
  intros H. exists []. 
  assert (Hc : constructed_of (snd m) = [] /\ trained_of (snd m) = []).
  { induction H as [ | ev log Hev _ IH ]; [ split; reflexivity | ].
    destruct ev; try discriminate Hev; exact IH. }
  destruct Hc as [-> ->]. repeat split; [ simpl; lia | intros H'; contradiction H'; reflexivity ].
Qed.

Lemma run_job_runs (W : Train.world) (a : Train.args) (L : Train.locals) (epochs : pyval)
  (trainer : option Train.trainer_t) (net_number : Z) :
  method_known a \/ trainer = None ->
  runs_what_it_made (Train.run_job W a L epochs trainer net_number) /\
  (forall r, fst (Train.run_job W a L epochs trainer net_number) = Ok r -> method_known a).
Proof.
  unfold method_known, runs_what_it_made, fails.
  unfold Train.run_job, Train.common_kwargs, Train.bind, Train.ask, Train.call,
    Train.read_local, Train.ret, Train.raise.
  intros Hinv.
  assert (Hnil : forall l : list Train.trainer_t, l = [] -> (List.length l <= 1)%nat)
    by (intros l ->; simpl; lia).
  destruct (Train.make_save_path_res W (Train.save_path a) (Train.net_name a) net_number epochs)
    as [p | e];
    [ | split; [ exists []; cbn; repeat split; auto; intros H; contradiction H; reflexivity
               | discriminate ] ].
  destruct (py_eq_str (Train.method a) "transfer") eqn:Htransfer;
    [ | destruct (py_eq_str (Train.method a) "initialize") eqn:Hinit ].
  - split; [ | intros _ _; left; reflexivity ].
    destruct (Train.l_trainset L);
      [ | exists []; cbn; repeat split; auto; intros H; contradiction H; reflexivity ].
    destruct (Train.l_trainset_set_size L);
      [ | exists []; cbn; repeat split; auto; intros H; contradiction H; reflexivity ].
    destruct (Train.l_valset L);
      [ | exists []; cbn; repeat split; auto; intros H; contradiction H; reflexivity ].
    cbn. destruct (Train.from_config_exn W _);
      [ eexists [_]; cbn; repeat split; eauto | ].
    destruct (Train.trainer_train_exn W _);
      exists []; cbn; repeat split; auto; intros H; contradiction H; reflexivity.
  - split; [ | intros _ _; right; reflexivity ].
    destruct (Train.l_trainset L);
      [ | exists []; cbn; repeat split; auto; intros H; contradiction H; reflexivity ].
    destruct (Train.l_trainset_set_size L);
      [ | exists []; cbn; repeat split; auto; intros H; contradiction H; reflexivity ].
    destruct (Train.l_valset L);
      [ | exists []; cbn; repeat split; auto; intros H; contradiction H; reflexivity ].
    cbn. destruct (Train.from_config_exn W _);
      [ eexists [_]; cbn; repeat split; eauto | ].
    destruct (Train.trainer_train_exn W _);
      exists []; cbn; repeat split; auto; intros H; contradiction H; reflexivity.
  - destruct Hinv as [[H | H] | ->]; try discriminate H.
    split; [ | discriminate ].
    exists []. cbn. repeat split; auto. intros H. contradiction H. reflexivity.
Qed.

Lemma for_net_number_runs (W : Train.world) (a : Train.args) (L : Train.locals)
  (epochs : pyval) (net_numbers : list Z) (trainer : option Train.trainer_t) :
  method_known a \/ trainer = None ->
  runs_what_it_made (Train.for_net_number W a L epochs trainer net_numbers) /\
  (forall r, fst (Train.for_net_number W a L epochs trainer net_numbers) = Ok r ->
             method_known a \/ r = None).
Proof.
  revert trainer. induction net_numbers as [ | n rest IH ]; intros trainer Hinv; simpl.
  - split; [ apply runs_silent; constructor | ].
    intros r H. injection H as <-. exact Hinv.
  - destruct (run_job_runs W a L epochs trainer n Hinv) as [Hruns Hm]. split.
    + apply runs_bind; [ exact Hruns | ].
      intros x Hx. exact (proj1 (IH x (or_introl (Hm x Hx)))).
    + intros r H. apply bind_ok_inv in H. destruct H as [x [Hx [H _]]].
      exact (proj2 (IH x (or_introl (Hm x Hx))) r H).
Qed.

Lemma for_epochs_runs (W : Train.world) (a : Train.args) (L : Train.locals)
  (epochs_list : list pyval) (trainer : option Train.trainer_t) :
  method_known a \/ trainer = None ->
  runs_what_it_made (Train.for_epochs W a L trainer epochs_list).
Proof.
  revert trainer. induction epochs_list as [ | epochs rest IH ]; intros trainer Hinv; simpl.
  - apply runs_silent. constructor.
  - apply runs_bind; [ apply runs_silent; repeat constructor | intros _ _ ].
    apply runs_bind; [ apply runs_silent; constructor | intros stop _ ].
    apply runs_bind; [ apply runs_silent; constructor | intros net_numbers _ ].
    destruct (for_net_number_runs W a L epochs net_numbers trainer Hinv) as [Hruns Hinv'].
    apply runs_bind; [ exact Hruns | ].
    intros x Hx. apply IH. exact (Hinv' x Hx).
Qed.

(** X19: in every run, the trainers that are run are the trainers that were
    constructed, in the same order: [train] runs no trainer it has not
    just constructed and none twice.  One trainer at most is constructed
    and not run, the last one, and then the run ends in an exception. *)
Theorem train_runs_what_it_constructs (W : Train.world) (a : Train.args) :
  runs_what_it_made (Train.train W a).
Proof.
  unfold Train.train.
  apply runs_bind.
  - apply runs_silent. eapply Forall_impl; [ | apply prepare_no_loop_event ].
    intros ev Hev. destruct ev; try discriminate Hev; reflexivity.
  - intros prepared _. apply runs_bind.
    + apply for_epochs_runs. right. reflexivity.
    + intros ? _. apply runs_silent. constructor.
Qed.
